(** * Portfolio REST API: the project and skill routers

    A shallow embedding of [server/routes/projects.js] and
    [server/routes/skills.js].  Handlers are functions from a store and a
    request to a response (and a new store for the mutating ones).  The
    document store is a list of documents in insertion order; exceptions
    raised inside a handler's [try] block travel through a small result
    monad and are turned into responses by the handler's [catch] clause. *)

From Stdlib Require Import ZArith NArith List String Ascii Bool Lia.
From Stdlib Require Import Permutation Sorted.
Import ListNotations.

Local Open Scope string_scope.
Local Open Scope Z_scope.

Set Implicit Arguments.

(** ** JavaScript primitives used by the routers *)

Module Js.

(** Exceptions that the handlers can see in their [catch] clause. *)
Inductive Exn : Type :=
| CastError          (* Mongoose: value cannot be cast to ObjectId, kind = 'ObjectId' *)
| SyntaxError        (* new RegExp(...) on an invalid pattern *)
| DuplicateKey       (* store unique-index rejection, code = 11000 *)
| ValidationError    (* Mongoose: the schema refuses the document *)
| StoreError.        (* any other rejection by the store *)

(** [Ok a] is normal completion, [Throw e] an exception in flight, and
    [Beyond] marks an input on which the embedding does not describe the
    JavaScript semantics (see [RegExp] below); no [catch] intercepts it. *)
Inductive Result (A : Type) : Type :=
| Ok (a : A)
| Throw (e : Exn)
| Beyond.

Arguments Ok {A} a.
Arguments Throw {A} e.
Arguments Beyond {A}.

Definition bind {A B} (m : Result A) (k : A -> Result B) : Result B :=
  match m with
  | Ok a => k a
  | Throw e => Throw e
  | Beyond => Beyond
  end.

Notation "'let*' x ':=' m 'in' k" := (bind m (fun x => k))
  (at level 10, x name, m at level 100, k at level 200).

Definition tryCatch {A} (m : Result A) (handler : Exn -> Result A) : Result A :=
  match m with
  | Throw e => handler e
  | _ => m
  end.

Definition isCode11000 (e : Exn) : bool :=
  match e with DuplicateKey => true | _ => false end.

Definition isKindObjectId (e : Exn) : bool :=
  match e with CastError => true | _ => false end.

(** *** Characters *)

Definition code (c : ascii) : Z := Z.of_nat (nat_of_ascii c).

Definition between (lo hi : Z) (c : ascii) : bool :=
  (lo <=? code c) && (code c <=? hi).

(** The character class [[0-9a-fA-F]]. *)
Definition isHexDigit (c : ascii) : bool :=
  between 48 57 c || between 97 102 c || between 65 70 c.

(** White space as [String.prototype.trim], [parseInt] and validator's
    [trim] see it, restricted to the ASCII range: TAB, LF, VT, FF, CR, SP. *)
Definition isWhiteSpace (c : ascii) : bool :=
  between 9 13 c || (code c =? 32).

Definition toUpper (c : ascii) : ascii :=
  if between 97 122 c then ascii_of_nat (nat_of_ascii c - 32) else c.

(** *** Strings *)

Fixpoint dropWhile (p : ascii -> bool) (s : string) : string :=
  match s with
  | EmptyString => EmptyString
  | String c s' => if p c then dropWhile p s' else s
  end.

Fixpoint rev_string (s acc : string) : string :=
  match s with
  | EmptyString => acc
  | String c s' => rev_string s' (String c acc)
  end.

Definition trimStart (s : string) : string := dropWhile isWhiteSpace s.

Definition trimEnd (s : string) : string :=
  rev_string (dropWhile isWhiteSpace (rev_string s EmptyString)) EmptyString.

Definition trim (s : string) : string := trimEnd (trimStart s).

Fixpoint forallb_string (p : ascii -> bool) (s : string) : bool :=
  match s with
  | EmptyString => true
  | String c s' => p c && forallb_string p s'
  end.

Fixpoint mapString (f : ascii -> ascii) (s : string) : string :=
  match s with
  | EmptyString => EmptyString
  | String c s' => String (f c) (mapString f s')
  end.

Definition toUpperCase (s : string) : string := mapString toUpper s.

(** Equality ignoring letter case (ASCII letters). *)
Definition eqIgnoreCase (s t : string) : bool :=
  String.eqb (toUpperCase s) (toUpperCase t).

(** Truthiness of a string: [if (s)] holds unless [s] is empty. *)
Definition truthy (s : string) : bool :=
  match s with EmptyString => false | _ => true end.

(** Truthiness of a possibly undefined string. *)
Definition truthyOpt (v : option string) : bool :=
  match v with Some s => truthy s | None => false end.

(** *** Numbers

    Numbers are integers in [Z]; this is exact for the integers the
    routers compute with as long as they stay below 2^53. *)

Definition digitValue (radix : Z) (c : ascii) : option Z :=
  let v :=
    if between 48 57 c then code c - 48
    else if between 97 122 c then code c - 87
    else if between 65 90 c then code c - 55
    else 36 in
  if v <? radix then Some v else None.

(** Longest prefix of radix digits, [None] when it is empty. *)
Fixpoint parseDigits (radix : Z) (s : string) (acc : option Z) : option Z :=
  match s with
  | EmptyString => acc
  | String c s' =>
      match digitValue radix c with
      | Some d =>
          parseDigits radix s'
            (Some (match acc with Some a => a * radix + d | None => d end))
      | None => acc
      end
  end.

(** [parseInt(s)] with no radix argument; [None] is NaN.  The value is
    the one of JavaScript when it lies within [maxSafeInteger] (below). *)
Definition parseInt (s : string) : option Z :=
  let s1 := trimStart s in
  let '(sign, s2) :=
    match s1 with
    | String c r =>
        if Ascii.eqb c "-" then (-1, r)
        else if Ascii.eqb c "+" then (1, r)
        else (1, s1)
    | EmptyString => (1, s1)
    end in
  let '(radix, s3) :=
    match s2 with
    | String c0 (String c1 r) =>
        if Ascii.eqb c0 "0" && (Ascii.eqb c1 "x" || Ascii.eqb c1 "X")
        then (16, r) else (10, s2)
    | _ => (10, s2)
    end in
  option_map (Z.mul sign) (parseDigits radix s3 None).

(** [parseInt(q) || d] for a query value that may be undefined. *)
Definition parseIntOr (q : option string) (d : Z) : Z :=
  match q with
  | None => d
  | Some s =>
      match parseInt s with
      | None => d
      | Some 0 => d
      | Some n => n
      end
  end.


(** [Math.ceil(a / b)] for integers [a] and [b <> 0]. *)
Definition ceilDiv (a b : Z) : Z := - ((- a) / b).

End Js.

(** ** The document store *)

Module Mongo.

Import Js.

(** An ObjectId is the number written by its 24 hexadecimal digits. *)
Definition ObjectId : Type := N.

Bind Scope N_scope with ObjectId.

Definition hexDigitValue (c : ascii) : N :=
  match digitValue 16 c with
  | Some v => Z.to_N v
  | None => 0%N
  end.

Fixpoint hexValue (s : string) (acc : N) : N :=
  match s with
  | EmptyString => acc
  | String c s' => hexValue s' (acc * 16 + hexDigitValue c)%N
  end.

(** [n] characters of the class [cls] and then the end of the input:
    the regular expression [^[cls]{n}$]. *)
Fixpoint matchClassN (cls : ascii -> bool) (n : nat) (s : string) : bool :=
  match n, s with
  | O, EmptyString => true
  | S n', String c s' => cls c && matchClassN cls n' s'
  | _, _ => false
  end.

(** [/^[0-9a-fA-F]{24}$/.test(s)] *)
Definition isObjectIdString (s : string) : bool :=
  matchClassN isHexDigit 24 s.

(** Casting a string to an ObjectId.  A string of 24 hexadecimal digits
    casts to the id it spells; what happens to any other string depends
    on the driver version and is left to [castOther] ([None] raises a
    CastError). *)
Definition castObjectId (castOther : string -> option ObjectId) (s : string)
  : Result ObjectId :=
  if isObjectIdString s then Ok (hexValue s 0%N)
  else match castOther s with
       | Some o => Ok o
       | None => Throw CastError
       end.

(** Sort by a "comes no later than" test, as [.sort(...)].  Documents
    with equal keys are left here in the order of the collection; the
    store itself promises no order among them, and may answer two queries
    with different ones. *)
Fixpoint insertBy {A} (le : A -> A -> bool) (x : A) (l : list A) : list A :=
  match l with
  | [] => [x]
  | y :: l' => if le x y then x :: l else y :: insertBy le x l'
  end.

Definition sortBy {A} (le : A -> A -> bool) (l : list A) : list A :=
  fold_right (insertBy le) [] l.

(** [.skip(n)]: the store rejects a negative count. *)
Definition skip {A} (n : Z) (l : list A) : Result (list A) :=
  if n <? 0 then Throw StoreError else Ok (skipn (Z.to_nat n) l).

(** [.limit(n)]: zero means no limit, and the driver takes a negative
    count by its absolute value. *)
Definition limit {A} (n : Z) (l : list A) : list A :=
  if n =? 0 then l else firstn (Z.to_nat (Z.abs n)) l.

End Mongo.

(** ** HTTP plumbing shared by the routers *)

Module Http.

Import Js Mongo.

Record Response (B : Type) : Type := mkResponse {
  status : Z;
  body : B
}.

Arguments mkResponse {B} status body.
Arguments status {B} r.
Arguments body {B} r.

(** One entry of express-validator's [errors.array()]. *)
Record FieldError : Type := mkFieldError {
  field : string;
  msg : string
}.

(** The identity that the auth middleware attaches as [req.user]. *)
Record User : Type := mkUser {
  userId : ObjectId;
  role : string
}.

Definition isAdmin (u : User) : bool := String.eqb (role u) "admin".

(** Modelled from the spec: the auth middleware [server/middleware/auth.js],
    which the routers import and which is not part of the sources.  Spec
    4.1: a missing token is an unauthenticated error, so is a malformed,
    expired or wrongly signed one; otherwise the resolved identity (id,
    role) is attached to the request and the next handler runs.  The role
    is not looked at here.  [resolve] stands for the verification of the
    Authorization header value, [unauthenticated] for the 401 response. *)
Definition auth {A} (resolve : string -> option User)
    (authorization : option string)
    (unauthenticated : A) (next : User -> A) : A :=
  match authorization with
  | None => unauthenticated
  | Some header =>
      match resolve header with
      | None => unauthenticated
      | Some user => next user
      end
  end.

(** The handler answers with status [code] and leaves the store [st]. *)
Definition answers {B S} (m : Result (Response B * S)) (code : Z) (st : S)
  : Prop :=
  exists r, m = Ok (r, st) /\ status r = code.

End Http.

(** ** server/routes/projects.js *)

Module Projects.

Import Js Mongo Http.

(** The fields of a Project document that the router reads. *)
Record Project : Type := mkProject {
  _id : ObjectId;
  title : string;
  slug : string;
  category : string;
  isFeatured : bool;
  isPublished : bool;
  priority : Z;
  createdAt : Z
}.

Record Store : Type := mkStore {
  docs : list Project;       (* the collection, in insertion order *)
  nextId : ObjectId          (* the id the next new document gets *)
}.

(** [req.query] of GET /projects; [None] is an absent parameter. *)
Record Query : Type := mkQuery {
  q_page : option string;
  q_limit : option string;
  q_category : option string;
  q_featured : option string;
  q_search : option string;
  q_exclude : option string
}.

Record Pagination : Type := mkPagination {
  page : Z;
  limit : Z;
  total : Z;
  pages : Z
}.

Inductive Body : Type :=
| Message (m : string)
| Errors (es : list FieldError)
| Doc (p : Project)
| Docs (ps : list Project)
| Page (ps : list Project) (pg : Pagination).

(** The query objects that the router hands to the store: every field
    is an optional condition, all present conditions must hold. *)
Record Filter : Type := mkFilter {
  f_isPublished : option bool;        (* isPublished: b *)
  f_category : option string;         (* category: c *)
  f_isFeatured : option bool;         (* isFeatured: b *)
  f_text : option string;             (* $text: { $search: s } *)
  f_id_ne : option string;            (* _id: { $ne: s } *)
  f_id : option string;               (* _id: s *)
  f_slug : option string              (* slug: s *)
}.

Definition noFilter : Filter := mkFilter None None None None None None None.

Definition with_isPublished (b : bool) (f : Filter) : Filter :=
  mkFilter (Some b) (f_category f) (f_isFeatured f) (f_text f) (f_id_ne f)
           (f_id f) (f_slug f).
Definition with_category (c : string) (f : Filter) : Filter :=
  mkFilter (f_isPublished f) (Some c) (f_isFeatured f) (f_text f) (f_id_ne f)
           (f_id f) (f_slug f).
Definition with_isFeatured (b : bool) (f : Filter) : Filter :=
  mkFilter (f_isPublished f) (f_category f) (Some b) (f_text f) (f_id_ne f)
           (f_id f) (f_slug f).
Definition with_text (s : string) (f : Filter) : Filter :=
  mkFilter (f_isPublished f) (f_category f) (f_isFeatured f) (Some s) (f_id_ne f)
           (f_id f) (f_slug f).
Definition with_id_ne (s : string) (f : Filter) : Filter :=
  mkFilter (f_isPublished f) (f_category f) (f_isFeatured f) (f_text f) (Some s)
           (f_id f) (f_slug f).
Definition with_id (s : string) (f : Filter) : Filter :=
  mkFilter (f_isPublished f) (f_category f) (f_isFeatured f) (f_text f) (f_id_ne f)
           (Some s) (f_slug f).
Definition with_slug (s : string) (f : Filter) : Filter :=
  mkFilter (f_isPublished f) (f_category f) (f_isFeatured f) (f_text f) (f_id_ne f)
           (f_id f) (Some s).

Definition holds {A} (cond : option A) (test : A -> bool) : bool :=
  match cond with
  | None => true
  | Some a => test a
  end.

(** [.sort({ priority: -1, createdAt: -1 })] *)
Definition byPriorityThenRecency (a b : Project) : bool :=
  (priority b <? priority a)
  || ((priority a =? priority b) && (createdAt b <=? createdAt a)).

(** [.sort({ createdAt: -1 })] *)
Definition byRecency (a b : Project) : bool := createdAt b <=? createdAt a.

Section Router.

(** What lives outside the router: the token verification behind the auth
    middleware, the driver's cast of strings that are not 24 hexadecimal
    digits, the text index of the Project schema, the validator chains of
    [middleware/validation], and the Project model itself (how a document
    is built from a request body, how an update is applied, and which
    documents the schema and its unique title index refuse on save). *)
Variable resolve : string -> option User.
Variable unauthenticatedMessage : string.
Variable castOther : string -> option ObjectId.
Variable textMatch : string -> Project -> bool.
Variable ProjectBody : Type.
Variable validateProject : ProjectBody -> list FieldError.
Variable validateId : string -> list FieldError.
Variable newProject : ObjectId -> ProjectBody -> Project.
Variable applyBody : Project -> ProjectBody -> Project.
Variable saveRejects : list Project -> Project -> option Exn.

(** The cast of a condition on [_id], done by the store before matching. *)
Definition castCondition (cond : option string) : Result (option ObjectId) :=
  match cond with
  | None => Ok None
  | Some s => let* o := castObjectId castOther s in Ok (Some o)
  end.

Definition matches (f : Filter) (idNe idEq : option ObjectId) (p : Project)
  : bool :=
  holds (f_isPublished f) (Bool.eqb (isPublished p))
  && holds (f_category f) (String.eqb (category p))
  && holds (f_isFeatured f) (Bool.eqb (isFeatured p))
  && holds (f_text f) (fun s => textMatch s p)
  && holds idNe (fun o => negb (N.eqb (_id p) o))
  && holds idEq (N.eqb (_id p))
  && holds (f_slug f) (String.eqb (slug p)).

(** [Project.find(query)] *)
Definition find (ds : list Project) (f : Filter) : Result (list Project) :=
  let* idNe := castCondition (f_id_ne f) in
  let* idEq := castCondition (f_id f) in
  Ok (filter (matches f idNe idEq) ds).

(** [Project.findOne(query)] *)
Definition findOne (ds : list Project) (f : Filter) : Result (option Project) :=
  let* l := find ds f in Ok (hd_error l).

(** [Project.countDocuments(query)] *)
Definition countDocuments (ds : list Project) (f : Filter) : Result Z :=
  let* l := find ds f in Ok (Z.of_nat (List.length l)).

Definition serverError : Response Body :=
  mkResponse 500 (Message "Server error").

(** The query object that GET / builds from [req.query]. *)
Definition listFilter (q : Query) : Filter :=
  let query := with_isPublished true noFilter in
  let query :=
    match q_category q with
    | Some c => if truthy c then with_category c query else query
    | None => query
    end in
  let query :=
    match q_featured q with
    | Some v => if String.eqb v "true" then with_isFeatured true query else query
    | None => query
    end in
  let query :=
    match q_search q with
    | Some s => if truthy s then with_text s query else query
    | None => query
    end in
  match q_exclude q with
  | Some e => if truthy e then with_id_ne e query else query
  | None => query
  end.

(** GET / (public): the handler that runs once [validatePagination] has
    let the request through. *)
Definition getProjects (st : Store) (q : Query) : Result (Response Body) :=
  tryCatch
    (let page := parseIntOr (q_page q) 1 in
     let limit := parseIntOr (q_limit q) 10 in
     let skip := (page - 1) * limit in
     let query := listFilter q in
     let* found := find (docs st) query in
     let* rest := Mongo.skip skip (sortBy byPriorityThenRecency found) in
     let projects := Mongo.limit limit rest in
     let* total := countDocuments (docs st) query in
     Ok (mkResponse 200
           (Page projects
              (mkPagination page limit total (ceilDiv total limit)))))
    (fun _ => Ok serverError).

(** GET /featured (public) *)
Definition getFeatured (st : Store) : Result (Response Body) :=
  tryCatch
    (let* found := find (docs st) (with_isFeatured true (with_isPublished true noFilter)) in
     let projects := Mongo.limit 6 (sortBy byPriorityThenRecency found) in
     Ok (mkResponse 200 (Docs projects)))
    (fun _ => Ok serverError).

(** GET /:identifier (public) *)
Definition getProject (st : Store) (identifier : string)
  : Result (Response Body) :=
  tryCatch
    (let isObjectId := isObjectIdString identifier in
     let query :=
       if isObjectId then with_id identifier noFilter
       else with_slug identifier noFilter in
     let query := with_isPublished true query in
     let* project := findOne (docs st) query in
     match project with
     | None => Ok (mkResponse 404 (Message "Project not found"))
     | Some p => Ok (mkResponse 200 (Doc p))
     end)
    (fun _ => Ok serverError).

(** Requests to the routes behind [auth]. *)
Record AdminRequest : Type := mkAdminRequest {
  authorization : option string;
  paramId : string;
  reqBody : ProjectBody
}.

Definition unauthenticated (st : Store) : Result (Response Body * Store) :=
  Ok (mkResponse 401 (Message unauthenticatedMessage), st).

(** [project.save()] and the write half of [findByIdAndUpdate]: the
    document replaces the one with its id, or is appended. *)
Fixpoint put (p : Project) (ds : list Project) : list Project :=
  match ds with
  | [] => [p]
  | d :: ds' => if N.eqb (_id d) (_id p) then p :: ds' else d :: put p ds'
  end.

Definition others (o : ObjectId) (ds : list Project) : list Project :=
  filter (fun d => negb (N.eqb (_id d) o)) ds.

Definition save (ds : list Project) (p : Project) : Result (list Project) :=
  match saveRejects (others (_id p) ds) p with
  | Some e => Throw e
  | None => Ok (put p ds)
  end.

Definition titleExists : Response Body :=
  mkResponse 400 (Message "Project with this title already exists").

(** POST / (admin only): [auth, ...validateProject] *)
Definition postProject (st : Store) (req : AdminRequest)
  : Result (Response Body * Store) :=
  auth resolve (authorization req) (unauthenticated st) (fun _ =>
  tryCatch
    (let errors := validateProject (reqBody req) in
     if negb (Nat.eqb (List.length errors) 0)
     then Ok (mkResponse 400 (Errors errors), st)
     else
       let project := newProject (nextId st) (reqBody req) in
       let* ds' := save (docs st) project in
       Ok (mkResponse 201 (Doc project), mkStore ds' (N.succ (nextId st))))
    (fun error =>
       if isCode11000 error then Ok (titleExists, st)
       else Ok (serverError, st))).

(** [Project.findById]-style lookup after the cast of the id. *)
Definition findById (ds : list Project) (id : string) : Result (option Project) :=
  let* o := castObjectId castOther id in
  Ok (List.find (fun d => N.eqb (_id d) o) ds).

(** PUT /:id (admin only): [auth, validateId, ...validateProject] *)
Definition putProject (st : Store) (req : AdminRequest)
  : Result (Response Body * Store) :=
  auth resolve (authorization req) (unauthenticated st) (fun _ =>
  tryCatch
    (let errors := (validateId (paramId req) ++ validateProject (reqBody req))%list in
     if negb (Nat.eqb (List.length errors) 0)
     then Ok (mkResponse 400 (Errors errors), st)
     else
       let* found := findById (docs st) (paramId req) in
       match found with
       | None => Ok (mkResponse 404 (Message "Project not found"), st)
       | Some old =>
           let project := applyBody old (reqBody req) in
           let* ds' := save (docs st) project in
           Ok (mkResponse 200 (Doc project), mkStore ds' (nextId st))
       end)
    (fun error =>
       if isCode11000 error then Ok (titleExists, st)
       else Ok (serverError, st))).

(** DELETE /:id (admin only): [auth, validateId] *)
Definition deleteProject (st : Store) (req : AdminRequest)
  : Result (Response Body * Store) :=
  auth resolve (authorization req) (unauthenticated st) (fun _ =>
  tryCatch
    (let errors := validateId (paramId req) in
     if negb (Nat.eqb (List.length errors) 0)
     then Ok (mkResponse 400 (Errors errors), st)
     else
       let* found := findById (docs st) (paramId req) in
       match found with
       | None => Ok (mkResponse 404 (Message "Project not found"), st)
       | Some old =>
           Ok (mkResponse 200 (Message "Project deleted successfully"),
               mkStore (others (_id old) (docs st)) (nextId st))
       end)
    (fun _ => Ok (serverError, st))).

(** GET /admin/all: [auth] *)
Definition getAdminAll (st : Store) (req : AdminRequest)
  : Result (Response Body * Store) :=
  auth resolve (authorization req) (unauthenticated st) (fun _ =>
  tryCatch
    (let* found := find (docs st) noFilter in
     Ok (mkResponse 200 (Docs (sortBy byRecency found)), st))
    (fun _ => Ok (serverError, st))).

End Router.

(** The query with its [featured] parameter taken away. *)
Definition withoutFeatured (q : Query) : Query :=
  mkQuery (q_page q) (q_limit q) (q_category q) None (q_search q) (q_exclude q).

(** What GET /projects/:identifier looks for: a published project whose
    id is the one the identifier spells when the identifier has the shape
    of an id, and whose slug is the identifier otherwise. *)
Definition resolvesTo (identifier : string) (p : Project) : Prop :=
  isPublished p = true
  /\ if isObjectIdString identifier
     then _id p = hexValue identifier 0%N
     else slug p = identifier.

End Projects.

(** ** Regular expressions built from request strings

    The skill router builds [new RegExp(`^${s}$`, 'i')] from a string [s]
    of the request and never escapes it.  The embedding covers the
    patterns in which [s] is made of printable ASCII characters and uses,
    of the syntax characters, only [.] and the quantifiers [*], [+], [?]
    (each possibly followed by the lazy mark [?]); tested strings must be
    printable ASCII too.  Everything else is [Beyond]. *)

Module RegExp.

Import Js.

Inductive Atom : Type :=
| AChar (c : ascii)      (* a pattern character *)
| ADot.                  (* . *)

Inductive Quant : Type :=
| Once
| Optional               (* ? *)
| ZeroOrMore             (* * *)
| OneOrMore.             (* + *)

(** The terms between [^] and [$]. *)
Definition Pattern : Type := list (Atom * Quant).

Definition isPrintable (c : ascii) : bool := between 32 126 c.

Definition quantifierOf (c : ascii) : option Quant :=
  if Ascii.eqb c "*" then Some ZeroOrMore
  else if Ascii.eqb c "+" then Some OneOrMore
  else if Ascii.eqb c "?" then Some Optional
  else None.

(** The syntax characters other than [.] and the quantifiers:
    [^ $ \ | ( ) [ ] { }]. *)
Definition isOtherSyntaxChar (c : ascii) : bool :=
  Ascii.eqb c "^" || Ascii.eqb c "$" || Ascii.eqb c "\" || Ascii.eqb c "|"
  || Ascii.eqb c "(" || Ascii.eqb c ")" || Ascii.eqb c "[" || Ascii.eqb c "]"
  || Ascii.eqb c "{" || Ascii.eqb c "}".

Definition atomOf (c : ascii) : option Atom :=
  if Ascii.eqb c "." then Some ADot
  else if isPrintable c && negb (isOtherSyntaxChar c) then Some (AChar c)
  else None.

Definition consTerm (t : Atom * Quant) (m : Result Pattern) : Result Pattern :=
  bind m (fun p => Ok (t :: p)).

(** Parsing of the text between [^] and [$], left to right.  A quantifier
    with no atom before it (at the start, right after [^], or after a
    quantified atom) is the syntax error "Nothing to repeat". *)
Fixpoint parseTerms (s : string) : Result Pattern :=
  match s with
  | EmptyString => Ok []
  | String c rest =>
      match quantifierOf c with
      | Some _ => Throw SyntaxError
      | None =>
          match atomOf c with
          | None => Beyond
          | Some a =>
              match rest with
              | EmptyString => Ok [(a, Once)]
              | String q rest1 =>
                  match quantifierOf q with
                  | None => consTerm (a, Once) (parseTerms rest)
                  | Some k =>
                      match rest1 with
                      | EmptyString => Ok [(a, k)]
                      | String l rest2 =>
                          if Ascii.eqb l "?"
                          then consTerm (a, k) (parseTerms rest2)
                          else consTerm (a, k) (parseTerms rest1)
                      end
                  end
              end
          end
      end
  end.

(** [new RegExp(`^${s}$`, 'i')] *)
Definition anchoredIgnoreCase (s : string) : Result Pattern := parseTerms s.

(** One character against one atom under the [i] flag. *)
Definition accepts (a : Atom) (c : ascii) : bool :=
  match a with
  | AChar p => Ascii.eqb (toUpper p) (toUpper c)
  | ADot => true
  end.

(** Does the pattern match the whole of [s]?  All ways of splitting the
    input among the quantified atoms are tried. *)
Fixpoint matchHere (p : Pattern) (s : string) {struct p} : bool :=
  match p with
  | [] => match s with EmptyString => true | _ => false end
  | (a, q) :: p' =>
      let one (k : string -> bool) (s : string) : bool :=
        match s with
        | String c s' => accepts a c && k s'
        | EmptyString => false
        end in
      let many :=
        fix many (s : string) : bool :=
          matchHere p' s
          || match s with
             | String c s' => accepts a c && many s'
             | EmptyString => false
             end in
      match q with
      | Once => one (matchHere p') s
      | Optional => matchHere p' s || one (matchHere p') s
      | ZeroOrMore => many s
      | OneOrMore => one many s
      end
  end.

(** The store's test of a field value against the compiled pattern. *)
Definition test (p : Pattern) (subject : string) : Result bool :=
  if forallb_string isPrintable subject then Ok (matchHere p subject)
  else Beyond.

(** The pattern that matches the characters of [s] one by one. *)
Fixpoint literal (s : string) : Pattern :=
  match s with
  | EmptyString => []
  | String c s' => (AChar c, Once) :: literal s'
  end.

(** Strings that [parseTerms] reads as themselves. *)
Definition isPlainChar (c : ascii) : bool :=
  isPrintable c && negb (isOtherSyntaxChar c) && negb (Ascii.eqb c ".")
  && match quantifierOf c with Some _ => false | None => true end.

Definition isPlain (s : string) : bool := forallb_string isPlainChar s.

End RegExp.

(** ** server/routes/skills.js *)

Module Skills.

Import Js Mongo Http.

Record Skill : Type := mkSkill {
  _id : ObjectId;
  name : string;
  category : string;
  level : string;
  proficiency : Z;
  icon : string;
  color : string;
  description : string;
  yearsOfExperience : Z;
  isVisible : bool;
  order : Z
}.

Record Store : Type := mkStore {
  docs : list Skill;         (* the collection, in insertion order *)
  nextId : ObjectId          (* the id the next new document gets *)
}.

(** A skill as a request carries it: the JSON body of POST / and PUT /:id
    and each element of the array of POST /bulk.  [None] is a field that
    is not there ([undefined]).  The bodies of the model carry strings in
    the text fields, integers in the numeric fields and a boolean in
    [isVisible]; a body with another kind of value there (a fraction, a
    string for a number) is outside the model. *)
Record SkillBody : Type := mkSkillBody {
  b_name : option string;
  b_category : option string;
  b_level : option string;
  b_proficiency : option Z;
  b_icon : option string;
  b_color : option string;
  b_description : option string;
  b_yearsOfExperience : option Z;
  b_isVisible : option bool;
  b_order : option Z
}.

Record Request : Type := mkRequest {
  authorization : option string;
  paramId : string;                     (* req.params.id *)
  reqBody : SkillBody;                  (* req.body *)
  bulkSkills : option (list SkillBody)  (* req.body.skills when it is an array *)
}.

(** [req.query] of GET /skills *)
Record Query : Type := mkQuery {
  q_category : option string;
  q_sort : option string
}.

Inductive Body : Type :=
| Message (m : string)
| Errors (es : list FieldError)
| Doc (s : Skill)
| Docs (l : list Skill)
| Invalid (m : string) (invalidSkill : SkillBody)
| Details (m : string).

Definition categories : list string :=
  ["frontend"; "backend"; "database"; "devops"; "mobile"; "design"; "tools";
   "other"].

Definition levels : list string :=
  ["beginner"; "intermediate"; "advanced"; "expert"].

Definition isIn (l : list string) (s : string) : bool :=
  existsb (String.eqb s) l.

Definition categoryMessage : string :=
  "Category must be one of: frontend, backend, database, devops, mobile, design, tools, other".

Definition levelMessage : string :=
  "Level must be one of: beginner, intermediate, advanced, expert".

(** The sanitizers of the validation chains: [trim()] on name, category,
    icon, color and description.  A chain marked [optional()] leaves an
    absent field alone. *)
Definition sanitize (b : SkillBody) : SkillBody :=
  mkSkillBody
    (option_map trim (b_name b))
    (option_map trim (b_category b))
    (b_level b)
    (b_proficiency b)
    (option_map trim (b_icon b))
    (option_map trim (b_color b))
    (option_map trim (b_description b))
    (b_yearsOfExperience b)
    (b_isVisible b)
    (b_order b).

Definition check (ok : bool) (f m : string) : list FieldError :=
  if ok then [] else [mkFieldError f m].

(** [isInt()] on a number of the body.  The validator tests the printed
    number: an integer passes unless it is printed with an exponent, which
    happens from 10^21 on. *)
Definition isInt (z : Z) : bool := Z.abs z <? 10 ^ 21.

(** [isBoolean()] on a boolean of the body: it is printed "true" or
    "false", and both pass. *)
Definition isBoolean (v : bool) : bool := true.

(** The checks shared by POST / and PUT /:id, each behind [optional()]:
    level, proficiency, yearsOfExperience, isVisible and order. *)
Definition optionalFieldErrors (b : SkillBody) : list FieldError :=
  (match b_level b with
   | Some l => check (isIn levels l) "level" levelMessage
   | None => []
   end
   ++ match b_proficiency b with
      | Some p =>
          check (isInt p && (0 <=? p) && (p <=? 100)) "proficiency"
            "Proficiency must be an integer between 0 and 100"
      | None => []
      end
   ++ match b_yearsOfExperience b with
      | Some y =>
          check (isInt y && (0 <=? y)) "yearsOfExperience"
            "Years of experience must be a positive integer"
      | None => []
      end
   ++ match b_isVisible b with
      | Some v => check (isBoolean v) "isVisible" "isVisible must be a boolean"
      | None => []
      end
   ++ match b_order b with
      | Some o => check (isInt o) "order" "Order must be an integer"
      | None => []
      end)%list.

(** The validators of POST /, on the sanitized body. *)
Definition createErrors (b : SkillBody) : list FieldError :=
  (check (truthyOpt (b_name b)) "name" "Name is required"
   ++ check (truthyOpt (b_category b)) "category" "Category is required"
   ++ check (match b_category b with Some c => isIn categories c | None => false end)
        "category" categoryMessage
   ++ optionalFieldErrors b)%list.

(** The validators of PUT /:id, on the sanitized body. *)
Definition updateErrors (b : SkillBody) : list FieldError :=
  (match b_name b with
   | Some n => check (truthy n) "name" "Name cannot be empty"
   | None => []
   end
   ++ match b_category b with
      | Some c =>
          (check (truthy c) "category" "Category cannot be empty"
           ++ check (isIn categories c) "category" categoryMessage)%list
      | None => []
      end
   ++ optionalFieldErrors b)%list.

(** The [validation] middleware: with validation errors the request
    ends here and the store is left as it was. *)
Definition validation {A} (errors : list FieldError) (st : A)
    (next : Result (Response Body * A)) : Result (Response Body * A) :=
  if negb (Nat.eqb (List.length errors) 0)
  then Ok (mkResponse 400 (Errors errors), st)
  else next.

(** A template literal prints an undefined value as "undefined". *)
Definition interpolate (v : option string) : string :=
  match v with
  | Some s => s
  | None => "undefined"
  end.

(** [a || b] on strings, [a] possibly undefined *)
Definition orString (a : option string) (b : string) : string :=
  match a with
  | Some s => if truthy s then s else b
  | None => b
  end.

Definition assign {A} (v : option A) (old : A) : A :=
  match v with
  | Some a => a
  | None => old
  end.

(** [findOne] over the collection with a test that may raise. *)
Fixpoint findFirst (t : Skill -> Result bool) (ds : list Skill)
  : Result (option Skill) :=
  match ds with
  | [] => Ok None
  | d :: ds' =>
      let* hit := t d in if hit then Ok (Some d) else findFirst t ds'
  end.

(** [find] over the collection with a test that may raise. *)
Fixpoint findAll (t : Skill -> Result bool) (ds : list Skill)
  : Result (list Skill) :=
  match ds with
  | [] => Ok []
  | d :: ds' =>
      let* hit := t d in
      let* l := findAll t ds' in Ok (if hit then d :: l else l)
  end.

(** The condition [{ name: { $regex: rn }, category: { $regex: rc } }]. *)
Definition nameAndCategory (rn rc : RegExp.Pattern) (d : Skill) : Result bool :=
  let* n := RegExp.test rn (name d) in
  let* c := RegExp.test rc (category d) in Ok (n && c).

Fixpoint put (s : Skill) (ds : list Skill) : list Skill :=
  match ds with
  | [] => [s]
  | d :: ds' => if N.eqb (_id d) (_id s) then s :: ds' else d :: put s ds'
  end.

Definition others (o : ObjectId) (ds : list Skill) : list Skill :=
  filter (fun d => negb (N.eqb (_id d) o)) ds.

Section Router.

(** What lives outside the router: the token verification behind the
    auth middleware, the driver's cast of strings that are not 24
    hexadecimal digits, the sort keys that the store refuses (the empty
    key, a key that starts with a dollar sign), the store's ascending
    order on a named field, and the Skill model (the schema's default
    values, and which documents the schema and its unique index refuse on
    save, with the error raised). *)
Variable resolve : string -> option User.
Variable unauthenticatedMessage : string.
Variable castOther : string -> option ObjectId.
Variable sortRefuses : string -> bool.
Variable fieldLe : string -> Skill -> Skill -> bool.
Variable defaults : Skill.
Variable saveRejects : list Skill -> Skill -> option Exn.

(** The order of [.sort({ f1: 1, f2: 1, ... })] *)
Fixpoint lexLe (fields : list string) (a b : Skill) : bool :=
  match fields with
  | [] => true
  | f :: fs =>
      if fieldLe f a b
      then if fieldLe f b a then lexLe fs a b else true
      else false
  end.

(** [.sort({ f1: 1, f2: 1, ... })]: the query fails when the store
    refuses one of the keys. *)
Definition sortByFields (fields : list string) (ds : list Skill)
  : Result (list Skill) :=
  if existsb sortRefuses fields then Throw StoreError
  else Ok (sortBy (lexLe fields) ds).

Definition unauthenticated {A} (a : A) : Result (Response Body * A) :=
  Ok (mkResponse 401 (Message unauthenticatedMessage), a).

Definition respond {A} (code : Z) (b : Body) (a : A)
  : Result (Response Body * A) :=
  Ok (mkResponse code b, a).

(** The pattern for [query.category], built when the parameter is given. *)
Definition categoryRegex (category : option string)
  : Result (option RegExp.Pattern) :=
  match category with
  | Some c =>
      if truthy c
      then let* r := RegExp.anchoredIgnoreCase c in Ok (Some r)
      else Ok None
  | None => Ok None
  end.

(** The condition [{ isVisible: true, category: { $regex: r } }]. *)
Definition visibleInCategory (r : option RegExp.Pattern) (d : Skill)
  : Result bool :=
  if isVisible d
  then match r with
       | Some r => RegExp.test r (category d)
       | None => Ok true
       end
  else Ok false.

(** GET / (public) *)
Definition getSkills (st : Store) (q : Query) : Result (Response Body) :=
  tryCatch
    (let sort := match q_sort q with Some s => s | None => "name" end in
     let* r := categoryRegex (q_category q) in
     let* found := findAll (visibleInCategory r) (docs st) in
     let* skills := sortByFields ["order"; sort] found in
     Ok (mkResponse 200 (Docs skills)))
    (fun _ => Ok (mkResponse 500 (Message "Server error while fetching skills"))).

(** GET /admin/all: [auth] *)
Definition getAdminAll (st : Store) (req : Request)
  : Result (Response Body * Store) :=
  auth resolve (authorization req) (unauthenticated st) (fun user =>
  tryCatch
    (if negb (isAdmin user)
     then respond 403 (Message "Admin access required") st
     else
       let* skills := sortByFields ["category"; "order"; "name"] (docs st) in
       respond 200 (Docs skills) st)
    (fun _ =>
       respond 500 (Message "Server error while fetching all skills") st)).

(** [Skill.findById(id)] *)
Definition findById (ds : list Skill) (id : string) : Result (option Skill) :=
  let* o := castObjectId castOther id in
  Ok (List.find (fun d => N.eqb (_id d) o) ds).

(** GET /:id (public) *)
Definition getSkill (st : Store) (id : string) : Result (Response Body) :=
  tryCatch
    (let* skill := findById (docs st) id in
     match skill with
     | None => Ok (mkResponse 404 (Message "Skill not found"))
     | Some s => Ok (mkResponse 200 (Doc s))
     end)
    (fun error =>
       if isKindObjectId error
       then Ok (mkResponse 404 (Message "Skill not found with provided ID"))
       else Ok (mkResponse 500 (Message "Server error while fetching skill by ID"))).

(** [new Skill(skillData)] with a fresh id: the fields that [skillData]
    does not carry take the schema's defaults. *)
Definition newSkill (o : ObjectId) (n c : string) (b : SkillBody) : Skill :=
  mkSkill o n c
    (assign (b_level b) (level defaults))
    (assign (b_proficiency b) (proficiency defaults))
    (assign (b_icon b) (icon defaults))
    (assign (b_color b) (color defaults))
    (assign (b_description b) (description defaults))
    (assign (b_yearsOfExperience b) (yearsOfExperience defaults))
    (assign (b_isVisible b) (isVisible defaults))
    (assign (b_order b) (order defaults)).

(** [skill.save()] *)
Definition save (ds : list Skill) (s : Skill) : Result (list Skill) :=
  match saveRejects (others (_id s) ds) s with
  | Some e => Throw e
  | None => Ok (put s ds)
  end.

(** POST / (admin only): [auth], the validators, [validation]. *)
Definition postSkill (st : Store) (req : Request)
  : Result (Response Body * Store) :=
  auth resolve (authorization req) (unauthenticated st) (fun user =>
  let body := sanitize (reqBody req) in
  validation (createErrors body) st
    (tryCatch
       (if negb (isAdmin user)
        then respond 403 (Message "Admin access required to create skills") st
        else
          let* rn := RegExp.anchoredIgnoreCase (interpolate (b_name body)) in
          let* rc := RegExp.anchoredIgnoreCase (interpolate (b_category body)) in
          let* existingSkill := findFirst (nameAndCategory rn rc) (docs st) in
          match existingSkill with
          | Some _ =>
              respond 400
                (Message "Skill with this name already exists in this category") st
          | None =>
              match b_name body, b_category body with
              | Some n, Some c =>
                  let skill := newSkill (nextId st) n c body in
                  let* ds' := save (docs st) skill in
                  respond 201 (Doc skill) (mkStore ds' (N.succ (nextId st)))
              | _, _ => Throw ValidationError  (* the schema requires both *)
              end
          end)
       (fun _ => respond 500 (Message "Server error while creating skill") st))).

(** The field assignments of PUT /:id. *)
Definition applyBody (s : Skill) (b : SkillBody) : Skill :=
  mkSkill (_id s)
    (assign (b_name b) (name s))
    (assign (b_category b) (category s))
    (assign (b_level b) (level s))
    (assign (b_proficiency b) (proficiency s))
    (assign (b_icon b) (icon s))
    (assign (b_color b) (color s))
    (assign (b_description b) (description s))
    (assign (b_yearsOfExperience b) (yearsOfExperience s))
    (assign (b_isVisible b) (isVisible s))
    (assign (b_order b) (order s)).

Definition isDefined {A} (v : option A) : bool :=
  match v with Some _ => true | None => false end.

(** The duplicate check of PUT /:id: made only when the body has a name
    or a category, against the prospective pair and the documents whose
    id is not [req.params.id]. *)
Definition otherWithPair (ds : list Skill) (id : string) (skill : Skill)
    (body : SkillBody) : Result (option Skill) :=
  if isDefined (b_name body) || isDefined (b_category body)
  then
    let checkName := orString (b_name body) (name skill) in
    let checkCategory := orString (b_category body) (category skill) in
    let* rn := RegExp.anchoredIgnoreCase checkName in
    let* rc := RegExp.anchoredIgnoreCase checkCategory in
    let* own := castObjectId castOther id in
    findFirst (nameAndCategory rn rc) (others own ds)
  else Ok None.

(** PUT /:id (admin only): [auth], the validators, [validation]. *)
Definition putSkill (st : Store) (req : Request)
  : Result (Response Body * Store) :=
  auth resolve (authorization req) (unauthenticated st) (fun user =>
  let body := sanitize (reqBody req) in
  validation (updateErrors body) st
    (tryCatch
       (if negb (isAdmin user)
        then respond 403 (Message "Admin access required to update skills") st
        else
          let* found := findById (docs st) (paramId req) in
          match found with
          | None => respond 404 (Message "Skill not found") st
          | Some skill =>
              let* existingSkill :=
                otherWithPair (docs st) (paramId req) skill body in
              match existingSkill with
              | Some _ =>
                  respond 400
                    (Message "Another skill with this name exists in this category")
                    st
              | None =>
                  let skill' := applyBody skill body in
                  let* ds' := save (docs st) skill' in
                  respond 200 (Doc skill') (mkStore ds' (nextId st))
              end
          end)
       (fun error =>
          if isKindObjectId error
          then respond 404 (Message "Skill not found with provided ID") st
          else respond 500 (Message "Server error while updating skill") st))).

(** DELETE /:id (admin only): [auth] *)
Definition deleteSkill (st : Store) (req : Request)
  : Result (Response Body * Store) :=
  auth resolve (authorization req) (unauthenticated st) (fun user =>
  tryCatch
    (if negb (isAdmin user)
     then respond 403 (Message "Admin access required to delete skills") st
     else
       let* found := findById (docs st) (paramId req) in
       match found with
       | None => respond 404 (Message "Skill not found") st
       | Some skill =>
           respond 200 (Message "Skill deleted successfully")
             (mkStore (others (_id skill) (docs st)) (nextId st))
       end)
    (fun error =>
       if isKindObjectId error
       then respond 404 (Message "Skill not found with provided ID") st
       else respond 500 (Message "Server error while deleting skill") st)).

(** The trimming that the validation loop of POST /bulk does in place. *)
Definition trimItem (b : SkillBody) : SkillBody :=
  mkSkillBody
    (option_map trim (b_name b))
    (option_map trim (b_category b))
    (b_level b)
    (b_proficiency b)
    (option_map trim (b_icon b))
    (option_map trim (b_color b))
    (option_map trim (b_description b))
    (b_yearsOfExperience b)
    (b_isVisible b)
    (b_order b).

(** The loop "Validate each skill" of POST /bulk: the response of the
    first element that fails, or all elements, trimmed. *)
Fixpoint validateEach (skills : list SkillBody)
  : Response Body + list SkillBody :=
  match skills with
  | [] => inr []
  | skill :: rest =>
      if negb (truthyOpt (b_name skill)) || negb (truthyOpt (b_category skill))
      then inl (mkResponse 400
                  (Invalid "Each skill must have a name and category" skill))
      else
        let skill := trimItem skill in
        if match b_proficiency skill with
           | Some p => (p <? 0) || (100 <? p)
           | None => false
           end
        then inl (mkResponse 400
                    (Invalid "Skill proficiency must be between 0 and 100" skill))
        else
          match validateEach rest with
          | inl r => inl r
          | inr l => inr (skill :: l)
          end
  end.

(** [Skill.insertMany(skills, { ordered: false })]: every element is
    tried in turn.  An element that the schema refuses is left out and
    nothing is raised for it; an element that the store refuses on writing
    is left out too, and the first such refusal is raised once all have
    been tried.  The result is the store after the call, the documents
    created, and the error if any. *)
Fixpoint insertMany (st : Store) (skills : list SkillBody)
  : Store * list Skill * option Exn :=
  match skills with
  | [] => (st, [], None)
  | b :: rest =>
      match b_name b, b_category b with
      | Some n, Some c =>
          let skill := newSkill (nextId st) n c b in
          match saveRejects (others (_id skill) (docs st)) skill with
          | None =>
              let '(st', created, err) :=
                insertMany (mkStore (put skill (docs st)) (N.succ (nextId st)))
                  rest in
              (st', skill :: created, err)
          | Some ValidationError => insertMany st rest
          | Some e =>
              let '(st', created, _) := insertMany st rest in
              (st', created, Some e)
          end
      | _, _ => insertMany st rest       (* the schema requires both *)
      end
  end.

(** POST /bulk (admin only): [auth] *)
Definition postBulk (st : Store) (req : Request)
  : Result (Response Body * Store) :=
  auth resolve (authorization req) (unauthenticated st) (fun user =>
  if negb (isAdmin user)
  then respond 403 (Message "Admin access required for bulk skill creation") st
  else
    match bulkSkills req with
    | None | Some [] =>
        respond 400
          (Message "An array of skills is required for bulk creation") st
    | Some skills =>
        match validateEach skills with
        | inl r => Ok (r, st)
        | inr skills' =>
            let '(st', createdSkills, err) := insertMany st skills' in
            match err with
            | None => respond 201 (Docs createdSkills) st'
            | Some error =>
                if isCode11000 error
                then respond 400 (Details "One or more skills already exist") st'
                else respond 500
                       (Message "Server error during bulk skill creation") st'
            end
        end
    end).

End Router.

(** An element of a bulk request that has no name or no category, as the
    loop tests it: the field is absent or empty. *)
Definition lacksNameOrCategory (item : SkillBody) : Prop :=
  truthyOpt (b_name item) = false \/ truthyOpt (b_category item) = false.

(** All names and categories of the collection are printable ASCII. *)
Definition printableDocs (ds : list Skill) : bool :=
  forallb (fun d => forallb_string RegExp.isPrintable (name d)
                    && forallb_string RegExp.isPrintable (category d))
    ds.

End Skills.

(** ** Concrete collaborators

    One instance of everything the routers take from outside, used to run
    the handlers on concrete requests. *)

Module Sample.

Import Js Mongo Http.

Definition adminUser : User := mkUser 1%N "admin".
Definition plainUser : User := mkUser 2%N "user".

Definition resolve (header : string) : option User :=
  if String.eqb header "Bearer admin-token" then Some adminUser
  else if String.eqb header "Bearer user-token" then Some plainUser
  else None.

Definition unauthenticatedMessage : string := "No token, authorization denied".

Definition castOther (_ : string) : option ObjectId := None.

(** Projects: the body is the document to be, the text index holds the
    titles, and the unique index is on the title. *)
Definition textMatch (s : string) (p : Projects.Project) : bool :=
  String.eqb s (Projects.title p).

Definition validateProject (b : Projects.Project) : list FieldError :=
  if truthy (Projects.title b) then []
  else [mkFieldError "title" "Title is required"].

Definition validateId (id : string) : list FieldError :=
  if isObjectIdString id then [] else [mkFieldError "id" "Invalid ID"].

Definition withId (o : ObjectId) (b : Projects.Project) : Projects.Project :=
  Projects.mkProject o (Projects.title b) (Projects.slug b)
    (Projects.category b) (Projects.isFeatured b) (Projects.isPublished b)
    (Projects.priority b) (Projects.createdAt b).

Definition newProject (o : ObjectId) (b : Projects.Project) : Projects.Project :=
  withId o b.

Definition applyProjectBody (old b : Projects.Project) : Projects.Project :=
  withId (Projects._id old) b.

Definition uniqueTitle (ds : list Projects.Project) (p : Projects.Project)
  : option Exn :=
  if existsb (fun d => String.eqb (Projects.title d) (Projects.title p)) ds
  then Some DuplicateKey else None.

Definition project (o : ObjectId) (t sl : string) (featured published : bool)
    (prio created : Z) : Projects.Project :=
  Projects.mkProject o t sl "web" featured published prio created.

Definition projectStore : Projects.Store :=
  Projects.mkStore
    [ project 1 "Alpha" "alpha" true true 5 100;
      project 2 "Beta" "beta" false true 3 200;
      project 3 "Gamma" "gamma" true false 9 300;
      project 4 "Delta" "delta" false true 3 400;
      project 5 "Epsilon" "epsilon" true true 1 500 ]
    6%N.

(** A project as a non-admin caller might post it. *)
Definition intruderRequest : Projects.AdminRequest Projects.Project :=
  Projects.mkAdminRequest (Some "Bearer user-token") ""
    (project 0 "Intruder" "intruder" true true 99 600).

Definition pageQuery (pg lim featured : option string) : Projects.Query :=
  Projects.mkQuery pg lim None featured None None.

(** Skills: the store refuses the empty sort key and the keys that start
    with a dollar sign; fields are ordered by their values, strings letter
    by letter. *)
Definition sortRefuses (key : string) : bool :=
  String.eqb key "" || String.prefix "$" key.

Definition fieldLe (f : string) (a b : Skills.Skill) : bool :=
  if String.eqb f "order" then Skills.order a <=? Skills.order b
  else if String.eqb f "name" then String.leb (Skills.name a) (Skills.name b)
  else if String.eqb f "category"
       then String.leb (Skills.category a) (Skills.category b)
  else if String.eqb f "proficiency"
       then Skills.proficiency a <=? Skills.proficiency b
  else true.

Definition defaults : Skills.Skill :=
  Skills.mkSkill 0%N "" "" "intermediate" 50 "" "#3B82F6" "" 0 true 0.

Definition noIndex (_ : list Skills.Skill) (_ : Skills.Skill) : option Exn :=
  None.

(** A unique index on the exact (name, category) pair. *)
Definition exactPairIndex (ds : list Skills.Skill) (s : Skills.Skill)
  : option Exn :=
  if existsb (fun d => String.eqb (Skills.name d) (Skills.name s)
                       && String.eqb (Skills.category d) (Skills.category s)) ds
  then Some DuplicateKey else None.

Definition skillBody (n c : option string) : Skills.SkillBody :=
  Skills.mkSkillBody n c None None None None None None None None.

Definition emptyBody : Skills.SkillBody := skillBody None None.

Definition skill (o : ObjectId) (n c : string) (visible : bool) : Skills.Skill :=
  Skills.mkSkill o n c "intermediate" 50 "" "#3B82F6" "" 0 visible 0.

Definition skillStore : Skills.Store :=
  Skills.mkStore
    [ skill 1 "React" "frontend" true;
      skill 2 "Legacy PHP" "backend" false;
      skill 3 "Docker" "devops" true ]
    4%N.

Definition bulkRequest (token : option string) (items : list Skills.SkillBody)
  : Skills.Request :=
  Skills.mkRequest token "" emptyBody (Some items).

Definition skillRequest (token : option string) (id : string)
    (b : Skills.SkillBody) : Skills.Request :=
  Skills.mkRequest token id b None.

(** The store after "Go+" and then "Go" have been created. *)
Definition goStore : Skills.Store :=
  Skills.mkStore
    [ skill 1 "Go+" "backend" true;
      skill 2 "Go" "backend" true ]
    3%N.

Definition adminToken : option string := Some "Bearer admin-token".
Definition userToken : option string := Some "Bearer user-token".

End Sample.

(** ** Vocabulary of the further properties *)

Module Ranking.

Import Projects.

(** [a] may stand before [b] in [.sort({ priority: -1, createdAt: -1 })]:
    higher priority first, and among equal priorities the newer first. *)
Definition ranksNoLater (a b : Project) : Prop :=
  priority b < priority a
  \/ (priority a = priority b /\ createdAt b <= createdAt a).

(** [a] may stand before [b] in [.sort({ createdAt: -1 })]. *)
Definition noOlder (a b : Project) : Prop := createdAt b <= createdAt a.


End Ranking.

(** ** Requests for the further properties *)

Module Scenario.

Import Js Mongo Http.

Definition listQuery (pg lim cat featured exclude : option string)
  : Projects.Query :=
  Projects.mkQuery pg lim cat featured None exclude.



(** A request on the project with id 2, by a caller with a valid token. *)
Definition onBeta : Projects.AdminRequest Projects.Project :=
  Projects.mkAdminRequest (Some "Bearer user-token") "000000000000000000000002"
    (Sample.project 0 "Beta" "beta" false true 3 200).

(** Requests on the skill router, by the admin unless said otherwise. *)
Definition create (n c : string) : Skills.Request :=
  Sample.skillRequest Sample.adminToken "" (Sample.skillBody (Some n) (Some c)).

Definition listAll : Skills.Request :=
  Sample.skillRequest Sample.adminToken "" Sample.emptyBody.

Definition onLegacy : Skills.Request :=
  Sample.skillRequest Sample.adminToken "000000000000000000000002"
    Sample.emptyBody.

(** An update of the proficiency alone. *)
Definition proficiencyOnly (p : Z) : Skills.SkillBody :=
  Skills.mkSkillBody None None None (Some p) None None None None None None.

Definition raiseReact : Skills.Request :=
  Sample.skillRequest Sample.adminToken "000000000000000000000001"
    (proficiencyOnly 80).


Definition blankName : Skills.SkillBody :=
  Sample.skillBody (Some "   ") (Some "frontend").

Definition vue : Skills.Skill := Sample.skill 4 "Vue" "frontend" true.

(** The sample store after Vue has been created. *)
Definition withVue : Skills.Store :=
  Skills.mkStore (Skills.docs Sample.skillStore ++ [vue]) 5%N.

End Scenario.

(** ** GET /api/skills/categories and the shape of a skill store *)

Module SkillsExtra.

Import Js Mongo Http Skills.

(** The answers of GET /categories: the list of categories, or a message. *)
Inductive CategoriesBody : Type :=
| Categories (l : list string)
| Failure (m : string).

(** [Skill.distinct('category')]: every value once; the store fixes no
    order among them. *)
Definition distinct (values : list string) : list string :=
  nodup string_dec values.

(** GET /categories (public) *)
Definition getCategories (st : Store) : Result (Response CategoriesBody) :=
  tryCatch
    (let categories := distinct (map category (docs st)) in
     Ok (mkResponse 200 (Categories categories)))
    (fun _ =>
       Ok (mkResponse 500
             (Failure "Server error while fetching categories"))).

(** What the store guarantees about ids: no two documents share one, and
    the ids in use lie below the next fresh id. *)
Definition wellFormed (st : Store) : Prop :=
  NoDup (map _id (docs st))
  /\ forall d, In d (docs st) -> (_id d < nextId st)%N.

(** The caller of the request is not an admin: no header, a token that
    does not verify, or a verified identity of another role. *)
Definition notAdmin (resolve : string -> option User) (req : Request) : Prop :=
  forall header user,
    authorization req = Some header -> resolve header = Some user ->
    isAdmin user = false.

(** The documents that duplicate the pair (n, c) up to letter case. *)
Definition samePair (n c : string) (d : Skill) : bool :=
  eqIgnoreCase n (name d) && eqIgnoreCase c (category d).

(** The sort key of GET /: the [sort] parameter, "name" when it is absent
    ([const { category, sort = 'name' } = req.query]). *)
Definition sortKey (q : Query) : string :=
  match q_sort q with Some s => s | None => "name" end.

(** A body with no field at all. *)
Definition noFields : SkillBody :=
  mkSkillBody None None None None None None None None None None.

(** An element that the validation loop of POST /bulk lets through: name
    and category are there and not empty, and the proficiency, if given,
    lies between 0 and 100. *)
Definition validItem (b : SkillBody) : bool :=
  truthyOpt (b_name b) && truthyOpt (b_category b)
  && match b_proficiency b with
     | Some p => (0 <=? p) && (p <=? 100)
     | None => true
     end.

End SkillsExtra.

(** ** The browser side: a caller of the public skill list *)

Module Client.

Import Js Mongo Http.

(** *** client/src/components/home/Skills.js: the grouping of the public
    list by category *)

(** The groups are the properties of the object that [reduce] fills: one
    per key.  They stand here in the order in which the keys were first
    set; an object lists the keys that are array indices before the
    others, so that the order of this list is the order of the object only
    among keys that are words, and no statement below speaks of it. *)
Definition Groups : Type := list (string * list Skills.Skill).

(** What a fresh object [{}] answers for keys it does not own: the
    properties it inherits from [Object.prototype]. *)
Definition inheritedKeys : list string :=
  ["constructor"; "__defineGetter__"; "__defineSetter__"; "hasOwnProperty";
   "__lookupGetter__"; "__lookupSetter__"; "isPrototypeOf";
   "propertyIsEnumerable"; "toString"; "valueOf"; "__proto__";
   "toLocaleString"].

Definition isInherited (key : string) : bool :=
  existsb (String.eqb key) inheritedKeys.

(** [category.charAt(0).toUpperCase() + category.slice(1)], for a first
    character in the ASCII range *)
Definition capitalize (category : string) : string :=
  match category with
  | EmptyString => EmptyString
  | String c rest => String (toUpper c) rest
  end.

(** [skill?.category || 'other'], capitalized *)
Definition categoryName (skill : Skills.Skill) : string :=
  let category :=
    if truthy (Skills.category skill) then Skills.category skill else "other" in
  capitalize category.

Fixpoint lookup (key : string) (acc : Groups) : option (list Skills.Skill) :=
  match acc with
  | [] => None
  | (k, l) :: rest => if String.eqb k key then Some l else lookup key rest
  end.

(** [if (!acc[key]) acc[key] = []; acc[key].push(skill)] on own keys *)
Fixpoint push (key : string) (skill : Skills.Skill) (acc : Groups) : Groups :=
  match acc with
  | [] => [(key, [skill])]
  | (k, l) :: rest =>
      if String.eqb k key then (k, (l ++ [skill])%list) :: rest
      else (k, l) :: push key skill rest
  end.

(** One step of the reduction; [None] is the TypeError raised when the
    key names an inherited property, which is there, is not an array and
    has no [push]. *)
Definition groupStep (acc : option Groups) (skill : Skills.Skill)
  : option Groups :=
  match acc with
  | None => None
  | Some acc =>
      let categoryName := categoryName skill in
      if isInherited categoryName then None
      else Some (push categoryName skill acc)
  end.

(** [skills.reduce((acc, skill) => ..., {})] *)
Definition groupedSkills (skills : list Skills.Skill) : option Groups :=
  fold_left groupStep skills (Some []).

(** The skills that the page shows under the heading [key]. *)
Definition inGroup (key : string) (s : Skills.Skill) : bool :=
  String.eqb (categoryName s) key.

(** What the groups are once the skills [seen] have been taken in: one
    group per heading in use, holding the skills of that heading in their
    order of arrival. *)
Definition groupsOf (acc : Groups) (seen : list Skills.Skill) : Prop :=
  NoDup (map fst acc)
  /\ forall k, lookup k acc
               = match filter (inGroup k) seen with
                 | [] => None
                 | l => Some l
                 end.

End Client.

(** * Properties *)

(** ** Facts about the primitives *)

Module Facts.

Import Js Mongo.

Lemma bind_Ok_inv {A B} (m : Result A) (k : A -> Result B) (b : B) :
  bind m k = Ok b -> exists a, m = Ok a /\ k a = Ok b.
Proof.
  destruct m as [a| |]; simpl; intro H; try discriminate.
  exists a; split; [reflexivity | exact H].
Qed.

Lemma insertBy_In {A} (le : A -> A -> bool) (x y : A) (l : list A) :
  In x (insertBy le y l) <-> x = y \/ In x l.
Proof.
  induction l as [|z l IH]; simpl.
  - intuition congruence.
  - destruct (le y z); simpl; [intuition congruence|].
    rewrite IH. intuition congruence.
Qed.

Lemma sortBy_In {A} (le : A -> A -> bool) (x : A) (l : list A) :
  In x (sortBy le l) <-> In x l.
Proof.
  induction l as [|y l IH]; simpl; [tauto|].
  unfold sortBy in *. simpl. rewrite insertBy_In, IH. intuition congruence.
Qed.

Lemma insertBy_perm {A} (le : A -> A -> bool) (y : A) (l : list A) :
  Permutation (insertBy le y l) (y :: l).
Proof.
  induction l as [|z l IH]; simpl; [apply Permutation_refl|].
  destruct (le y z); [apply Permutation_refl|].
  eapply Permutation_trans; [apply perm_skip, IH | apply perm_swap].
Qed.

Lemma sortBy_perm {A} (le : A -> A -> bool) (l : list A) :
  Permutation (sortBy le l) l.
Proof.
  induction l as [|y l IH]; [apply Permutation_refl|].
  change (sortBy le (y :: l)) with (insertBy le y (sortBy le l)).
  eapply Permutation_trans; [apply insertBy_perm | apply perm_skip, IH].
Qed.


Lemma firstn_In {A} (n : nat) (l : list A) (x : A) :
  In x (firstn n l) -> In x l.
Proof.
  revert l; induction n as [|n IH]; intros [|y l]; simpl; try tauto.
  intros [H|H]; [left; exact H | right; apply IH, H].
Qed.

Lemma skipn_In {A} (n : nat) (l : list A) (x : A) :
  In x (skipn n l) -> In x l.
Proof.
  revert l; induction n as [|n IH]; intros [|y l]; simpl; try tauto.
  intro H; right; apply IH, H.
Qed.

Lemma limit_In {A} (n : Z) (l : list A) (x : A) :
  In x (Mongo.limit n l) -> In x l.
Proof.
  unfold Mongo.limit. destruct (n =? 0); [tauto | apply firstn_In].
Qed.

Lemma limit_positive {A} (n : Z) (l : list A) :
  1 <= n -> Mongo.limit n l = firstn (Z.to_nat n) l.
Proof.
  intro H. unfold Mongo.limit.
  destruct (Z.eqb_spec n 0) as [E|_]; [lia|].
  rewrite Z.abs_eq by lia. reflexivity.
Qed.

Lemma limit_length {A} (n : Z) (l : list A) :
  1 <= n -> Z.of_nat (List.length (Mongo.limit n l)) <= n.
Proof.
  intro H. rewrite limit_positive by exact H.
  pose proof (firstn_le_length (Z.to_nat n) l). lia.
Qed.

Lemma skip_In {A} (n : Z) (l r : list A) (x : A) :
  Mongo.skip n l = Ok r -> In x r -> In x l.
Proof.
  unfold Mongo.skip. destruct (n <? 0); [discriminate|].
  intros [= <-]. apply skipn_In.
Qed.

Lemma hd_error_filter_Some {A} (f : A -> bool) (l : list A) (x : A) :
  hd_error (filter f l) = Some x -> In x l /\ f x = true.
Proof.
  intro H. assert (In x (filter f l)) as Hin.
  { destruct (filter f l); simpl in H; [discriminate|].
    injection H as ->. left; reflexivity. }
  apply filter_In in Hin. exact Hin.
Qed.

Lemma hd_error_filter_None {A} (f : A -> bool) (l : list A) :
  hd_error (filter f l) = None -> forall x, In x l -> f x = false.
Proof.
  intros H x Hin. destruct (f x) eqn:E; [|reflexivity].
  assert (In x (filter f l)) as Hf by (apply filter_In; auto).
  destruct (filter f l); [destruct Hf | discriminate].
Qed.

(** The shape test of the project router is "exactly [n] characters, all
    of them in the class". *)
Lemma matchClassN_spec (cls : ascii -> bool) (n : nat) (s : string) :
  matchClassN cls n s = true <->
  String.length s = n /\ forallb_string cls s = true.
Proof.
  revert s; induction n as [|n IH]; intros [|c s]; simpl.
  - tauto.
  - split; [discriminate | intros [H _]; discriminate].
  - split; [discriminate | intros [H _]; discriminate].
  - rewrite andb_true_iff, IH. split.
    + intros [Hc [Hl Hs]]. rewrite Hl, Hc, Hs. auto.
    + intros [Hl H]. apply andb_true_iff in H. destruct H as [Hc Hs].
      injection Hl as Hl. auto.
Qed.


Lemma parseIntOr_absent (d : Z) : parseIntOr None d = d.
Proof. reflexivity. Qed.

Example parseInt_examples :
  parseInt "  12abc" = Some 12 /\ parseInt "0x1F" = Some 31
  /\ parseInt "-3" = Some (-3) /\ parseInt "abc" = None
  /\ parseIntOr (Some "0") 10 = 10 /\ parseIntOr (Some "25") 10 = 25.
Proof. repeat split. Qed.

Example trim_example : trim "  Node.js  " = "Node.js".
Proof. reflexivity. Qed.

Example ceilDiv_examples : ceilDiv 4 2 = 2 /\ ceilDiv 5 2 = 3 /\ ceilDiv 0 10 = 0.
Proof. repeat split. Qed.

End Facts.

(** ** The project router *)

Module ProjectsSpec.

Import Js Mongo Http Projects Facts.

Section Public.

Variable castOther : string -> option ObjectId.
Variable textMatch : string -> Project -> bool.

Local Abbreviation find := (Projects.find castOther textMatch).
Local Abbreviation getProjects := (Projects.getProjects castOther textMatch).
Local Abbreviation getFeatured := (Projects.getFeatured castOther textMatch).
Local Abbreviation getProject := (Projects.getProject castOther textMatch).

(** A query with no condition on [_id] is never refused by the store. *)
Lemma find_no_id (ds : list Project) (f : Filter) :
  f_id_ne f = None -> f_id f = None ->
  find ds f = Ok (filter (matches textMatch f None None) ds).
Proof.
  intros H1 H2. unfold Projects.find. rewrite H1, H2. reflexivity.
Qed.

(** The store either refuses the query with a cast error or returns
    documents of the collection that satisfy the publication condition. *)
Lemma find_cases (ds : list Project) (f : Filter) :
  find ds f = Throw CastError \/
  exists idNe idEq, find ds f = Ok (filter (matches textMatch f idNe idEq) ds).
Proof.
  unfold Projects.find, castCondition, castObjectId.
  destruct (f_id_ne f) as [s|]; simpl.
  - destruct (isObjectIdString s); simpl.
    + destruct (f_id f) as [t|]; simpl; [|eauto].
      destruct (isObjectIdString t); simpl; [eauto|].
      destruct (castOther t); simpl; eauto.
    + destruct (castOther s); simpl; [|auto].
      destruct (f_id f) as [t|]; simpl; [|eauto].
      destruct (isObjectIdString t); simpl; [eauto|].
      destruct (castOther t); simpl; eauto.
  - destruct (f_id f) as [t|]; simpl; [|eauto].
    destruct (isObjectIdString t); simpl; [eauto|].
    destruct (castOther t); simpl; eauto.
Qed.

Lemma matches_published (f : Filter) (idNe idEq : option ObjectId) (p : Project) :
  f_isPublished f = Some true ->
  matches textMatch f idNe idEq p = true -> isPublished p = true.
Proof.
  unfold matches. intros ->. simpl. intro H.
  repeat (apply andb_true_iff in H; destruct H as [H _]).
  destruct (isPublished p); [reflexivity | discriminate].
Qed.

Lemma matches_featured (f : Filter) (idNe idEq : option ObjectId) (p : Project) :
  f_isFeatured f = Some true ->
  matches textMatch f idNe idEq p = true -> isFeatured p = true.
Proof.
  unfold matches. intros ->. simpl. intro H.
  repeat (apply andb_true_iff in H; destruct H as [H ?]).
  destruct (isFeatured p); [reflexivity | discriminate].
Qed.

Lemma listFilter_published (q : Query) :
  f_isPublished (listFilter q) = Some true.
Proof.
  unfold listFilter.
  destruct (q_category q) as [c|]; [destruct (truthy c)|];
    (destruct (q_featured q) as [v|]; [destruct (String.eqb v "true")|]);
    (destruct (q_search q) as [s|]; [destruct (truthy s)|]);
    (destruct (q_exclude q) as [e|]; [destruct (truthy e)|]);
    reflexivity.
Qed.

Lemma listFilter_featured (q : Query) :
  f_isFeatured (listFilter q) =
  match q_featured q with
  | Some v => if String.eqb v "true" then Some true else None
  | None => None
  end.
Proof.
  unfold listFilter.
  destruct (q_category q) as [c|]; [destruct (truthy c)|];
    (destruct (q_featured q) as [v|]; [destruct (String.eqb v "true")|]);
    (destruct (q_search q) as [s|]; [destruct (truthy s)|]);
    (destruct (q_exclude q) as [e|]; [destruct (truthy e)|]);
    reflexivity.
Qed.

(** C5: GET /projects/featured answers 200 with a bare list of at most 6
    projects of the collection, each of them published and featured; an
    unpublished project is never in it, whatever its featured flag. *)
Theorem featured_at_most_six_published :
  forall st : Store,
  exists ps : list Project,
    getFeatured st = Ok (mkResponse 200 (Docs ps))
    /\ (List.length ps <= 6)%nat
    /\ forall p, In p ps ->
         In p (docs st) /\ isPublished p = true /\ isFeatured p = true.
Proof.
  intro st. unfold Projects.getFeatured.
  rewrite find_no_id by reflexivity. simpl bind. unfold tryCatch.
  eexists. split; [reflexivity|]. split.
  - change (Mongo.limit 6 ?l) with (firstn 6 l).
    apply firstn_le_length.
  - intros p Hp. apply limit_In, sortBy_In, filter_In in Hp.
    destruct Hp as [Hin Hm]. split; [exact Hin|]. split.
    + eapply matches_published; [|exact Hm]. reflexivity.
    + eapply matches_featured; [|exact Hm]. reflexivity.
Qed.

(** C6: whatever the query values (category, featured, search, exclude,
    page, limit), GET /projects answers either the server error or a page
    whose projects all come from the collection and are published. *)
Theorem list_only_published :
  forall (st : Store) (q : Query),
  exists r : Response Body,
    getProjects st q = Ok r
    /\ (r = serverError
        \/ exists ps pg,
             r = mkResponse 200 (Page ps pg)
             /\ forall p, In p ps -> In p (docs st) /\ isPublished p = true).
Proof.
  intros st q. unfold Projects.getProjects, countDocuments.
  destruct (find_cases (docs st) (listFilter q)) as [E | (idNe & idEq & E)];
    rewrite E; simpl bind.
  - eexists; split; [reflexivity | left; reflexivity].
  - unfold Mongo.skip.
    destruct ((parseIntOr (q_page q) 1 - 1) * parseIntOr (q_limit q) 10 <? 0);
      simpl.
    + eexists; split; [reflexivity | left; reflexivity].
    + eexists; split; [reflexivity|]. right. do 2 eexists.
      split; [reflexivity|].
      intros p Hp. apply limit_In, skipn_In, sortBy_In, filter_In in Hp.
      destruct Hp as [Hin Hm]. split; [exact Hin|].
      eapply matches_published; [apply listFilter_published | exact Hm].
Qed.

(** C2: the identifier is looked up by id exactly when it is 24
    hexadecimal digits and by slug otherwise; the project answered is in
    the collection, is published and has that id (that slug); when the
    collection has no such project the answer is 404. *)
Theorem getProject_by_id_or_slug :
  forall (st : Store) (identifier : string),
    (isObjectIdString identifier = true <->
       String.length identifier = 24%nat
       /\ forallb_string isHexDigit identifier = true)
    /\ ((exists p, getProject st identifier = Ok (mkResponse 200 (Doc p))
                   /\ In p (docs st) /\ resolvesTo identifier p)
        \/ (getProject st identifier
              = Ok (mkResponse 404 (Message "Project not found"))
            /\ forall p, In p (docs st) -> ~ resolvesTo identifier p)).
Proof.
  intros st identifier. split; [apply matchClassN_spec|].
  unfold Projects.getProject, findOne, Projects.find, resolvesTo.
  destruct (isObjectIdString identifier) eqn:Shape; simpl.
  - unfold castObjectId. rewrite Shape. simpl.
    match goal with |- context [hd_error (filter ?f ?l)] =>
      destruct (hd_error (filter f l)) as [p|] eqn:E end; simpl.
    + left. exists p. split; [reflexivity|].
      apply hd_error_filter_Some in E. destruct E as [Hin Hm].
      split; [exact Hin|]. unfold matches in Hm. simpl in Hm.
      rewrite !andb_true_r in Hm. apply andb_true_iff in Hm.
      destruct Hm as [Hp Hi]. split.
      * destruct (isPublished p); [reflexivity | discriminate].
      * apply N.eqb_eq, Hi.
    + right. split; [reflexivity|]. intros p Hin [Hp Hi].
      pose proof (hd_error_filter_None _ _ E p Hin) as Hm.
      unfold matches in Hm. simpl in Hm.
      rewrite Hp, Hi, N.eqb_refl in Hm. discriminate.
  - match goal with |- context [hd_error (filter ?f ?l)] =>
      destruct (hd_error (filter f l)) as [p|] eqn:E end; simpl.
    + left. exists p. split; [reflexivity|].
      apply hd_error_filter_Some in E. destruct E as [Hin Hm].
      split; [exact Hin|]. unfold matches in Hm. simpl in Hm.
      rewrite !andb_true_r in Hm. apply andb_true_iff in Hm.
      destruct Hm as [Hp Hs]. split.
      * destruct (isPublished p); [reflexivity | discriminate].
      * apply String.eqb_eq, Hs.
    + right. split; [reflexivity|]. intros p Hin [Hp Hs].
      pose proof (hd_error_filter_None _ _ E p Hin) as Hm.
      unfold matches in Hm. simpl in Hm.
      rewrite Hp, Hs, String.eqb_refl in Hm. discriminate.
Qed.

(** C10: the featured condition is part of the query exactly when the
    parameter is the string 'true'.  With any other value ('false'
    included) no condition on the featured flag is made and the answer is
    the one of the same request without the parameter; if no other filter
    is given, every published project, featured or not, matches. *)
Theorem featured_only_when_true :
  forall (st : Store) (q : Query),
    (f_isFeatured (listFilter q) = Some true <-> q_featured q = Some "true")
    /\ (q_featured q <> Some "true" ->
          f_isFeatured (listFilter q) = None
          /\ getProjects st q = getProjects st (withoutFeatured q)
          /\ (q_category q = None -> q_search q = None -> q_exclude q = None ->
                find (docs st) (listFilter q)
                  = Ok (filter isPublished (docs st)))).
Proof.
  intros st q. split.
  - rewrite listFilter_featured. destruct (q_featured q) as [v|].
    + destruct (String.eqb_spec v "true") as [->|N].
      * tauto.
      * split; [discriminate | intros [= E]; contradiction].
    + split; discriminate.
  - intro Hne.
    assert (listFilter q = listFilter (withoutFeatured q)) as Hsame.
    { unfold listFilter, withoutFeatured. simpl.
      destruct (q_featured q) as [v|]; [|reflexivity].
      destruct (String.eqb_spec v "true") as [->|_]; [congruence | reflexivity]. }
    split; [|split].
    + rewrite listFilter_featured. destruct (q_featured q) as [v|]; [|reflexivity].
      destruct (String.eqb_spec v "true") as [->|_]; [congruence | reflexivity].
    + unfold Projects.getProjects. rewrite <- Hsame. reflexivity.
    + intros Hc Hs He. rewrite Hsame. unfold listFilter, withoutFeatured. simpl.
      rewrite Hc, Hs, He. unfold Projects.find. simpl. f_equal.
      apply filter_ext. intro p. unfold matches. simpl.
      rewrite !andb_true_r. destruct (isPublished p); reflexivity.
Qed.

End Public.

(** With featured=false the featured Alpha and the plain Delta and Beta
    are all returned. *)
Lemma featured_only_when_true_witness :
  Some "false" <> Some "true"
  /\ Projects.getProjects Sample.castOther Sample.textMatch Sample.projectStore
       (Sample.pageQuery None None (Some "false"))
     = Ok (mkResponse 200
             (Page [Sample.project 1 "Alpha" "alpha" true true 5 100;
                    Sample.project 4 "Delta" "delta" false true 3 400;
                    Sample.project 2 "Beta" "beta" false true 3 200;
                    Sample.project 5 "Epsilon" "epsilon" true true 1 500]
                (mkPagination 1 10 4 1))).
Proof.
  assert (Some "false" <> Some "true") as Hne by discriminate.
  split; [exact Hne|].
  destruct (featured_only_when_true Sample.castOther Sample.textMatch
              Sample.projectStore
              (Sample.pageQuery None None (Some "false"))) as [_ H].
  destruct (H Hne) as (_ & E & _). rewrite E. reflexivity.
Defined.

End ProjectsSpec.

(** ** The skill router *)

Module SkillsSpec.

Import Js Mongo Http Skills Facts.

(** *** Patterns built from plain strings *)

Lemma plain_char (c : ascii) :
  RegExp.isPlainChar c = true ->
  RegExp.quantifierOf c = None /\ RegExp.atomOf c = Some (RegExp.AChar c).
Proof.
  unfold RegExp.isPlainChar, RegExp.atomOf. intro H.
  do 3 (apply andb_true_iff in H; destruct H as [H ?]).
  destruct (RegExp.quantifierOf c); [discriminate|].
  split; [reflexivity|].
  destruct (Ascii.eqb c "."); [discriminate|].
  rewrite H. destruct (RegExp.isOtherSyntaxChar c); [discriminate | reflexivity].
Qed.

(** A string without syntax characters is read as itself. *)
Lemma parse_plain (s : string) :
  RegExp.isPlain s = true -> RegExp.parseTerms s = Ok (RegExp.literal s).
Proof.
  induction s as [|c s IH]; [reflexivity|].
  unfold RegExp.isPlain. simpl forallb_string. intro H.
  apply andb_true_iff in H. destruct H as [Hc Hs].
  destruct (plain_char c Hc) as [Hq Ha].
  simpl RegExp.parseTerms. rewrite Hq, Ha.
  destruct s as [|d s']; [reflexivity|].
  assert (RegExp.quantifierOf d = None) as Hd.
  { simpl in Hs. apply andb_true_iff in Hs. destruct Hs as [Hd _].
    apply (plain_char d Hd). }
  rewrite Hd. rewrite (IH Hs). reflexivity.
Qed.

(** Such a pattern matches exactly the strings equal to it up to case. *)
Lemma match_literal (s t : string) :
  RegExp.matchHere (RegExp.literal s) t = eqIgnoreCase s t.
Proof.
  revert t; induction s as [|c s IH]; intros [|d t]; try reflexivity.
  simpl RegExp.matchHere. rewrite IH. unfold eqIgnoreCase. simpl.
  destruct (Ascii.eqb (toUpper c) (toUpper d)); reflexivity.
Qed.

Lemma test_plain (s t : string) :
  RegExp.isPlain s = true ->
  forallb_string RegExp.isPrintable t = true ->
  bind (RegExp.anchoredIgnoreCase s) (fun p => RegExp.test p t)
  = Ok (eqIgnoreCase s t).
Proof.
  intros Hs Ht. unfold RegExp.anchoredIgnoreCase. rewrite (parse_plain _ Hs).
  simpl. unfold RegExp.test. rewrite Ht, match_literal. reflexivity.
Qed.

(** *** Lookups *)

Lemma findAll_Ok (t : Skill -> Result bool) (ds l : list Skill) :
  findAll t ds = Ok l -> forall x, In x l -> In x ds /\ t x = Ok true.
Proof.
  revert l; induction ds as [|d ds IH]; simpl; intros l H x Hx.
  - injection H as <-. destruct Hx.
  - apply bind_Ok_inv in H. destruct H as (hit & Hd & H).
    apply bind_Ok_inv in H. destruct H as (l' & Hl & H).
    injection H as <-. destruct hit.
    + destruct Hx as [<-|Hx]; [auto|].
      destruct (IH _ Hl _ Hx); auto.
    + destruct (IH _ Hl _ Hx); auto.
Qed.

Lemma find_by_id (ds : list Skill) (s : Skill) :
  In s ds -> NoDup (map _id ds) ->
  List.find (fun d => N.eqb (_id d) (_id s)) ds = Some s.
Proof.
  induction ds as [|d ds IH]; simpl; intros Hin Hnd; [destruct Hin|].
  inversion Hnd as [|? ? Hnot Hnd']; subst.
  destruct Hin as [->|Hin]; [rewrite N.eqb_refl; reflexivity|].
  destruct (N.eqb_spec (_id d) (_id s)) as [E|_]; [|apply IH; assumption].
  exfalso. apply Hnot. rewrite E. apply in_map, Hin.
Qed.

(** *** The validation loop of the bulk route *)

Lemma validateEach_missing (skills : list SkillBody) :
  (exists item, In item skills /\ lacksNameOrCategory item) ->
  exists r, validateEach skills = inl r /\ status r = 400.
Proof.
  induction skills as [|skill rest IH]; intros (item & Hin & Hmiss).
  - destruct Hin.
  - simpl.
    destruct (negb (truthyOpt (b_name skill))
              || negb (truthyOpt (b_category skill))) eqn:Hhead.
    + eexists; split; reflexivity.
    + simpl b_proficiency.
      destruct (match b_proficiency skill with
                | Some p => (p <? 0) || (100 <? p)
                | None => false
                end).
      * eexists; split; reflexivity.
      * destruct Hin as [->|Hin].
        { exfalso. apply orb_false_iff in Hhead. destruct Hhead as [H1 H2].
          apply negb_false_iff in H1, H2.
          destruct Hmiss as [H|H]; congruence. }
        destruct IH as (r & E & Hr); [exists item; auto|].
        rewrite E. exists r; auto.
Qed.

Section Router.

Variable resolve : string -> option User.
Variable unauthenticatedMessage : string.
Variable castOther : string -> option ObjectId.
Variable sortRefuses : string -> bool.
Variable fieldLe : string -> Skill -> Skill -> bool.
Variable defaults : Skill.
Variable saveRejects : list Skill -> Skill -> option Exn.

Local Abbreviation getSkills := (Skills.getSkills sortRefuses fieldLe).
Local Abbreviation getSkill := (Skills.getSkill castOther).
Local Abbreviation postBulk :=
  (Skills.postBulk resolve unauthenticatedMessage defaults saveRejects).

(** C4: a bulk request whose array has an element without a name or
    without a category is answered with an error and the store is left as
    it was: 400 for an admin (401 without a valid token, 403 for another
    role); no element is inserted. *)
Theorem bulk_rejected_before_any_insert :
  forall (st : Store) (req : Request) (skills : list SkillBody),
    bulkSkills req = Some skills ->
    (exists item, In item skills /\ lacksNameOrCategory item) ->
    exists r : Response Body,
      postBulk st req = Ok (r, st)
      /\ status r =
         match authorization req with
         | None => 401
         | Some header =>
             match resolve header with
             | None => 401
             | Some user => if isAdmin user then 400 else 403
             end
         end.
Proof.
  intros st req skills Hreq Hex.
  unfold Skills.postBulk, auth, unauthenticated, respond.
  destruct (authorization req) as [header|]; [|eexists; split; reflexivity].
  destruct (resolve header) as [user|]; [|eexists; split; reflexivity].
  destruct (isAdmin user); simpl; [|eexists; split; reflexivity].
  rewrite Hreq.
  destruct (validateEach_missing skills Hex) as (r & E & Hr).
  destruct skills as [|skill rest].
  - destruct Hex as (item & [] & _).
  - rewrite E. exists r. split; [reflexivity | exact Hr].
Qed.

Lemma sortByFields_Ok (fields : list string) (ds l : list Skill) :
  sortByFields sortRefuses fieldLe fields ds = Ok l ->
  existsb sortRefuses fields = false
  /\ l = sortBy (lexLe fieldLe fields) ds.
Proof.
  unfold sortByFields. destruct (existsb sortRefuses fields); [discriminate|].
  intros [= <-]. split; reflexivity.
Qed.

(** C9: GET /skills/:id answers 200 with the skill of that id whatever
    its visibility flag and asks for no credentials; a skill that is not
    visible is in no answer of the public list GET /skills. *)
Theorem hidden_skill_readable_by_id :
  forall (st : Store) (s : Skill) (id : string),
    In s (docs st) ->
    NoDup (map _id (docs st)) ->
    castObjectId castOther id = Ok (_id s) ->
    getSkill st id = Ok (mkResponse 200 (Doc s))
    /\ (isVisible s = false ->
        forall (q : Query) (r : Response Body) (l : list Skill),
          getSkills st q = Ok r -> body r = Docs l -> ~ In s l).
Proof.
  intros st s id Hin Hnd Hcast. split.
  - unfold Skills.getSkill, findById. rewrite Hcast. simpl.
    rewrite (find_by_id _ _ Hin Hnd). reflexivity.
  - intros Hhidden q r l Hget Hbody Hl.
    unfold Skills.getSkills in Hget.
    match type of Hget with tryCatch ?m _ = _ => destruct m as [r'| |] eqn:E end;
      simpl in Hget; try discriminate.
    + injection Hget as <-.
      apply bind_Ok_inv in E. destruct E as (rx & _ & E).
      apply bind_Ok_inv in E. destruct E as (found & Hfound & E).
      apply bind_Ok_inv in E. destruct E as (skills & Hsort & E).
      apply sortByFields_Ok in Hsort. destruct Hsort as [_ ->].
      injection E as <-. simpl in Hbody. injection Hbody as <-.
      apply sortBy_In in Hl.
      destruct (findAll_Ok _ _ Hfound _ Hl) as [_ Ht].
      unfold visibleInCategory in Ht. rewrite Hhidden in Ht. discriminate.
    + injection Hget as <-. discriminate.
Qed.

End Router.

(** Three valid elements and one without a category: nothing is stored. *)
Lemma bulk_rejected_before_any_insert_witness :
  exists r,
    Skills.postBulk Sample.resolve Sample.unauthenticatedMessage Sample.defaults
      Sample.exactPairIndex Sample.skillStore
      (Sample.bulkRequest Sample.adminToken
         [ Sample.skillBody (Some "Vue") (Some "frontend");
           Sample.skillBody (Some "Go") (Some "backend");
           Sample.skillBody (Some "Figma") (Some "design");
           Sample.skillBody (Some "Redis") None ])
    = Ok (r, Sample.skillStore)
    /\ status r = 400.
Proof.
  apply (bulk_rejected_before_any_insert Sample.resolve
           Sample.unauthenticatedMessage Sample.defaults Sample.exactPairIndex
           Sample.skillStore
           (Sample.bulkRequest Sample.adminToken
              [ Sample.skillBody (Some "Vue") (Some "frontend");
                Sample.skillBody (Some "Go") (Some "backend");
                Sample.skillBody (Some "Figma") (Some "design");
                Sample.skillBody (Some "Redis") None ])
           eq_refl).
  exists (Sample.skillBody (Some "Redis") None). split.
  - simpl. auto.
  - right. reflexivity.
Defined.

(** The hidden sample skill is served by id and absent from the list. *)
Lemma hidden_skill_readable_by_id_witness :
  Skills.getSkill Sample.castOther Sample.skillStore "000000000000000000000002"
  = Ok (mkResponse 200 (Doc (Sample.skill 2 "Legacy PHP" "backend" false)))
  /\ forall q r l,
       Skills.getSkills Sample.sortRefuses Sample.fieldLe Sample.skillStore q
       = Ok r ->
       body r = Docs l ->
       ~ In (Sample.skill 2 "Legacy PHP" "backend" false) l.
Proof.
  destruct (hidden_skill_readable_by_id Sample.castOther Sample.sortRefuses
              Sample.fieldLe Sample.skillStore
              (Sample.skill 2 "Legacy PHP" "backend" false)
              "000000000000000000000002") as [Hget Hlist].
  - simpl. auto.
  - simpl. repeat constructor; simpl; intuition discriminate.
  - reflexivity.
  - split; [exact Hget | apply Hlist; reflexivity].
Defined.

Example public_list_of_the_sample :
  Skills.getSkills Sample.sortRefuses Sample.fieldLe Sample.skillStore
    (Skills.mkQuery None None)
  = Ok (mkResponse 200
          (Docs [Sample.skill 3 "Docker" "devops" true;
                 Sample.skill 1 "React" "frontend" true])).
Proof. reflexivity. Qed.

(** *** The duplicate check

    On strings without syntax characters the check of POST / and
    PUT /:id is the comparison of both fields ignoring case. *)
Lemma duplicate_check_plain (n c : string) (ds : list Skill) :
  RegExp.isPlain n = true -> RegExp.isPlain c = true ->
  printableDocs ds = true ->
  bind (RegExp.anchoredIgnoreCase n) (fun rn =>
  bind (RegExp.anchoredIgnoreCase c) (fun rc =>
  findFirst (nameAndCategory rn rc) ds))
  = Ok (List.find (fun d => eqIgnoreCase n (name d)
                            && eqIgnoreCase c (category d)) ds).
Proof.
  intros Hn Hc Hds. unfold RegExp.anchoredIgnoreCase.
  rewrite (parse_plain n Hn), (parse_plain c Hc). simpl bind.
  induction ds as [|d ds IH]; [reflexivity|].
  simpl in Hds. apply andb_true_iff in Hds. destruct Hds as [Hd Hds].
  apply andb_true_iff in Hd. destruct Hd as [Hdn Hdc].
  simpl. unfold nameAndCategory, RegExp.test. rewrite Hdn, Hdc. simpl.
  rewrite !match_literal.
  destruct (eqIgnoreCase n (name d) && eqIgnoreCase c (category d));
    [reflexivity | apply IH, Hds].
Qed.

(** A quantifier character in the name changes what the check compares:
    the pattern of "GO+" does not match the name "Go+" ... *)
Lemma plus_is_a_quantifier :
  bind (RegExp.anchoredIgnoreCase "GO+") (fun p => RegExp.test p "Go+")
  = Ok false
  /\ bind (RegExp.anchoredIgnoreCase "Go+") (fun p => RegExp.test p "Go")
     = Ok true
  /\ RegExp.anchoredIgnoreCase "C++" = Throw SyntaxError.
Proof. repeat split. Qed.

(** C3 (the code departs from the claim): "Go+" is created, then "GO+"
    in the same category, equal to it up to case, is created as well
    instead of being refused, although the store has a unique index on
    the pair. *)
Theorem case_variant_with_plus_is_created :
  let post := Skills.postSkill Sample.resolve Sample.unauthenticatedMessage
                Sample.defaults Sample.exactPairIndex in
  let request n :=
    Sample.skillRequest Sample.adminToken ""
      (Sample.skillBody (Some n) (Some "backend")) in
  eqIgnoreCase "Go+" "GO+" = true
  /\ exists first st1 second st2,
       post (Skills.mkStore [] 1) (request "Go+") = Ok (first, st1)
       /\ status first = 201
       /\ post st1 (request "GO+") = Ok (second, st2)
       /\ status second = 201
       /\ map name (docs st2) = ["Go+"; "GO+"].
Proof.
  split; [reflexivity|].
  do 4 eexists. split; [reflexivity|]. split; [reflexivity|].
  split; [reflexivity|]. split; reflexivity.
Qed.

(** Whatever the store's index and the schema's defaults, the second
    request is not answered with the conflict. *)
Lemma case_variant_with_plus_never_conflict
    (defaults : Skill) (saveRejects : list Skill -> Skill -> option Exn) :
  exists r st',
    Skills.postSkill Sample.resolve Sample.unauthenticatedMessage defaults
      saveRejects
      (Skills.mkStore [Sample.skill 1 "Go+" "backend" true] 2)
      (Sample.skillRequest Sample.adminToken ""
         (Sample.skillBody (Some "GO+") (Some "backend")))
    = Ok (r, st')
    /\ (status r = 201 \/ status r = 500).
Proof.
  unfold Skills.postSkill, auth, validation. simpl.
  unfold save.
  match goal with |- context [saveRejects ?a ?b] =>
    destruct (saveRejects a b) end; simpl;
    do 2 eexists; (split; [reflexivity|]); auto.
Qed.

(** C7 (the code departs from the claim): with the skills "Go+" and "Go"
    in one category, sending "Go+" its own unchanged name and category is
    refused as a conflict with "Go", which does not hold that pair. *)
Theorem unchanged_pair_with_plus_is_refused :
  Skills.putSkill Sample.resolve Sample.unauthenticatedMessage Sample.castOther
    Sample.noIndex Sample.goStore
    (Sample.skillRequest Sample.adminToken "000000000000000000000001"
       (Sample.skillBody (Some "Go+") (Some "backend")))
  = Ok (mkResponse 400
          (Message "Another skill with this name exists in this category"),
        Sample.goStore)
  /\ forall d, In d (docs Sample.goStore) ->
       _id d <> 1%N ->
       eqIgnoreCase (name d) "Go+" && eqIgnoreCase (category d) "backend"
       = false.
Proof.
  split; [reflexivity|].
  intros d [<-|[<-|[]]] Hid; [contradiction Hid|]; reflexivity.
Qed.

(** The store of that request is reached through the router itself. *)
Lemma goStore_reachable :
  let post := Skills.postSkill Sample.resolve Sample.unauthenticatedMessage
                Sample.defaults Sample.exactPairIndex in
  let request n :=
    Sample.skillRequest Sample.adminToken ""
      (Sample.skillBody (Some n) (Some "backend")) in
  exists r1 st1 r2,
    post (Skills.mkStore [] 1) (request "Go+") = Ok (r1, st1)
    /\ post st1 (request "Go") = Ok (r2, Sample.goStore)
    /\ status r1 = 201 /\ status r2 = 201.
Proof. do 3 eexists. repeat split. Qed.

(** A name such as "C++" is no pattern at all: creating it, or sending
    it back unchanged in an update, ends in the server error. *)
Lemma invalid_pattern_is_server_error :
  Skills.postSkill Sample.resolve Sample.unauthenticatedMessage Sample.defaults
    Sample.exactPairIndex (Skills.mkStore [] 1)
    (Sample.skillRequest Sample.adminToken ""
       (Sample.skillBody (Some "C++") (Some "backend")))
  = Ok (mkResponse 500 (Message "Server error while creating skill"),
        Skills.mkStore [] 1).
Proof. reflexivity. Qed.

End SkillsSpec.

(** ** Who may call the admin routes *)

Module AuthSpec.

Import Js Mongo Http Facts.

Section Routers.

Variable resolve : string -> option User.
Variable unauthenticatedMessage : string.
Variable castOther : string -> option ObjectId.
Variable textMatch : string -> Projects.Project -> bool.
Variable ProjectBody : Type.
Variable validateProject : ProjectBody -> list FieldError.
Variable validateId : string -> list FieldError.
Variable newProject : ObjectId -> ProjectBody -> Projects.Project.
Variable applyProjectBody : Projects.Project -> ProjectBody -> Projects.Project.
Variable projectRejects :
  list Projects.Project -> Projects.Project -> option Exn.
Variable sortRefuses : string -> bool.
Variable fieldLe : string -> Skills.Skill -> Skills.Skill -> bool.
Variable defaults : Skills.Skill.
Variable skillRejects : list Skills.Skill -> Skills.Skill -> option Exn.

Local Abbreviation postProject :=
  (Projects.postProject resolve unauthenticatedMessage validateProject
     newProject projectRejects).
Local Abbreviation putProject :=
  (Projects.putProject resolve unauthenticatedMessage castOther validateProject
     validateId applyProjectBody projectRejects).
Local Abbreviation deleteProject :=
  (Projects.deleteProject resolve unauthenticatedMessage castOther validateId).
Local Abbreviation getAdminProjects :=
  (Projects.getAdminAll resolve unauthenticatedMessage castOther textMatch).
Local Abbreviation getAdminSkills :=
  (Skills.getAdminAll resolve unauthenticatedMessage sortRefuses fieldLe).
Local Abbreviation postSkill :=
  (Skills.postSkill resolve unauthenticatedMessage defaults skillRejects).
Local Abbreviation putSkill :=
  (Skills.putSkill resolve unauthenticatedMessage castOther skillRejects).
Local Abbreviation deleteSkill :=
  (Skills.deleteSkill resolve unauthenticatedMessage castOther).
Local Abbreviation postBulk :=
  (Skills.postBulk resolve unauthenticatedMessage defaults skillRejects).

(** Without an Authorization header each of the nine admin routes answers
    401 and leaves the store as it was. *)
Lemma no_header_unauthenticated
    (ps : Projects.Store) (pr : Projects.AdminRequest ProjectBody)
    (ss : Skills.Store) (sr : Skills.Request) :
  Projects.authorization pr = None ->
  Skills.authorization sr = None ->
  answers (postProject ps pr) 401 ps
  /\ answers (putProject ps pr) 401 ps
  /\ answers (deleteProject ps pr) 401 ps
  /\ answers (getAdminProjects ps pr) 401 ps
  /\ answers (getAdminSkills ss sr) 401 ss
  /\ answers (postSkill ss sr) 401 ss
  /\ answers (putSkill ss sr) 401 ss
  /\ answers (deleteSkill ss sr) 401 ss
  /\ answers (postBulk ss sr) 401 ss.
Proof.
  intros Hp Hs.
  unfold Projects.postProject, Projects.putProject, Projects.deleteProject,
    Projects.getAdminAll, Skills.getAdminAll, Skills.postSkill,
    Skills.putSkill, Skills.deleteSkill, Skills.postBulk, auth.
  rewrite Hp, Hs.
  repeat split; eexists; split; reflexivity.
Qed.

(** With a valid token of another role, the skill routes whose handler is
    reached answer 403: always for the list, the deletion and the bulk
    creation, and once the body has passed validation for the creation
    and the update. *)
Lemma skill_routes_forbid_other_roles
    (ss : Skills.Store) (sr : Skills.Request) (header : string) (user : User) :
  Skills.authorization sr = Some header ->
  resolve header = Some user ->
  isAdmin user = false ->
  answers (getAdminSkills ss sr) 403 ss
  /\ answers (deleteSkill ss sr) 403 ss
  /\ answers (postBulk ss sr) 403 ss
  /\ (Skills.createErrors (Skills.sanitize (Skills.reqBody sr)) = [] ->
      answers (postSkill ss sr) 403 ss)
  /\ (Skills.updateErrors (Skills.sanitize (Skills.reqBody sr)) = [] ->
      answers (putSkill ss sr) 403 ss).
Proof.
  intros Hh Hu Hrole.
  unfold Skills.getAdminAll, Skills.postSkill, Skills.putSkill,
    Skills.deleteSkill, Skills.postBulk, auth, Skills.validation.
  rewrite Hh, Hu, Hrole. simpl.
  repeat split; try (eexists; split; reflexivity);
    intros ->; eexists; split; reflexivity.
Qed.

(** The project routes never look at the role: a caller with any valid
    token is answered exactly as an admin would be. *)
Lemma project_routes_ignore_role
    (ps : Projects.Store) (pr : Projects.AdminRequest ProjectBody)
    (header : string) (user : User) :
  Projects.authorization pr = Some header ->
  resolve header = Some user ->
  let asAdmin (_ : string) := Some (mkUser (userId user) "admin") in
  postProject ps pr
    = Projects.postProject asAdmin unauthenticatedMessage validateProject
        newProject projectRejects ps pr
  /\ putProject ps pr
     = Projects.putProject asAdmin unauthenticatedMessage castOther
         validateProject validateId applyProjectBody projectRejects ps pr
  /\ deleteProject ps pr
     = Projects.deleteProject asAdmin unauthenticatedMessage castOther
         validateId ps pr
  /\ getAdminProjects ps pr
     = Projects.getAdminAll asAdmin unauthenticatedMessage castOther textMatch
         ps pr.
Proof.
  intros Hh Hu asAdmin.
  unfold Projects.postProject, Projects.putProject, Projects.deleteProject,
    Projects.getAdminAll, auth.
  rewrite Hh, Hu. repeat split.
Qed.

End Routers.

(** C1 (the code departs from the claim): a caller whose valid token
    resolves to the role "user" posts a project; the answer is 201, not
    403, and the project is in the store. *)
Theorem non_admin_creates_project :
  Http.isAdmin Sample.plainUser = false
  /\ Sample.resolve "Bearer user-token" = Some Sample.plainUser
  /\ Projects.postProject Sample.resolve Sample.unauthenticatedMessage
       Sample.validateProject Sample.newProject Sample.uniqueTitle
       Sample.projectStore Sample.intruderRequest
     = Ok (mkResponse 201
             (Projects.Doc (Sample.project 6 "Intruder" "intruder" true true 99 600)),
           Projects.mkStore
             (Projects.docs Sample.projectStore
              ++ [Sample.project 6 "Intruder" "intruder" true true 99 600])
             7%N).
Proof. repeat split. Qed.

End AuthSpec.

(** * Further properties *)

(** ** Sorting *)

Module SortFacts.

Import Js Mongo Facts.

Section Sorting.

Variable A : Type.
Variable le : A -> A -> bool.
Hypothesis le_total : forall a b, le a b = true \/ le b a = true.
Hypothesis le_trans : forall a b c, le a b = true -> le b c = true -> le a c = true.

Let R (a b : A) : Prop := le a b = true.

Lemma insertBy_sorted (x : A) (l : list A) :
  StronglySorted R l -> StronglySorted R (insertBy le x l).
Proof.
  induction 1 as [|y l Hl IH Hy]; simpl.
  - repeat constructor.
  - destruct (le x y) eqn:E.
    + constructor; [constructor; assumption|].
      constructor; [exact E|].
      rewrite Forall_forall in *. intros z Hz. eapply le_trans; [exact E|].
      apply Hy, Hz.
    + constructor; [exact IH|].
      rewrite Forall_forall in *. intros z Hz.
      apply insertBy_In in Hz. destruct Hz as [->|Hz]; [|apply Hy, Hz].
      destruct (le_total x y) as [H|H]; [congruence | exact H].
Qed.

Lemma sortBy_sorted (l : list A) : StronglySorted R (sortBy le l).
Proof.
  induction l as [|x l IH]; [constructor|].
  change (sortBy le (x :: l)) with (insertBy le x (sortBy le l)).
  apply insertBy_sorted, IH.
Qed.

End Sorting.

Lemma sorted_skipn {A} (R : A -> A -> Prop) (n : nat) (l : list A) :
  StronglySorted R l -> StronglySorted R (skipn n l).
Proof.
  revert l; induction n as [|n IH]; intros l H; [exact H|].
  destruct l as [|x l]; [constructor|]. simpl. apply IH.
  inversion H; assumption.
Qed.

Lemma sorted_firstn {A} (R : A -> A -> Prop) (n : nat) (l : list A) :
  StronglySorted R l -> StronglySorted R (firstn n l).
Proof.
  revert l; induction n as [|n IH]; intros l H; [constructor|].
  destruct l as [|x l]; [constructor|]. simpl.
  inversion H as [|? ? Hl Hx]; subst. constructor; [apply IH, Hl|].
  rewrite Forall_forall in *. intros y Hy. apply Hx.
  eapply Facts.firstn_In, Hy.
Qed.

Lemma sorted_app_inv {A} (R : A -> A -> Prop) (l1 l2 : list A) :
  StronglySorted R (l1 ++ l2) ->
  forall x y, In x l1 -> In y l2 -> R x y.
Proof.
  induction l1 as [|a l1 IH]; simpl; intros H x y Hx Hy; [destruct Hx|].
  inversion H as [|? ? Hl Ha]; subst.
  destruct Hx as [<-|Hx]; [|apply IH; assumption].
  rewrite Forall_forall in Ha. apply Ha, in_or_app. right; exact Hy.
Qed.

Lemma sorted_impl {A} (R S : A -> A -> Prop) (l : list A) :
  (forall a b, R a b -> S a b) -> StronglySorted R l -> StronglySorted S l.
Proof.
  intros HRS. induction 1 as [|x l Hl IH Hx]; constructor; [exact IH|].
  rewrite Forall_forall in *. intros y Hy. apply HRS, Hx, Hy.
Qed.

Lemma filter_all {A} (f : A -> bool) (l : list A) :
  (forall x, In x l -> f x = true) -> filter f l = l.
Proof.
  induction l as [|x l IH]; simpl; intro H; [reflexivity|].
  rewrite (H x (or_introl eq_refl)). f_equal. apply IH. intros; apply H; auto.
Qed.

Lemma filter_none {A} (f : A -> bool) (l : list A) :
  (forall x, In x l -> f x = false) -> filter f l = [].
Proof.
  induction l as [|x l IH]; simpl; intro H; [reflexivity|].
  rewrite (H x (or_introl eq_refl)). apply IH. intros; apply H; auto.
Qed.



End SortFacts.

(** ** More on the project router *)

Module ProjectsMore.

Import Js Mongo Http Projects Ranking Facts SortFacts.

Lemma ranking_total (a b : Project) :
  byPriorityThenRecency a b = true \/ byPriorityThenRecency b a = true.
Proof.
  unfold byPriorityThenRecency.
  destruct (Z.ltb_spec (priority b) (priority a)); [left; reflexivity|].
  destruct (Z.ltb_spec (priority a) (priority b)); [right; reflexivity|].
  assert (priority a = priority b) as E by lia.
  rewrite E, Z.eqb_refl. simpl.
  destruct (Z.leb_spec (createdAt b) (createdAt a)); [left; reflexivity|].
  right. apply Z.leb_le. lia.
Qed.

Lemma ranking_spec (a b : Project) :
  byPriorityThenRecency a b = true <-> ranksNoLater a b.
Proof.
  unfold byPriorityThenRecency, ranksNoLater.
  rewrite orb_true_iff, andb_true_iff, Z.ltb_lt, Z.eqb_eq, Z.leb_le. tauto.
Qed.

Lemma ranking_trans (a b c : Project) :
  byPriorityThenRecency a b = true -> byPriorityThenRecency b c = true ->
  byPriorityThenRecency a c = true.
Proof.
  rewrite !ranking_spec. unfold ranksNoLater. lia.
Qed.

Lemma ranked (l : list Project) :
  StronglySorted ranksNoLater (sortBy byPriorityThenRecency l).
Proof.
  eapply sorted_impl; [|apply sortBy_sorted; [apply ranking_total | apply ranking_trans]].
  intros a b H. apply ranking_spec, H.
Qed.



Lemma recency_sorted (l : list Project) :
  StronglySorted noOlder (sortBy byRecency l).
Proof.
  eapply sorted_impl; [|apply sortBy_sorted].
  - intros a b H. apply Z.leb_le, H.
  - intros a b. unfold byRecency.
    destruct (Z.leb_spec (createdAt b) (createdAt a)); [left; reflexivity|].
    right. apply Z.leb_le. lia.
  - intros a b c. unfold byRecency. rewrite !Z.leb_le. lia.
Qed.

(** Upper and lower case hexadecimal digits have the same value. *)
Lemma hexDigitValue_upper (c : ascii) :
  hexDigitValue (toUpper c) = hexDigitValue c.
Proof.
  destruct c as [[] [] [] [] [] [] [] []]; reflexivity.
Qed.

Lemma isHexDigit_upper (c : ascii) : isHexDigit (toUpper c) = isHexDigit c.
Proof.
  destruct c as [[] [] [] [] [] [] [] []]; reflexivity.
Qed.

Lemma hexValue_upper (s : string) (acc : N) :
  hexValue (toUpperCase s) acc = hexValue s acc.
Proof.
  revert acc; induction s as [|c s IH]; intro acc; [reflexivity|].
  simpl. rewrite hexDigitValue_upper. apply IH.
Qed.

Lemma isObjectIdString_upper (s : string) :
  isObjectIdString (toUpperCase s) = isObjectIdString s.
Proof.
  unfold isObjectIdString. generalize 24%nat.
  induction s as [|c s IH]; intros [|n]; try reflexivity.
  simpl. rewrite isHexDigit_upper, IH. reflexivity.
Qed.

Section Public.

Local Set Default Proof Using "Type".

Variable castOther : string -> option ObjectId.
Variable textMatch : string -> Project -> bool.

Local Abbreviation find := (Projects.find castOther textMatch).
Local Abbreviation getProjects := (Projects.getProjects castOther textMatch).
Local Abbreviation getFeatured := (Projects.getFeatured castOther textMatch).
Local Abbreviation getProject := (Projects.getProject castOther textMatch).

Lemma listFilter_fields (q : Query) :
  f_category (listFilter q)
    = match q_category q with
      | Some c => if truthy c then Some c else None
      | None => None
      end
  /\ f_id_ne (listFilter q)
     = match q_exclude q with
       | Some e => if truthy e then Some e else None
       | None => None
       end
  /\ f_id (listFilter q) = None.
Proof.
  unfold listFilter.
  destruct (q_category q) as [c|]; [destruct (truthy c)|];
    (destruct (q_featured q) as [v|]; [destruct (String.eqb v "true")|]);
    (destruct (q_search q) as [s|]; [destruct (truthy s)|]);
    (destruct (q_exclude q) as [e|]; [destruct (truthy e)|]);
    repeat split.
Qed.

Lemma matches_inv (f : Filter) (idNe idEq : option ObjectId) (p : Project) :
  matches textMatch f idNe idEq p = true ->
  holds (f_category f) (String.eqb (category p)) = true
  /\ holds (f_isFeatured f) (Bool.eqb (isFeatured p)) = true
  /\ holds idNe (fun o => negb (N.eqb (_id p) o)) = true.
Proof.
  unfold matches. intro H.
  repeat (apply andb_true_iff in H; destruct H as [H ?]). auto.
Qed.



(** X1: the projects of a page of GET /projects stand in ranking order:
    higher priority first, and the newer first among equal priorities. *)
Theorem page_is_ranked :
  forall (st : Store) (q : Query),
  exists r : Response Body,
    getProjects st q = Ok r
    /\ (r = serverError
        \/ exists ps pg,
             r = mkResponse 200 (Page ps pg)
             /\ StronglySorted ranksNoLater ps).
Proof.
  intros st q. unfold Projects.getProjects, countDocuments.
  destruct (ProjectsSpec.find_cases castOther textMatch (docs st) (listFilter q))
    as [E | (idNe & idEq & E)]; rewrite E; simpl bind.
  - eexists; split; [reflexivity | left; reflexivity].
  - unfold Mongo.skip.
    destruct ((parseIntOr (q_page q) 1 - 1) * parseIntOr (q_limit q) 10 <? 0);
      simpl.
    + eexists; split; [reflexivity | left; reflexivity].
    + eexists; split; [reflexivity|]. right. do 2 eexists.
      split; [reflexivity|].
      unfold Mongo.limit.
      destruct (parseIntOr (q_limit q) 10 =? 0);
        [|apply sorted_firstn]; apply sorted_skipn, ranked.
Qed.

(** X2: GET /projects/featured answers the best six in ranking order:
    every published and featured project of the collection is either in
    the answer or ranked no earlier than each of the six returned. *)
Theorem featured_are_the_best_six :
  forall st : Store,
  exists ps : list Project,
    getFeatured st = Ok (mkResponse 200 (Docs ps))
    /\ StronglySorted ranksNoLater ps
    /\ forall p, In p (docs st) -> isPublished p = true -> isFeatured p = true ->
         In p ps
         \/ (List.length ps = 6%nat /\ forall x, In x ps -> ranksNoLater x p).
Proof.
  intro st. unfold Projects.getFeatured.
  rewrite ProjectsSpec.find_no_id by reflexivity. simpl bind. unfold tryCatch.
  eexists. split; [reflexivity|].
  change (Mongo.limit 6 ?l) with (firstn 6 l).
  set (f := matches textMatch (with_isFeatured true (with_isPublished true noFilter))
              None None).
  set (sorted := sortBy byPriorityThenRecency (filter f (docs st))).
  split; [apply sorted_firstn, ranked|].
  intros p Hin Hpub Hfeat.
  assert (In p sorted) as Hs.
  { apply sortBy_In, filter_In. split; [exact Hin|].
    unfold f, matches. simpl. rewrite Hpub, Hfeat. reflexivity. }
  rewrite <- (firstn_skipn 6 sorted) in Hs. apply in_app_or in Hs.
  destruct Hs as [Hs|Hs]; [left; exact Hs | right].
  assert (StronglySorted ranksNoLater (firstn 6 sorted ++ skipn 6 sorted)) as Hsorted
    by (rewrite firstn_skipn; apply ranked).
  split.
  - destruct (Nat.le_gt_cases 6 (List.length sorted)) as [Hlen|Hlen].
    + apply firstn_length_le, Hlen.
    + rewrite skipn_all2 in Hs by lia. destruct Hs.
  - intros x Hx. eapply sorted_app_inv; eassumption.
Qed.



(** X5: when the exclude parameter is 24 hexadecimal digits, the project
    with that id is on no page of the answer. *)
Theorem excluded_project_is_absent :
  forall (st : Store) (q : Query) (e : string) (r : Response Body)
         (ps : list Project) (pg : Pagination) (p : Project),
    q_exclude q = Some e ->
    isObjectIdString e = true ->
    getProjects st q = Ok r -> body r = Page ps pg -> In p ps ->
    _id p <> hexValue e 0%N.
Proof.
  intros st q e r ps pg p He Hshape Hget Hbody Hin.
  destruct (listFilter_fields q) as (_ & Hne & Hid). rewrite He in Hne.
  assert (truthy e = true) as Ht.
  { destruct e; [discriminate Hshape | reflexivity]. }
  rewrite Ht in Hne.
  unfold Projects.getProjects, countDocuments, Projects.find in Hget.
  rewrite Hne, Hid in Hget. unfold castCondition, castObjectId in Hget.
  rewrite Hshape in Hget. simpl bind in Hget. unfold Mongo.skip in Hget.
  destruct ((parseIntOr (q_page q) 1 - 1) * parseIntOr (q_limit q) 10 <? 0);
    simpl in Hget; injection Hget as <-; simpl in Hbody; [discriminate|].
  injection Hbody as <- _.
  apply limit_In, Facts.skipn_In, sortBy_In, filter_In in Hin.
  destruct Hin as [_ Hm]. apply matches_inv in Hm.
  destruct Hm as (_ & _ & Hm). simpl in Hm.
  apply negb_true_iff, N.eqb_neq in Hm. exact Hm.
Qed.

(** X6: when the exclude parameter is not empty and cannot be cast to an
    id, GET /projects answers the server error, whatever else is asked. *)
Theorem malformed_exclude_is_server_error :
  forall (st : Store) (q : Query) (e : string),
    q_exclude q = Some e ->
    truthy e = true ->
    castObjectId castOther e = Throw CastError ->
    getProjects st q = Ok serverError.
Proof.
  intros st q e He Ht Hcast.
  destruct (listFilter_fields q) as (_ & Hne & _). rewrite He, Ht in Hne.
  unfold Projects.getProjects, Projects.find.
  rewrite Hne. unfold castCondition. rewrite Hcast. reflexivity.
Qed.

(** X7: with a category parameter every project of the page has exactly
    that category, and with featured=true every project of the page is
    featured. *)
Theorem category_and_featured_filters :
  forall (st : Store) (q : Query) (r : Response Body)
         (ps : list Project) (pg : Pagination) (p : Project),
    getProjects st q = Ok r -> body r = Page ps pg -> In p ps ->
    (forall c, q_category q = Some c -> truthy c = true -> category p = c)
    /\ (q_featured q = Some "true" -> isFeatured p = true).
Proof.
  intros st q r ps pg p Hget Hbody Hin.
  assert (exists idNe idEq,
            matches textMatch (listFilter q) idNe idEq p = true) as (idNe & idEq & Hm).
  { unfold Projects.getProjects, countDocuments in Hget.
    destruct (ProjectsSpec.find_cases castOther textMatch (docs st) (listFilter q))
      as [E | (idNe & idEq & E)]; rewrite E in Hget; simpl bind in Hget.
    - injection Hget as <-. discriminate.
    - unfold Mongo.skip in Hget.
      destruct ((parseIntOr (q_page q) 1 - 1) * parseIntOr (q_limit q) 10 <? 0);
        simpl in Hget; injection Hget as <-; simpl in Hbody; [discriminate|].
      injection Hbody as <- _.
      apply limit_In, Facts.skipn_In, sortBy_In, filter_In in Hin.
      exists idNe, idEq. apply Hin. }
  apply matches_inv in Hm. destruct Hm as (Hc & Hf & _).
  destruct (listFilter_fields q) as (Ec & _). split.
  - intros c Hq Ht. rewrite Hq, Ht in Ec. rewrite Ec in Hc. simpl in Hc.
    apply String.eqb_eq, Hc.
  - intro Hq. rewrite ProjectsSpec.listFilter_featured, Hq in Hf. simpl in Hf.
    destruct (isFeatured p); [reflexivity | discriminate].
Qed.

(** X8: the lookup by id does not depend on the case of the hexadecimal
    letters: two identifiers of 24 hexadecimal digits that differ only in
    letter case are answered alike. *)
Theorem id_lookup_ignores_letter_case :
  forall (st : Store) (s t : string),
    isObjectIdString s = true ->
    eqIgnoreCase s t = true ->
    getProject st s = getProject st t.
Proof.
  intros st s t Hs Heq.
  apply String.eqb_eq in Heq.
  assert (isObjectIdString t = true) as Ht.
  { rewrite <- isObjectIdString_upper, <- Heq, isObjectIdString_upper. exact Hs. }
  assert (hexValue s 0%N = hexValue t 0%N) as Hv.
  { rewrite <- (hexValue_upper s), Heq. apply hexValue_upper. }
  unfold Projects.getProject, findOne, Projects.find. rewrite Hs, Ht. simpl.
  unfold castObjectId. rewrite Hs, Ht, Hv. reflexivity.
Qed.

End Public.

Section Admin.

Local Set Default Proof Using "Type".

Variable resolve : string -> option User.
Variable unauthenticatedMessage : string.
Variable castOther : string -> option ObjectId.
Variable textMatch : string -> Project -> bool.
Variable ProjectBody : Type.
Variable validateProject : ProjectBody -> list FieldError.
Variable validateId : string -> list FieldError.
Variable newProject : ObjectId -> ProjectBody -> Project.
Variable applyProjectBody : Project -> ProjectBody -> Project.
Variable projectRejects : list Project -> Project -> option Exn.

Local Abbreviation postProject :=
  (Projects.postProject resolve unauthenticatedMessage validateProject
     newProject projectRejects).
Local Abbreviation putProject :=
  (Projects.putProject resolve unauthenticatedMessage castOther validateProject
     validateId applyProjectBody projectRejects).
Local Abbreviation deleteProject :=
  (Projects.deleteProject resolve unauthenticatedMessage castOther validateId).
Local Abbreviation getAdminAll :=
  (Projects.getAdminAll resolve unauthenticatedMessage castOther textMatch).
Local Abbreviation getProject := (Projects.getProject castOther textMatch).

Lemma find_some_id (ds : list Project) (o : ObjectId) :
  (exists p, In p ds /\ _id p = o) ->
  exists old, List.find (fun d => N.eqb (_id d) o) ds = Some old /\ _id old = o.
Proof.
  intros (p & Hin & Hid).
  destruct (List.find (fun d => N.eqb (_id d) o) ds) as [old|] eqn:E.
  - exists old. split; [reflexivity|].
    apply find_some in E. apply N.eqb_eq, E.
  - exfalso. pose proof (find_none _ _ E p Hin) as H. simpl in H.
    rewrite Hid, N.eqb_refl in H. discriminate.
Qed.

(** X9: DELETE /projects/:id by a caller with a valid token, for the id
    of a stored project: the answer is 200, exactly the documents with
    that id leave the collection, and the public lookup of the same id
    then answers 404. *)
Theorem deleted_project_is_gone :
  forall (st : Store) (req : AdminRequest ProjectBody) (header : string)
         (user : User),
    authorization req = Some header ->
    resolve header = Some user ->
    validateId (paramId req) = [] ->
    isObjectIdString (paramId req) = true ->
    (exists p, In p (docs st) /\ _id p = hexValue (paramId req) 0%N) ->
    exists st',
      deleteProject st req
        = Ok (mkResponse 200 (Message "Project deleted successfully"), st')
      /\ (forall d, In d (docs st') <->
                    In d (docs st) /\ _id d <> hexValue (paramId req) 0%N)
      /\ getProject st' (paramId req)
         = Ok (mkResponse 404 (Message "Project not found")).
Proof.
  intros st req header user Hh Hu Hv Hshape Hex.
  destruct (find_some_id _ Hex) as (old & Hfind & Hid).
  unfold Projects.deleteProject, auth, Projects.findById, castObjectId.
  rewrite Hh, Hu, Hv, Hshape. simpl. rewrite Hfind. simpl.
  eexists. split; [reflexivity|]. simpl. rewrite Hid. split.
  - intro d. unfold others. rewrite filter_In, negb_true_iff, N.eqb_neq.
    reflexivity.
  - unfold Projects.getProject, findOne, Projects.find, castCondition,
      castObjectId. rewrite Hshape. simpl. rewrite Hshape. simpl.
    rewrite filter_none; [reflexivity|].
    intros d Hd. unfold others in Hd. apply filter_In in Hd.
    destruct Hd as [_ Hd]. apply negb_true_iff in Hd.
    unfold matches. simpl. rewrite Hd.
    destruct (Bool.eqb (isPublished d) true); reflexivity.
Qed.

(** X10: the mutating project routes change the store only when they
    answer success: POST / answers 201 or leaves the store as it was, and
    PUT /:id and DELETE /:id answer 200 or leave it as it was; no
    exception escapes a handler. *)
Theorem project_errors_keep_the_store :
  forall (st : Store) (req : AdminRequest ProjectBody),
    (exists r st', postProject st req = Ok (r, st')
                   /\ (status r = 201 \/ st' = st))
    /\ (exists r st', putProject st req = Ok (r, st')
                      /\ (status r = 200 \/ st' = st))
    /\ (exists r st', deleteProject st req = Ok (r, st')
                      /\ (status r = 200 \/ st' = st)).
Proof.
  intros st req.
  unfold Projects.postProject, Projects.putProject, Projects.deleteProject,
    auth, Projects.unauthenticated, Projects.findById, castObjectId, Projects.save.
  destruct (authorization req) as [header|];
    [|repeat split; do 2 eexists; (split; [reflexivity | right; reflexivity])].
  destruct (resolve header) as [user|];
    [|repeat split; do 2 eexists; (split; [reflexivity | right; reflexivity])].
  repeat split.
  - destruct (validateProject (reqBody req)); simpl;
      [|do 2 eexists; split; [reflexivity | right; reflexivity]].
    destruct (projectRejects _ _) as [e|]; simpl.
    + destruct (isCode11000 e);
        do 2 eexists; (split; [reflexivity | right; reflexivity]).
    + do 2 eexists; split; [reflexivity | left; reflexivity].
  - destruct (validateId (paramId req) ++ validateProject (reqBody req))%list;
      simpl; [|do 2 eexists; split; [reflexivity | right; reflexivity]].
    destruct (isObjectIdString (paramId req)); simpl.
    + destruct (List.find _ (docs st)) as [old|]; simpl;
        [|do 2 eexists; split; [reflexivity | right; reflexivity]].
      destruct (projectRejects _ _) as [e|]; simpl.
      * destruct (isCode11000 e);
          do 2 eexists; (split; [reflexivity | right; reflexivity]).
      * do 2 eexists; split; [reflexivity | left; reflexivity].
    + destruct (castOther (paramId req)) as [o|]; simpl;
        [|do 2 eexists; split; [reflexivity | right; reflexivity]].
      destruct (List.find _ (docs st)) as [old|]; simpl;
        [|do 2 eexists; split; [reflexivity | right; reflexivity]].
      destruct (projectRejects _ _) as [e|]; simpl.
      * destruct (isCode11000 e);
          do 2 eexists; (split; [reflexivity | right; reflexivity]).
      * do 2 eexists; split; [reflexivity | left; reflexivity].
  - destruct (validateId (paramId req)); simpl;
      [|do 2 eexists; split; [reflexivity | right; reflexivity]].
    destruct (isObjectIdString (paramId req)); simpl.
    + destruct (List.find _ (docs st)) as [old|]; simpl;
        do 2 eexists; (split; [reflexivity|]); auto.
    + destruct (castOther (paramId req)) as [o|]; simpl;
        [|do 2 eexists; split; [reflexivity | right; reflexivity]].
      destruct (List.find _ (docs st)) as [old|]; simpl;
        do 2 eexists; (split; [reflexivity|]); auto.
Qed.

(** X11: GET /projects/admin/all, for a caller with any valid token,
    answers 200 with the whole collection, unpublished projects included,
    the newest first, and leaves the store as it was. *)
Theorem admin_list_is_the_whole_collection :
  forall (st : Store) (req : AdminRequest ProjectBody) (header : string)
         (user : User),
    authorization req = Some header ->
    resolve header = Some user ->
    exists ps,
      getAdminAll st req = Ok (mkResponse 200 (Docs ps), st)
      /\ Permutation ps (docs st)
      /\ StronglySorted noOlder ps.
Proof.
  intros st req header user Hh Hu.
  unfold Projects.getAdminAll, auth. rewrite Hh, Hu.
  rewrite ProjectsSpec.find_no_id by reflexivity. simpl.
  rewrite filter_all by reflexivity.
  eexists. split; [reflexivity|]. split; [apply sortBy_perm | apply recency_sorted].
Qed.

End Admin.





Lemma excluded_project_is_absent_witness :
  Projects.getProjects Sample.castOther Sample.textMatch Sample.projectStore
    (Scenario.listQuery None (Some "3") None None
       (Some "000000000000000000000001"))
  = Ok (mkResponse 200
          (Page [ Sample.project 4 "Delta" "delta" false true 3 400;
                  Sample.project 2 "Beta" "beta" false true 3 200;
                  Sample.project 5 "Epsilon" "epsilon" true true 1 500 ]
             (mkPagination 1 3 3 1)))
  /\ _id (Sample.project 4 "Delta" "delta" false true 3 400) <> 1%N.
Proof.
  split; [reflexivity|].
  apply (@excluded_project_is_absent Sample.castOther Sample.textMatch
           Sample.projectStore
           (Scenario.listQuery None (Some "3") None None
              (Some "000000000000000000000001"))
           "000000000000000000000001" _ _ _
           (Sample.project 4 "Delta" "delta" false true 3 400)
           eq_refl eq_refl eq_refl eq_refl).
  simpl. auto.
Defined.

Lemma malformed_exclude_is_server_error_witness :
  Projects.getProjects Sample.castOther Sample.textMatch Sample.projectStore
    (Scenario.listQuery None (Some "3") None None (Some "alpha"))
  = Ok serverError.
Proof.
  apply (@malformed_exclude_is_server_error Sample.castOther Sample.textMatch
           Sample.projectStore
           (Scenario.listQuery None (Some "3") None None (Some "alpha"))
           "alpha"); reflexivity.
Defined.

Lemma category_and_featured_filters_witness :
  category (Sample.project 5 "Epsilon" "epsilon" true true 1 500) = "web"
  /\ isFeatured (Sample.project 5 "Epsilon" "epsilon" true true 1 500) = true.
Proof.
  destruct (@category_and_featured_filters Sample.castOther Sample.textMatch
              Sample.projectStore
              (Scenario.listQuery None None (Some "web") (Some "true") None)
              _ _ _ (Sample.project 5 "Epsilon" "epsilon" true true 1 500)
              eq_refl eq_refl) as [Hc Hf]; [simpl; auto|].
  split; [apply Hc; reflexivity | apply Hf; reflexivity].
Defined.

Lemma id_lookup_ignores_letter_case_witness :
  Projects.getProject Sample.castOther Sample.textMatch
    (Projects.mkStore [Sample.project 171 "Hex" "hex" false true 0 0] 172)
    "0000000000000000000000ab"
  = Projects.getProject Sample.castOther Sample.textMatch
      (Projects.mkStore [Sample.project 171 "Hex" "hex" false true 0 0] 172)
      "0000000000000000000000AB".
Proof.
  apply (@id_lookup_ignores_letter_case Sample.castOther Sample.textMatch);
    reflexivity.
Defined.

Lemma deleted_project_is_gone_witness :
  exists st',
    Projects.deleteProject Sample.resolve Sample.unauthenticatedMessage
      Sample.castOther Sample.validateId Sample.projectStore Scenario.onBeta
    = Ok (mkResponse 200 (Message "Project deleted successfully"), st')
    /\ (forall d, In d (docs st') <->
                  In d (docs Sample.projectStore) /\ _id d <> 2%N)
    /\ Projects.getProject Sample.castOther Sample.textMatch st'
         "000000000000000000000002"
       = Ok (mkResponse 404 (Message "Project not found")).
Proof.
  apply (@deleted_project_is_gone Sample.resolve Sample.unauthenticatedMessage
           Sample.castOther Sample.textMatch Projects.Project Sample.validateId
           Sample.projectStore Scenario.onBeta "Bearer user-token"
           Sample.plainUser eq_refl eq_refl eq_refl eq_refl).
  exists (Sample.project 2 "Beta" "beta" false true 3 200).
  split; [simpl; auto | reflexivity].
Defined.

Lemma admin_list_is_the_whole_collection_witness :
  exists ps,
    Projects.getAdminAll Sample.resolve Sample.unauthenticatedMessage
      Sample.castOther Sample.textMatch Sample.projectStore Scenario.onBeta
    = Ok (mkResponse 200 (Docs ps), Sample.projectStore)
    /\ Permutation ps (docs Sample.projectStore)
    /\ StronglySorted noOlder ps.
Proof.
  apply (@admin_list_is_the_whole_collection Sample.resolve
           Sample.unauthenticatedMessage Sample.castOther Sample.textMatch
           Projects.Project Sample.projectStore Scenario.onBeta
           "Bearer user-token" Sample.plainUser eq_refl eq_refl).
Defined.

End ProjectsMore.

(** ** More on the skill router *)

Module SkillsMore.

Import Js Mongo Http Skills SkillsExtra Facts SortFacts.

(** *** Lists and lookups *)

Lemma findAll_on (t : Skill -> Result bool) (f : Skill -> bool)
    (ds : list Skill) :
  (forall d, In d ds -> t d = Ok (f d)) -> findAll t ds = Ok (filter f ds).
Proof.
  induction ds as [|d ds IH]; intro H; [reflexivity|].
  simpl. rewrite (H d (or_introl eq_refl)). simpl.
  rewrite IH by (intros; apply H; right; assumption). simpl.
  destruct (f d); reflexivity.
Qed.

Lemma findFirst_on (t : Skill -> Result bool) (f : Skill -> bool)
    (ds : list Skill) :
  (forall d, In d ds -> t d = Ok (f d)) -> findFirst t ds = Ok (List.find f ds).
Proof.
  induction ds as [|d ds IH]; intro H; [reflexivity|].
  simpl. rewrite (H d (or_introl eq_refl)). simpl.
  destruct (f d); [reflexivity|]. apply IH. intros; apply H; right; assumption.
Qed.

Lemma put_fresh (s : Skill) (ds : list Skill) :
  (forall d, In d ds -> _id d <> _id s) -> put s ds = (ds ++ [s])%list.
Proof.
  induction ds as [|d ds IH]; intro H; [reflexivity|].
  simpl. destruct (N.eqb_spec (_id d) (_id s)) as [E|_].
  - exfalso. apply (H d (or_introl eq_refl) E).
  - f_equal. apply IH. intros; apply H; right; assumption.
Qed.

Lemma put_ids (s : Skill) (ds : list Skill) :
  (exists d, In d ds /\ _id d = _id s) ->
  map _id (put s ds) = map _id ds.
Proof.
  induction ds as [|d ds IH]; intros (x & Hin & Hx); [destruct Hin|].
  simpl. destruct (N.eqb_spec (_id d) (_id s)) as [E|N].
  - simpl. rewrite E. reflexivity.
  - simpl. f_equal. apply IH. destruct Hin as [->|Hin]; [contradiction|].
    exists x; auto.
Qed.

Lemma put_In (s : Skill) (ds : list Skill) (x : Skill) :
  In x (put s ds) -> x = s \/ In x ds.
Proof.
  induction ds as [|d ds IH]; simpl; [intuition|].
  destruct (N.eqb (_id d) (_id s)); simpl; intuition.
Qed.

Lemma put_same (s : Skill) (ds : list Skill) :
  List.find (fun d => N.eqb (_id d) (_id s)) ds = Some s -> put s ds = ds.
Proof.
  induction ds as [|d ds IH]; simpl; [discriminate|].
  destruct (N.eqb (_id d) (_id s)).
  - intros [= ->]. reflexivity.
  - intro H. f_equal. apply IH, H.
Qed.

Lemma find_id_Some (ds : list Skill) (o : ObjectId) (s : Skill) :
  List.find (fun d => N.eqb (_id d) o) ds = Some s -> In s ds /\ _id s = o.
Proof.
  intro H. apply find_some in H. destruct H as [Hin Hid].
  split; [exact Hin | apply N.eqb_eq, Hid].
Qed.

Lemma find_id_None (ds : list Skill) (o : ObjectId) :
  List.find (fun d => N.eqb (_id d) o) ds = None ->
  forall s, In s ds -> _id s <> o.
Proof.
  intros H s Hin E. pose proof (find_none _ _ H s Hin) as Hf. simpl in Hf.
  rewrite E, N.eqb_refl in Hf. discriminate.
Qed.

Lemma find_others (ds : list Skill) (o : ObjectId) :
  List.find (fun d => N.eqb (_id d) o) (others o ds) = None.
Proof.
  destruct (List.find _ (others o ds)) as [s|] eqn:E; [|reflexivity].
  apply find_some in E. destruct E as [Hin Hid].
  unfold others in Hin. apply filter_In in Hin. destruct Hin as [_ Hne].
  rewrite Hid in Hne. discriminate.
Qed.

Lemma castObjectId_cases (castOther : string -> option ObjectId) (id : string) :
  (exists o, castObjectId castOther id = Ok o)
  \/ castObjectId castOther id = Throw CastError.
Proof.
  unfold castObjectId. destruct (isObjectIdString id); [eauto|].
  destruct (castOther id); eauto.
Qed.

(** *** Patterns that are no patterns *)

Lemma parse_step (c d : ascii) (t : string) :
  RegExp.isPlainChar c = true -> RegExp.quantifierOf d = None ->
  RegExp.parseTerms (String c (String d t))
  = RegExp.consTerm (RegExp.AChar c, RegExp.Once)
      (RegExp.parseTerms (String d t)).
Proof.
  intros Hc Hd. destruct (SkillsSpec.plain_char c Hc) as [Hq Ha].
  simpl. rewrite Hq, Ha, Hd. reflexivity.
Qed.

(** A character followed by two plus signs is the syntax error "Nothing
    to repeat", whatever follows. *)
Lemma parse_stacked (p rest : string) :
  RegExp.isPlain p = true -> p <> "" ->
  RegExp.parseTerms (p ++ "++" ++ rest) = Throw SyntaxError.
Proof.
  induction p as [|c p IH]; intros Hp Hne; [contradiction|].
  unfold RegExp.isPlain in Hp. simpl in Hp.
  apply andb_true_iff in Hp. destruct Hp as [Hc Hp].
  destruct p as [|d p'].
  - destruct (SkillsSpec.plain_char c Hc) as [Hq Ha].
    simpl. rewrite Hq, Ha. reflexivity.
  - assert (RegExp.quantifierOf d = None) as Hd.
    { simpl in Hp. apply andb_true_iff in Hp. destruct Hp as [Hd _].
      apply (SkillsSpec.plain_char d Hd). }
    change ((String c (String d p') ++ "++" ++ rest)%string)
      with (String c (String d (p' ++ "++" ++ rest)))%string.
    rewrite (@parse_step c d _ Hc Hd).
    change (String d (p' ++ "++" ++ rest))%string
      with (String d p' ++ "++" ++ rest)%string.
    rewrite IH by (first [exact Hp | discriminate]). reflexivity.
Qed.

(** *** The validators *)

Lemma check_nil (ok : bool) (f m : string) : check ok f m = [] -> ok = true.
Proof. destruct ok; [reflexivity | discriminate]. Qed.

Lemma createErrors_nil (b : SkillBody) :
  createErrors b = [] ->
  exists n c, b_name b = Some n /\ b_category b = Some c
              /\ truthy n = true /\ isIn categories c = true.
Proof.
  unfold createErrors. intro H.
  apply app_eq_nil in H. destruct H as [Hn H].
  apply app_eq_nil in H. destruct H as [_ H].
  apply app_eq_nil in H. destruct H as [Hc _].
  apply check_nil in Hn, Hc.
  destruct (b_name b) as [n|]; [|discriminate].
  destruct (b_category b) as [c|]; [|discriminate].
  exists n, c. auto.
Qed.

Lemma category_is_plain (c : string) :
  isIn categories c = true -> RegExp.isPlain c = true.
Proof.
  unfold isIn, categories. simpl. rewrite !orb_true_iff.
  intros H. repeat destruct H as [H|H];
    try (apply String.eqb_eq in H; subst c; reflexivity).
  discriminate.
Qed.

Section Router.

Local Set Default Proof Using "Type".

Variable resolve : string -> option User.
Variable unauthenticatedMessage : string.
Variable castOther : string -> option ObjectId.
Variable sortRefuses : string -> bool.
Variable fieldLe : string -> Skill -> Skill -> bool.
Variable defaults : Skill.
Variable saveRejects : list Skill -> Skill -> option Exn.

Local Abbreviation getSkills := (Skills.getSkills sortRefuses fieldLe).
Local Abbreviation getSkill := (Skills.getSkill castOther).
Local Abbreviation getAdminAll :=
  (Skills.getAdminAll resolve unauthenticatedMessage sortRefuses fieldLe).
Local Abbreviation postSkill :=
  (Skills.postSkill resolve unauthenticatedMessage defaults saveRejects).
Local Abbreviation putSkill :=
  (Skills.putSkill resolve unauthenticatedMessage castOther saveRejects).
Local Abbreviation deleteSkill :=
  (Skills.deleteSkill resolve unauthenticatedMessage castOther).
Local Abbreviation postBulk :=
  (Skills.postBulk resolve unauthenticatedMessage defaults saveRejects).
Local Abbreviation newSkill := (Skills.newSkill defaults).
Local Abbreviation insertMany := (Skills.insertMany defaults saveRejects).

(** Every way POST / can end: an answer other than 201 with the store as
    it was, or 201 with the new skill put into the store. *)
Lemma postSkill_outcomes (st : Store) (req : Request) :
  let body := sanitize (reqBody req) in
  match postSkill st req with
  | Ok (r, st') =>
      (st' = st /\ status r <> 201)
      \/ exists n c,
           b_name body = Some n /\ b_category body = Some c
           /\ r = mkResponse 201 (Doc (newSkill (nextId st) n c body))
           /\ st' = mkStore (put (newSkill (nextId st) n c body) (docs st))
                      (N.succ (nextId st))
  | Throw _ => False
  | Beyond => True
  end.
Proof.
  intro body. unfold Skills.postSkill, auth, validation, unauthenticated, respond.
  fold body. clearbody body.
  destruct (authorization req) as [h|]; [|left; split; [reflexivity | discriminate]].
  destruct (resolve h) as [u|]; [|left; split; [reflexivity | discriminate]].
  destruct (createErrors body) as [|e es];
    [|left; split; [reflexivity | discriminate]].
  simpl negb. cbv iota.
  destruct (isAdmin u); [|left; split; [reflexivity | discriminate]].
  simpl negb. cbv iota.
  destruct (RegExp.anchoredIgnoreCase (interpolate (b_name body))) as [rn|x|];
    simpl; [| left; split; [reflexivity | discriminate] | exact I].
  destruct (RegExp.anchoredIgnoreCase (interpolate (b_category body))) as [rc|x|];
    simpl; [| left; split; [reflexivity | discriminate] | exact I].
  destruct (findFirst (nameAndCategory rn rc) (docs st)) as [[d|]|x|];
    simpl; [left; split; [reflexivity | discriminate] | |
            left; split; [reflexivity | discriminate] | exact I].
  destruct (b_name body) as [n|]; simpl;
    [|left; split; [reflexivity | discriminate]].
  destruct (b_category body) as [c|]; simpl;
    [|left; split; [reflexivity | discriminate]].
  unfold save. simpl.
  destruct (saveRejects _ _) as [x|]; simpl;
    [left; split; [reflexivity | discriminate]|].
  right. exists n, c. auto.
Qed.

(** Every way PUT /:id can end. *)
Lemma putSkill_outcomes (st : Store) (req : Request) :
  let body := sanitize (reqBody req) in
  match putSkill st req with
  | Ok (r, st') =>
      (st' = st /\ status r <> 200)
      \/ exists skill,
           findById castOther (docs st) (paramId req) = Ok (Some skill)
           /\ r = mkResponse 200 (Doc (applyBody skill body))
           /\ st' = mkStore (put (applyBody skill body) (docs st)) (nextId st)
  | Throw _ => False
  | Beyond => True
  end.
Proof.
  intro body. unfold Skills.putSkill, auth, validation, unauthenticated, respond.
  fold body. clearbody body.
  destruct (authorization req) as [h|]; [|left; split; [reflexivity | discriminate]].
  destruct (resolve h) as [u|]; [|left; split; [reflexivity | discriminate]].
  destruct (updateErrors body) as [|e es];
    [|left; split; [reflexivity | discriminate]].
  simpl negb. cbv iota.
  destruct (isAdmin u); [|left; split; [reflexivity | discriminate]].
  simpl negb. cbv iota.
  destruct (findById castOther (docs st) (paramId req)) as [[skill|]|x|];
    simpl; [| left; split; [reflexivity | discriminate]
            | destruct (isKindObjectId x); left; split;
              first [reflexivity | discriminate]
            | exact I].
  destruct (otherWithPair castOther (docs st) (paramId req) skill body)
    as [[d|]|x|]; simpl;
    [ left; split; [reflexivity | discriminate]
    | | destruct (isKindObjectId x); left; split;
        first [reflexivity | discriminate]
    | exact I].
  unfold save.
  destruct (saveRejects _ _) as [x|]; simpl.
  - destruct (isKindObjectId x); left; split; first [reflexivity | discriminate].
  - right. exists skill. auto.
Qed.

(** Every way DELETE /:id can end. *)
Lemma deleteSkill_outcomes (st : Store) (req : Request) :
  exists r st',
    deleteSkill st req = Ok (r, st')
    /\ ((st' = st /\ status r <> 200)
        \/ exists skill,
             findById castOther (docs st) (paramId req) = Ok (Some skill)
             /\ r = mkResponse 200 (Message "Skill deleted successfully")
             /\ st' = mkStore (others (_id skill) (docs st)) (nextId st)).
Proof.
  unfold Skills.deleteSkill, auth, unauthenticated, respond.
  destruct (authorization req) as [h|];
    [|do 2 eexists; split; [reflexivity | left; split; [reflexivity | discriminate]]].
  destruct (resolve h) as [u|];
    [|do 2 eexists; split; [reflexivity | left; split; [reflexivity | discriminate]]].
  destruct (isAdmin u); simpl;
    [|do 2 eexists; split; [reflexivity | left; split; [reflexivity | discriminate]]].
  unfold findById.
  destruct (castObjectId_cases castOther (paramId req)) as [[o E]|E]; rewrite E; simpl.
  - destruct (List.find _ (docs st)) as [skill|]; simpl;
      do 2 eexists; (split; [reflexivity|]).
    + right. exists skill. auto.
    + left; split; [reflexivity | discriminate].
  - do 2 eexists; split; [reflexivity | left; split; [reflexivity | discriminate]].
Qed.

(** *** The shape of the store *)

Lemma wellFormed_append (st : Store) (s : Skill) :
  wellFormed st -> _id s = nextId st ->
  put s (docs st) = (docs st ++ [s])%list
  /\ wellFormed (mkStore (docs st ++ [s]) (N.succ (nextId st))).
Proof.
  intros [Hnd Hlt] Hid. split.
  - apply put_fresh. intros d Hd E. specialize (Hlt d Hd). rewrite E, Hid in Hlt.
    apply (N.lt_irrefl _ Hlt).
  - split; simpl.
    + rewrite map_app. simpl. apply NoDup_app; [exact Hnd | repeat constructor; intros [] |].
      intros x Hx [<-|[]]. apply in_map_iff in Hx. destruct Hx as (d & E & Hd).
      specialize (Hlt d Hd). rewrite E, Hid in Hlt. apply (N.lt_irrefl _ Hlt).
    + intros d Hd. apply in_app_or in Hd. destruct Hd as [Hd|[<-|[]]].
      * specialize (Hlt d Hd). apply N.lt_lt_succ_r, Hlt.
      * rewrite Hid. apply N.lt_succ_diag_r.
Qed.

(** Removing documents keeps the ids pairwise different. *)
Lemma ids_after_removal (keep : Skill -> bool) (ds : list Skill) :
  NoDup (map _id ds) -> NoDup (map _id (filter keep ds)).
Proof.
  induction ds as [|d ds IH]; simpl; intro H; [constructor|].
  inversion H as [|? ? Hd Hds]; subst.
  destruct (keep d); simpl; [|apply IH, Hds].
  constructor; [|apply IH, Hds].
  intro Hin. apply Hd. apply in_map_iff in Hin. destruct Hin as (y & E & Hy).
  apply in_map_iff. exists y. apply filter_In in Hy. destruct Hy as [Hy _].
  split; assumption.
Qed.

Lemma insertMany_spec (skills : list SkillBody) :
  forall st, wellFormed st ->
    exists st' created err,
      insertMany st skills = (st', created, err)
      /\ docs st' = (docs st ++ created)%list
      /\ wellFormed st'.
Proof.
  induction skills as [|b rest IH]; intros st Hwf; simpl.
  - do 3 eexists. split; [reflexivity|]. rewrite app_nil_r. auto.
  - destruct (b_name b) as [n|]; [destruct (b_category b) as [c|]|].
    + destruct (saveRejects _ _) as [e|].
      * destruct (IH st Hwf) as (st' & created & err & E & Hd & Hw).
        rewrite E. destruct e; do 3 eexists; (split; [reflexivity|]); auto.
      * destruct (wellFormed_append (newSkill (nextId st) n c b) Hwf eq_refl)
          as [Hput Hwf1].
        rewrite Hput.
        destruct (IH _ Hwf1) as (st' & created & err & E & Hd & Hw).
        rewrite E. do 3 eexists. split; [reflexivity|]. split; [|exact Hw].
        rewrite Hd. simpl. rewrite <- app_assoc. reflexivity.
    + destruct (IH st Hwf) as (st' & created & err & E & Hd & Hw).
      rewrite E. do 3 eexists. split; [reflexivity|]. auto.
    + destruct (IH st Hwf) as (st' & created & err & E & Hd & Hw).
      rewrite E. do 3 eexists. split; [reflexivity|]. auto.
Qed.

(** *** The lists *)

(** GET / once the pattern is built and the documents are matched: the
    answer is decided by the sort keys. *)
Lemma getSkills_sorted (st : Store) (q : Query) (r : option RegExp.Pattern)
    (found : list Skill) :
  categoryRegex (q_category q) = Ok r ->
  findAll (visibleInCategory r) (docs st) = Ok found ->
  sortRefuses "order" = false ->
  getSkills st q
  = if sortRefuses (sortKey q)
    then Ok (mkResponse 500 (Message "Server error while fetching skills"))
    else Ok (mkResponse 200
               (Docs (sortBy (lexLe fieldLe ["order"; sortKey q]) found))).
Proof.
  intros Hr Hfound Horder. unfold Skills.getSkills, sortByFields.
  rewrite Hr. simpl bind. rewrite Hfound. simpl bind.
  fold (sortKey q). simpl existsb. rewrite Horder.
  destruct (sortRefuses (sortKey q)); reflexivity.
Qed.

(** X12: without a category parameter, and with the sort keys "order",
    "category" and "name" accepted by the store, the admin list is the
    whole collection, hidden skills included, and the public list GET
    /skills is the visible part of the collection when the store accepts
    the sort parameter (both up to the order) and the 500 answer when the
    store refuses it. *)
Theorem public_list_is_the_visible_part :
  forall (st : Store) (q : Query) (req : Request) (header : string)
         (user : User),
    truthyOpt (q_category q) = false ->
    authorization req = Some header ->
    resolve header = Some user ->
    isAdmin user = true ->
    existsb sortRefuses ["category"; "order"; "name"] = false ->
    (exists all,
       getAdminAll st req = Ok (mkResponse 200 (Docs all), st)
       /\ Permutation all (docs st))
    /\ (sortRefuses (sortKey q) = false ->
        exists pub,
          getSkills st q = Ok (mkResponse 200 (Docs pub))
          /\ Permutation pub (filter isVisible (docs st)))
    /\ (sortRefuses (sortKey q) = true ->
        getSkills st q
        = Ok (mkResponse 500 (Message "Server error while fetching skills"))).
Proof.
  intros st q req header user Hq Hh Hu Hadmin Hkeys.
  assert (sortRefuses "order" = false) as Horder.
  { simpl in Hkeys. destruct (sortRefuses "order"); [|reflexivity].
    destruct (sortRefuses "category"); discriminate Hkeys. }
  assert (getSkills st q
          = if sortRefuses (sortKey q)
            then Ok (mkResponse 500
                       (Message "Server error while fetching skills"))
            else Ok (mkResponse 200
                       (Docs (sortBy (lexLe fieldLe ["order"; sortKey q])
                                (filter isVisible (docs st)))))) as Hget.
  { apply (getSkills_sorted st q (r := None)); [| |exact Horder].
    - unfold categoryRegex. destruct (q_category q) as [c|]; [|reflexivity].
      simpl in Hq. rewrite Hq. reflexivity.
    - apply findAll_on. intros d _. unfold visibleInCategory.
      destruct (isVisible d); reflexivity. }
  split; [|split].
  - unfold Skills.getAdminAll, auth, respond, sortByFields.
    rewrite Hh, Hu, Hadmin, Hkeys. simpl.
    eexists. split; [reflexivity | apply sortBy_perm].
  - intro Hs. rewrite Hs in Hget. eexists. split; [exact Hget|].
    apply sortBy_perm.
  - intro Hs. rewrite Hs in Hget. exact Hget.
Qed.

Lemma getSkills_plain_category (st : Store) (q : Query) (c : string) :
  q_category q = Some c ->
  truthy c = true ->
  RegExp.isPlain c = true ->
  printableDocs (docs st) = true ->
  sortRefuses "order" = false ->
  sortRefuses (sortKey q) = false ->
  getSkills st q
  = Ok (mkResponse 200
          (Docs (sortBy
                   (lexLe fieldLe ["order"; sortKey q])
                   (filter (fun d => isVisible d && eqIgnoreCase c (category d))
                      (docs st))))).
Proof.
  intros Hq Ht Hplain Hprint Horder Hsort.
  rewrite (getSkills_sorted st q
             (r := Some (RegExp.literal c))
             (found := filter (fun d => isVisible d
                                        && eqIgnoreCase c (category d))
                         (docs st))); [rewrite Hsort; reflexivity | | | exact Horder].
  - unfold categoryRegex. rewrite Hq, Ht.
    unfold RegExp.anchoredIgnoreCase. rewrite (SkillsSpec.parse_plain c Hplain).
    reflexivity.
  - apply findAll_on. intros d Hd. unfold visibleInCategory.
    destruct (isVisible d); [|reflexivity]. simpl.
    unfold printableDocs in Hprint. rewrite forallb_forall in Hprint.
    specialize (Hprint d Hd). apply andb_true_iff in Hprint.
    destruct Hprint as [_ Hc]. unfold RegExp.test. rewrite Hc.
    rewrite SkillsSpec.match_literal. reflexivity.
Qed.

(** X13: with a category parameter free of pattern syntax and sort keys
    that the store accepts ("order" and the sort parameter), the public
    list is the visible skills whose category equals the parameter up to
    letter case (names and categories of the collection being printable
    ASCII). *)
Theorem public_list_by_category :
  forall (st : Store) (q : Query) (c : string),
    q_category q = Some c ->
    truthy c = true ->
    RegExp.isPlain c = true ->
    printableDocs (docs st) = true ->
    sortRefuses "order" = false ->
    sortRefuses (sortKey q) = false ->
    exists l,
      getSkills st q = Ok (mkResponse 200 (Docs l))
      /\ Permutation l
           (filter (fun d => isVisible d && eqIgnoreCase c (category d))
              (docs st)).
Proof.
  intros st q c Hq Ht Hplain Hprint Horder Hsort.
  eexists. split;
    [apply (getSkills_plain_category st q Hq Ht Hplain Hprint Horder Hsort)|].
  apply sortBy_perm.
Qed.

(** X14: a name or category parameter in which a character is followed
    by two plus signs (C++, Notepad++) is not a pattern: creating a skill
    of that name ends in 500 with the store as it was, and the public
    list for such a category ends in 500. *)
Theorem stacked_plus_is_server_error :
  forall (st : Store) (req : Request) (header : string) (user : User)
         (p rest : string),
    RegExp.isPlain p = true -> p <> "" ->
    authorization req = Some header ->
    resolve header = Some user ->
    isAdmin user = true ->
    createErrors (sanitize (reqBody req)) = [] ->
    b_name (sanitize (reqBody req)) = Some (p ++ "++" ++ rest)%string ->
    postSkill st req
      = Ok (mkResponse 500 (Message "Server error while creating skill"), st)
    /\ forall q, q_category q = Some (p ++ "++" ++ rest)%string ->
         getSkills st q
         = Ok (mkResponse 500 (Message "Server error while fetching skills")).
Proof.
  intros st req header user p rest Hp Hne Hh Hu Hadmin Herr Hname.
  pose proof (parse_stacked rest Hp Hne) as Hparse. split.
  - unfold Skills.postSkill, auth, validation. rewrite Hh, Hu, Herr, Hadmin.
    simpl negb. cbv iota. rewrite Hname.
    unfold RegExp.anchoredIgnoreCase, interpolate. rewrite Hparse. reflexivity.
  - intros q Hq. unfold Skills.getSkills, categoryRegex. rewrite Hq.
    assert (truthy (p ++ "++" ++ rest) = true) as ->.
    { destruct p; [contradiction | reflexivity]. }
    unfold RegExp.anchoredIgnoreCase. rewrite Hparse. reflexivity.
Qed.

(** X15: GET /skills/:id answers 200 with a skill of the collection
    whose id the parameter casts to, and 404 exactly when there is none,
    a parameter that cannot be cast included; it never answers 500. *)
Theorem getSkill_found_or_404 :
  forall (st : Store) (id : string),
  exists r : Response Body,
    getSkill st id = Ok r
    /\ ((exists s, r = mkResponse 200 (Doc s) /\ In s (docs st)
                   /\ castObjectId castOther id = Ok (_id s))
        \/ (status r = 404
            /\ forall s, In s (docs st) ->
                         castObjectId castOther id <> Ok (_id s))).
Proof.
  intros st id. unfold Skills.getSkill, findById.
  destruct (castObjectId_cases castOther id) as [[o E]|E]; rewrite E; simpl.
  - destruct (List.find _ (docs st)) as [s|] eqn:F; simpl;
      eexists; (split; [reflexivity|]).
    + left. exists s. split; [reflexivity|].
      apply find_id_Some in F. destruct F as [Hin <-]. auto.
    + right. split; [reflexivity|]. intros s Hin [= Hs].
      apply (find_id_None _ F s Hin). symmetry; exact Hs.
  - eexists. split; [reflexivity|]. right. split; [reflexivity|].
    intros s _. discriminate.
Qed.

(** *** Creating, reading, updating, deleting *)

Lemma existsb_find {A} (f : A -> bool) (l : list A) :
  existsb f l = match List.find f l with Some _ => true | None => false end.
Proof.
  induction l as [|x l IH]; [reflexivity|]. simpl.
  destruct (f x); [reflexivity | exact IH].
Qed.

(** X16: for a valid body whose name is free of pattern syntax, POST /
    answers the conflict, with the store as it was, exactly when a skill
    of the collection has the same name and category up to letter case;
    otherwise the new skill is saved and answered with 201, or the
    store's refusal becomes a 500. *)
Theorem create_refuses_exactly_the_duplicates :
  forall (st : Store) (req : Request) (header : string) (user : User)
         (n c : string),
    authorization req = Some header ->
    resolve header = Some user ->
    isAdmin user = true ->
    createErrors (sanitize (reqBody req)) = [] ->
    b_name (sanitize (reqBody req)) = Some n ->
    b_category (sanitize (reqBody req)) = Some c ->
    RegExp.isPlain n = true ->
    printableDocs (docs st) = true ->
    let skill := newSkill (nextId st) n c (sanitize (reqBody req)) in
    postSkill st req
    = if existsb (samePair n c) (docs st)
      then Ok (mkResponse 400
                 (Message "Skill with this name already exists in this category"),
               st)
      else match saveRejects (others (nextId st) (docs st)) skill with
           | None =>
               Ok (mkResponse 201 (Doc skill),
                   mkStore (put skill (docs st)) (N.succ (nextId st)))
           | Some _ =>
               Ok (mkResponse 500 (Message "Server error while creating skill"),
                   st)
           end.
Proof.
  intros st req header user n c Hh Hu Hadmin Herr Hn Hc Hplain Hprint skill.
  destruct (createErrors_nil _ Herr) as (n' & c' & Hn' & Hc' & _ & Hcat).
  rewrite Hc in Hc'. injection Hc' as <-.
  pose proof (category_is_plain c Hcat) as Hcplain.
  unfold Skills.postSkill, auth, validation. rewrite Hh, Hu, Herr, Hadmin.
  simpl negb. cbv iota. rewrite Hn, Hc.
  unfold RegExp.anchoredIgnoreCase, interpolate.
  rewrite (SkillsSpec.parse_plain n Hplain), (SkillsSpec.parse_plain c Hcplain).
  simpl bind.
  rewrite (findFirst_on _ (samePair n c)).
  - rewrite existsb_find. simpl bind.
    destruct (List.find (samePair n c) (docs st)); [reflexivity|].
    unfold save. fold skill. simpl.
    destruct (saveRejects _ _); reflexivity.
  - intros d Hd. unfold printableDocs in Hprint. rewrite forallb_forall in Hprint.
    specialize (Hprint d Hd). apply andb_true_iff in Hprint.
    destruct Hprint as [Hpn Hpc].
    unfold nameAndCategory, RegExp.test. rewrite Hpn, Hpc. simpl.
    rewrite !SkillsSpec.match_literal. reflexivity.
Qed.

Lemma getSkill_by_id (st : Store) (s : Skill) (id : string) :
  In s (docs st) -> NoDup (map _id (docs st)) ->
  castObjectId castOther id = Ok (_id s) ->
  getSkill st id = Ok (mkResponse 200 (Doc s)).
Proof.
  intros Hin Hnd Hcast. unfold Skills.getSkill, findById. rewrite Hcast.
  simpl bind. rewrite (SkillsSpec.find_by_id _ _ Hin Hnd). reflexivity.
Qed.

(** X17: a skill answered with 201 has the fresh id and the trimmed name
    of the request, stands last in the collection, and GET /skills/:id
    with its id answers that skill. *)
Theorem created_skill_can_be_read :
  forall (st st' : Store) (req : Request) (r : Response Body),
    wellFormed st ->
    postSkill st req = Ok (r, st') ->
    status r = 201 ->
    exists s,
      r = mkResponse 201 (Doc s)
      /\ _id s = nextId st
      /\ option_map trim (b_name (reqBody req)) = Some (name s)
      /\ docs st' = (docs st ++ [s])%list
      /\ forall id, castObjectId castOther id = Ok (_id s) ->
           getSkill st' id = Ok (mkResponse 200 (Doc s)).
Proof.
  intros st st' req r Hwf Hpost H201.
  pose proof (postSkill_outcomes st req) as Hout. simpl in Hout.
  rewrite Hpost in Hout.
  destruct Hout as [[_ Hne] | (n & c & Hn & Hc & -> & ->)]; [contradiction|].
  set (s := newSkill (nextId st) n c (sanitize (reqBody req))).
  destruct (wellFormed_append s Hwf eq_refl) as [Hput [Hnd _]].
  exists s. split; [reflexivity|]. split; [reflexivity|].
  split; [exact Hn|]. split; [exact Hput|].
  intros id Hid. apply getSkill_by_id; simpl; [| |exact Hid].
  - fold s. rewrite Hput. apply in_or_app; right; left; reflexivity.
  - fold s. rewrite Hput. exact Hnd.
Qed.

(** X18: POST /, PUT /:id and DELETE /:id change the store only when
    they answer success (201, 200 and 200); an exception never escapes a
    handler (names and categories being patterns of the fragment that
    [RegExp] covers). *)
Theorem skill_errors_keep_the_store :
  forall (st : Store) (req : Request),
    match postSkill st req with
    | Ok (r, st') => status r = 201 \/ st' = st
    | Throw _ => False
    | Beyond => True
    end
    /\ match putSkill st req with
       | Ok (r, st') => status r = 200 \/ st' = st
       | Throw _ => False
       | Beyond => True
       end
    /\ match deleteSkill st req with
       | Ok (r, st') => status r = 200 \/ st' = st
       | Throw _ => False
       | Beyond => True
       end.
Proof.
  intros st req. split; [|split].
  - pose proof (postSkill_outcomes st req) as H. simpl in H.
    destruct (postSkill st req) as [[r st']| |]; auto.
    destruct H as [[-> _] | (n & c & _ & _ & -> & _)]; auto.
  - pose proof (putSkill_outcomes st req) as H. simpl in H.
    destruct (putSkill st req) as [[r st']| |]; auto.
    destruct H as [[-> _] | (s & _ & -> & _)]; auto.
  - destruct (deleteSkill_outcomes st req) as (r & st' & E & H).
    rewrite E. destruct H as [[-> _] | (s & _ & -> & _)]; auto.
Qed.

(** X19: the four mutating skill routes keep the store well formed: ids
    stay pairwise different and below the next fresh id. *)
Theorem skill_routes_keep_ids_unique :
  forall (st st' : Store) (req : Request) (r : Response Body),
    wellFormed st ->
    postSkill st req = Ok (r, st')
    \/ putSkill st req = Ok (r, st')
    \/ deleteSkill st req = Ok (r, st')
    \/ postBulk st req = Ok (r, st') ->
    wellFormed st'.
Proof.
  intros st st' req r Hwf [H | [H | [H | H]]].
  - pose proof (postSkill_outcomes st req) as Hout. simpl in Hout.
    rewrite H in Hout.
    destruct Hout as [[-> _] | (n & c & _ & _ & _ & ->)]; [exact Hwf|].
    destruct (wellFormed_append (newSkill (nextId st) n c (sanitize (reqBody req)))
                Hwf eq_refl) as [-> Hw]. exact Hw.
  - pose proof (putSkill_outcomes st req) as Hout. simpl in Hout.
    rewrite H in Hout.
    destruct Hout as [[-> _] | (s & Hfind & _ & ->)]; [exact Hwf|].
    unfold findById in Hfind. apply bind_Ok_inv in Hfind.
    destruct Hfind as (o & _ & Hfind). injection Hfind as Hfind.
    apply find_id_Some in Hfind. destruct Hfind as [Hin _].
    destruct Hwf as [Hnd Hlt]. split; simpl.
    + rewrite put_ids; [exact Hnd | exists s; auto].
    + intros d Hd. apply put_In in Hd. destruct Hd as [->|Hd]; [|apply Hlt, Hd].
      simpl. apply Hlt, Hin.
  - destruct (deleteSkill_outcomes st req) as (r0 & st0 & E & Hout).
    rewrite E in H. injection H as -> ->.
    destruct Hout as [[-> _] | (s & _ & _ & ->)]; [exact Hwf|].
    destruct Hwf as [Hnd Hlt]. split; simpl.
    + apply ids_after_removal, Hnd.
    + intros d Hd. apply filter_In in Hd. apply Hlt, Hd.
  - unfold Skills.postBulk, auth, unauthenticated, respond in H.
    destruct (authorization req) as [h|]; [|injection H as _ <-; exact Hwf].
    destruct (resolve h) as [u|]; [|injection H as _ <-; exact Hwf].
    destruct (isAdmin u); simpl in H; [|injection H as _ <-; exact Hwf].
    destruct (bulkSkills req) as [[|b rest]|];
      try (injection H as _ <-; exact Hwf).
    destruct (validateEach (b :: rest)) as [r0|items];
      [injection H as _ <-; exact Hwf|].
    destruct (insertMany_spec items Hwf) as (st1 & created & err & E & _ & Hw).
    rewrite E in H.
    destruct err as [e|]; [destruct (isCode11000 e)|];
      injection H as _ <-; exact Hw.
Qed.

(** X20: DELETE /skills/:id by an admin, for the id of a stored skill:
    the answer is 200, exactly the skill with that id leaves the
    collection, GET /skills/:id then answers 404, and so does a second
    DELETE, which changes nothing. *)
Theorem deleted_skill_is_gone :
  forall (st : Store) (req : Request) (header : string) (user : User)
         (o : ObjectId),
    authorization req = Some header ->
    resolve header = Some user ->
    isAdmin user = true ->
    castObjectId castOther (paramId req) = Ok o ->
    (exists s, In s (docs st) /\ _id s = o) ->
    exists st',
      deleteSkill st req
        = Ok (mkResponse 200 (Message "Skill deleted successfully"), st')
      /\ (forall d, In d (docs st') <-> In d (docs st) /\ _id d <> o)
      /\ getSkill st' (paramId req)
         = Ok (mkResponse 404 (Message "Skill not found"))
      /\ deleteSkill st' req
         = Ok (mkResponse 404 (Message "Skill not found"), st').
Proof.
  intros st req header user o Hh Hu Hadmin Hcast (s & Hin & Hid).
  assert (exists old, List.find (fun d => N.eqb (_id d) o) (docs st) = Some old
                      /\ _id old = o) as (old & Hfind & Hold).
  { destruct (List.find (fun d => N.eqb (_id d) o) (docs st)) as [old|] eqn:E.
    - exists old. split; [reflexivity|]. apply (find_id_Some _ _ E).
    - exfalso. apply (find_id_None _ E s Hin Hid). }
  unfold Skills.deleteSkill, Skills.getSkill, auth, findById, respond.
  rewrite Hh, Hu, Hadmin, Hcast. simpl. rewrite Hfind. simpl. rewrite Hold.
  eexists. split; [reflexivity|]. simpl. rewrite find_others. simpl.
  split; [|split; reflexivity].
  intro d. unfold others. rewrite filter_In, negb_true_iff, N.eqb_neq.
  reflexivity.
Qed.

(** X21: a PUT /:id whose body has neither name nor category builds no
    pattern, so it goes through whatever the stored name is: the stored
    fields are overwritten by the ones in the body, name and category
    stay; with no field at all the skill is answered as it is and the
    store is not changed. *)
Theorem update_without_name_or_category :
  forall (st : Store) (req : Request) (header : string) (user : User)
         (skill : Skill),
    wellFormed st ->
    authorization req = Some header ->
    resolve header = Some user ->
    isAdmin user = true ->
    updateErrors (sanitize (reqBody req)) = [] ->
    b_name (reqBody req) = None ->
    b_category (reqBody req) = None ->
    In skill (docs st) ->
    castObjectId castOther (paramId req) = Ok (_id skill) ->
    let skill' := applyBody skill (sanitize (reqBody req)) in
    saveRejects (others (_id skill) (docs st)) skill' = None ->
    putSkill st req
      = Ok (mkResponse 200 (Doc skill'),
            mkStore (put skill' (docs st)) (nextId st))
    /\ name skill' = name skill
    /\ category skill' = category skill
    /\ (reqBody req = noFields ->
        skill' = skill /\ mkStore (put skill' (docs st)) (nextId st) = st).
Proof.
  intros st req header user skill Hwf Hh Hu Hadmin Herr Hn Hc Hin Hcast skill' Hsave.
  assert (List.find (fun d => N.eqb (_id d) (_id skill)) (docs st) = Some skill)
    as Hfind by (apply SkillsSpec.find_by_id; [exact Hin | apply Hwf]).
  split; [|split; [|split]].
  - unfold Skills.putSkill, auth, validation, findById, otherWithPair, respond.
    rewrite Hh, Hu, Herr, Hadmin, Hcast. simpl. rewrite Hfind, Hn, Hc. simpl.
    unfold save. fold skill'.
    change (_id skill') with (_id skill). rewrite Hsave. reflexivity.
  - subst skill'. simpl. rewrite Hn. reflexivity.
  - subst skill'. simpl. rewrite Hc. reflexivity.
  - intro Hbody.
    assert (skill' = skill) as E.
    { subst skill'. rewrite Hbody. destruct skill; reflexivity. }
    split; [exact E|]. rewrite E, (put_same _ Hfind).
    destruct st; reflexivity.
Qed.

(** X22: a caller who is not an admin changes nothing and is shown no
    skill through the five admin routes of the skill router: each of them
    answers 401, 403 or 400 and leaves the store as it was. *)
Theorem other_roles_change_nothing :
  forall (st : Store) (req : Request),
    notAdmin resolve req ->
    forall handler,
      In handler [getAdminAll; postSkill; putSkill; deleteSkill; postBulk] ->
      exists r,
        handler st req = Ok (r, st)
        /\ (status r = 401 \/ status r = 403 \/ status r = 400)
        /\ (forall s, body r <> Doc s)
        /\ (forall l, body r <> Docs l).
Proof.
  intros st req Hnot handler Hin.
  assert (forall h u, authorization req = Some h -> resolve h = Some u ->
                      isAdmin u = false) as Hrole by exact Hnot.
  simpl in Hin.
  destruct Hin as [<-|[<-|[<-|[<-|[<-|[]]]]]];
    unfold Skills.getAdminAll, Skills.postSkill, Skills.putSkill,
      Skills.deleteSkill, Skills.postBulk, auth, validation, unauthenticated,
      respond;
    (destruct (authorization req) as [h|] eqn:Hh;
     [|eexists; split; [reflexivity|]; split; [auto|]; split; discriminate]);
    (destruct (resolve h) as [u|] eqn:Hu;
     [|eexists; split; [reflexivity|]; split; [auto|]; split; discriminate]);
    rewrite (Hrole h u eq_refl Hu); simpl;
    try (eexists; split; [reflexivity|]; split; [auto|]; split; discriminate).
  - destruct (createErrors _); simpl;
      eexists; (split; [reflexivity|]); (split; [auto|]); split; discriminate.
  - destruct (updateErrors _); simpl;
      eexists; (split; [reflexivity|]); (split; [auto|]); split; discriminate.
Qed.

(** *** Bulk creation *)

Lemma validateEach_valid (skills : list SkillBody) :
  forallb validItem skills = true ->
  validateEach skills = inr (map trimItem skills).
Proof.
  induction skills as [|b rest IH]; [reflexivity|].
  simpl. intro H. apply andb_true_iff in H. destruct H as [Hb Hrest].
  unfold validItem in Hb. apply andb_true_iff in Hb. destruct Hb as [Hb Hp].
  apply andb_true_iff in Hb. destruct Hb as [Hn Hc].
  rewrite Hn, Hc. simpl.
  assert (match b_proficiency b with
          | Some p => (p <? 0) || (100 <? p)
          | None => false
          end = false) as ->.
  { destruct (b_proficiency b) as [p|]; [|reflexivity].
    apply andb_true_iff in Hp. destruct Hp as [H0 H100].
    apply Z.leb_le in H0, H100. apply orb_false_iff.
    split; apply Z.ltb_ge; assumption. }
  rewrite (IH Hrest). reflexivity.
Qed.

Lemma validateEach_invalid (skills : list SkillBody) :
  forallb validItem skills = false ->
  exists r, validateEach skills = inl r /\ status r = 400.
Proof.
  induction skills as [|b rest IH]; [discriminate|].
  simpl. intro H.
  destruct (negb (truthyOpt (b_name b)) || negb (truthyOpt (b_category b)))
    eqn:Hhead; [eexists; split; reflexivity|].
  destruct (match b_proficiency b with
            | Some p => (p <? 0) || (100 <? p)
            | None => false
            end) eqn:Hprof; [eexists; split; reflexivity|].
  assert (validItem b = true) as Hb.
  { unfold validItem. apply orb_false_iff in Hhead. destruct Hhead as [H1 H2].
    apply negb_false_iff in H1, H2. rewrite H1, H2. simpl.
    destruct (b_proficiency b) as [p|]; [|reflexivity].
    apply orb_false_iff in Hprof. destruct Hprof as [H0 H100].
    apply Z.ltb_ge in H0, H100. apply andb_true_iff.
    split; apply Z.leb_le; assumption. }
  rewrite Hb in H. simpl in H.
  destruct (IH H) as (r & E & Hr). rewrite E. exists r. auto.
Qed.

Lemma insertMany_all_accepted (items : list SkillBody) :
  (forall ds s, saveRejects ds s = None) ->
  (forall b, In b items -> exists n c, b_name b = Some n /\ b_category b = Some c) ->
  forall st, wellFormed st ->
    exists created,
      insertMany st items
        = (mkStore (docs st ++ created)
             (nextId st + N.of_nat (List.length items)), created, None)
      /\ map name created = map (fun b => interpolate (b_name b)) items
      /\ map category created = map (fun b => interpolate (b_category b)) items.
Proof.
  intros Hacc. induction items as [|b rest IH]; intros Hitems st Hwf.
  - exists []. simpl. rewrite app_nil_r, N.add_0_r. destruct st; auto.
  - destruct (Hitems b (or_introl eq_refl)) as (n & c & Hn & Hc).
    simpl insertMany. rewrite Hn, Hc, Hacc.
    destruct (wellFormed_append (newSkill (nextId st) n c b) Hwf eq_refl)
      as [Hput Hwf1].
    rewrite Hput.
    destruct (IH (fun x Hx => Hitems x (or_intror Hx)) _ Hwf1)
      as (created & E & Hnames & Hcats).
    rewrite E. exists (newSkill (nextId st) n c b :: created).
    simpl. rewrite <- app_assoc. simpl. rewrite Hnames, Hcats, Hn, Hc.
    split; [|split; reflexivity].
    do 3 f_equal.
    replace (N.pos (Pos.of_succ_nat (List.length rest)))
      with (N.of_nat (S (List.length rest))) by reflexivity.
    lia.
Qed.

Lemma insertMany_cons (st : Store) (b : SkillBody) (rest : list SkillBody)
    (n c : string) :
  b_name b = Some n -> b_category b = Some c ->
  insertMany st (b :: rest)
  = match saveRejects (others (nextId st) (docs st)) (newSkill (nextId st) n c b) with
    | None =>
        let '(st', created, err) :=
          insertMany
            (mkStore (put (newSkill (nextId st) n c b) (docs st))
               (N.succ (nextId st))) rest in
        (st', newSkill (nextId st) n c b :: created, err)
    | Some ValidationError => insertMany st rest
    | Some e =>
        let '(st', created, _) := insertMany st rest in
        (st', created, Some e)
    end.
Proof. intros Hn Hc. simpl. rewrite Hn, Hc. reflexivity. Qed.


(** X24: the bulk creation is not atomic: when the store accepts the
    first of two valid elements and refuses the second as a duplicate key,
    the answer is 400 "One or more skills already exist" and the first
    element is in the collection all the same. *)
Theorem bulk_keeps_what_the_store_accepted :
  forall (st : Store) (req : Request) (header : string) (user : User)
         (a b : SkillBody) (na ca nb cb : string),
    wellFormed st ->
    authorization req = Some header ->
    resolve header = Some user ->
    isAdmin user = true ->
    bulkSkills req = Some [a; b] ->
    validItem a = true -> validItem b = true ->
    b_name (trimItem a) = Some na -> b_category (trimItem a) = Some ca ->
    b_name (trimItem b) = Some nb -> b_category (trimItem b) = Some cb ->
    let first := newSkill (nextId st) na ca (trimItem a) in
    let second := newSkill (N.succ (nextId st)) nb cb (trimItem b) in
    saveRejects (others (nextId st) (docs st)) first = None ->
    saveRejects (others (N.succ (nextId st)) (docs st ++ [first])) second
      = Some DuplicateKey ->
    postBulk st req
    = Ok (mkResponse 400 (Details "One or more skills already exist"),
          mkStore (docs st ++ [first]) (N.succ (nextId st))).
Proof.
  intros st req header user a b na ca nb cb Hwf Hh Hu Hadmin Hbulk Ha Hb
    Hna Hca Hnb Hcb first second Hfirst Hsecond.
  unfold Skills.postBulk, auth, respond. rewrite Hh, Hu, Hadmin, Hbulk. simpl negb.
  cbv iota.
  rewrite (validateEach_valid [a; b]) by (simpl; rewrite Ha, Hb; reflexivity).
  destruct (wellFormed_append first Hwf eq_refl) as [Hput _].
  change (map trimItem [a; b]) with [trimItem a; trimItem b].
  rewrite (@insertMany_cons st (trimItem a) [trimItem b] na ca Hna Hca). fold first.
  rewrite Hfirst, Hput.
  rewrite (@insertMany_cons _ (trimItem b) [] nb cb Hnb Hcb).
  change (nextId (mkStore (docs st ++ [first]) (N.succ (nextId st))))
    with (N.succ (nextId st)).
  change (docs (mkStore (docs st ++ [first]) (N.succ (nextId st))))
    with (docs st ++ [first])%list.
  fold second. rewrite Hsecond. reflexivity.
Qed.

(** X25: a bulk request by an admin in which some element lacks a name
    or a category or has a proficiency outside 0..100 is answered 400 and
    nothing is inserted; an empty or missing array is answered 400 too. *)
Theorem bulk_rejects_any_invalid_element :
  forall (st : Store) (req : Request) (header : string) (user : User),
    authorization req = Some header ->
    resolve header = Some user ->
    isAdmin user = true ->
    match bulkSkills req with
    | Some skills => skills = [] \/ forallb validItem skills = false
    | None => True
    end ->
    exists r, postBulk st req = Ok (r, st) /\ status r = 400.
Proof.
  intros st req header user Hh Hu Hadmin Hbad.
  unfold Skills.postBulk, auth, respond. rewrite Hh, Hu, Hadmin. simpl.
  destruct (bulkSkills req) as [[|b rest]|];
    try (eexists; split; reflexivity).
  destruct Hbad as [Hbad|Hbad]; [discriminate|].
  destruct (validateEach_invalid _ Hbad) as (r & E & Hr).
  rewrite E. exists r. auto.
Qed.

(** *** Validation *)




Lemma isInt_spec (z : Z) : isInt z = true <-> Z.abs z < 10 ^ 21.
Proof. unfold isInt. apply Z.ltb_lt. Qed.






Lemma dropWhile_all (p : ascii -> bool) (s : string) :
  forallb_string p s = true -> dropWhile p s = "".
Proof.
  induction s as [|c s IH]; [reflexivity|]. simpl. intro H.
  apply andb_true_iff in H. destruct H as [Hc Hs]. rewrite Hc. apply IH, Hs.
Qed.

Lemma trim_blank (s : string) :
  forallb_string isWhiteSpace s = true -> trim s = "".
Proof.
  intro H. unfold trim, trimStart. rewrite (dropWhile_all _ _ H). reflexivity.
Qed.

(** X27: a name made of white space only is trimmed to the empty string
    in both routes, but only POST / refuses it: POST / answers 400 with
    "Name is required", whereas POST /bulk tests the name before trimming
    it, hands the element to the store and, if the store accepts it,
    answers 201 with a skill whose name is empty. *)
Theorem blank_name_passes_bulk_only :
  forall (st : Store) (post bulk : Request) (header : string) (user : User)
         (b : SkillBody) (n : string),
    wellFormed st ->
    authorization post = Some header ->
    authorization bulk = Some header ->
    resolve header = Some user ->
    isAdmin user = true ->
    reqBody post = b ->
    bulkSkills bulk = Some [b] ->
    b_name b = Some n ->
    forallb_string isWhiteSpace n = true ->
    validItem b = true ->
    (forall ds s, saveRejects ds s = None) ->
    (exists es,
       postSkill st post = Ok (mkResponse 400 (Errors es), st)
       /\ In (mkFieldError "name" "Name is required") es)
    /\ exists s,
         postBulk st bulk
           = Ok (mkResponse 201 (Docs [s]),
                 mkStore (docs st ++ [s]) (nextId st + 1))
         /\ name s = "".
Proof.
  intros st post bulk header user b n Hwf Hp Hb Hu Hadmin Hbody Hbulk Hn Hblank
    Hvalid Hacc.
  split.
  - exists (createErrors (sanitize b)).
    assert (In (mkFieldError "name" "Name is required") (createErrors (sanitize b)))
      as Hin.
    { unfold createErrors. apply in_or_app. left. simpl.
      rewrite Hn. simpl. rewrite (trim_blank _ Hblank). left; reflexivity. }
    split; [|exact Hin].
    unfold Skills.postSkill, auth, validation. rewrite Hp, Hu, Hbody.
    destruct (createErrors (sanitize b)); [destruct Hin | reflexivity].
  - assert (forall x, In x (map trimItem [b]) ->
                      exists n c, b_name x = Some n /\ b_category x = Some c) as Hitems.
    { intros x [<-|[]]. simpl. rewrite Hn.
      unfold validItem in Hvalid.
      apply andb_true_iff in Hvalid. destruct Hvalid as [Hv _].
      apply andb_true_iff in Hv. destruct Hv as [_ Hc].
      destruct (b_category b) as [c|]; [|discriminate]. simpl. eauto. }
    destruct (@insertMany_all_accepted _ Hacc Hitems st Hwf)
      as (created & E & Hnames & _).
    destruct created as [|s [|s' created]]; try discriminate Hnames.
    exists s. split.
    + unfold Skills.postBulk, auth, respond. rewrite Hb, Hu, Hadmin, Hbulk.
      simpl negb. cbv iota.
      rewrite (validateEach_valid [b]) by (simpl; rewrite Hvalid; reflexivity).
      rewrite E. reflexivity.
    + simpl in Hnames. injection Hnames as ->. rewrite Hn. simpl.
      apply trim_blank, Hblank.
Qed.

(** *** Categories *)

(** X28: GET /skills/categories answers every category that some skill
    of the collection has, each once, whether the skill is visible or
    not; so a category whose skills are all hidden is listed although the
    public list for that category, asked with sort keys that the store
    accepts, is empty. *)
Theorem categories_include_hidden_ones :
  forall (st : Store) (q : Query) (s : Skill),
    In s (docs st) ->
    q_category q = Some (category s) ->
    truthy (category s) = true ->
    RegExp.isPlain (category s) = true ->
    printableDocs (docs st) = true ->
    sortRefuses "order" = false ->
    sortRefuses (sortKey q) = false ->
    (forall d, In d (docs st) ->
               eqIgnoreCase (category s) (category d) = true ->
               isVisible d = false) ->
    exists l,
      getCategories st = Ok (mkResponse 200 (Categories l))
      /\ NoDup l
      /\ (forall c, In c l <-> exists d, In d (docs st) /\ category d = c)
      /\ In (category s) l
      /\ getSkills st q = Ok (mkResponse 200 (Docs [])).
Proof.
  intros st q s Hin Hq Ht Hplain Hprint Horder Hsort Hhidden.
  exists (distinct (map category (docs st))).
  split; [reflexivity|]. split; [apply NoDup_nodup|].
  assert (forall c, In c (distinct (map category (docs st)))
                    <-> exists d, In d (docs st) /\ category d = c) as Hall.
  { intro c. unfold distinct. rewrite nodup_In, in_map_iff.
    split; intros (d & H1 & H2); exists d; auto. }
  split; [exact Hall|]. split; [apply Hall; exists s; auto|].
  rewrite (getSkills_plain_category st q Hq Ht Hplain Hprint Horder Hsort).
  rewrite filter_none; [reflexivity|].
  intros d Hd. destruct (eqIgnoreCase (category s) (category d)) eqn:E.
  - rewrite (Hhidden d Hd E). reflexivity.
  - apply andb_false_r.
Qed.

End Router.

(** *** The properties at work on the sample store *)

Ltac sample_store_ok :=
  split;
  [ simpl; repeat constructor; simpl; intuition discriminate
  | simpl; intros d Hd;
    repeat (destruct Hd as [<-|Hd]; [reflexivity|]); destruct Hd ].

Lemma public_list_is_the_visible_part_witness :
  (exists all,
     Skills.getAdminAll Sample.resolve Sample.unauthenticatedMessage
       Sample.sortRefuses Sample.fieldLe Sample.skillStore Scenario.listAll
     = Ok (mkResponse 200 (Docs all), Sample.skillStore)
     /\ Permutation all (docs Sample.skillStore))
  /\ (exists pub,
        Skills.getSkills Sample.sortRefuses Sample.fieldLe Sample.skillStore
          (mkQuery None (Some "proficiency"))
        = Ok (mkResponse 200 (Docs pub))
        /\ Permutation pub (filter isVisible (docs Sample.skillStore)))
  /\ Skills.getSkills Sample.sortRefuses Sample.fieldLe Sample.skillStore
       (mkQuery None (Some ""))
     = Ok (mkResponse 500 (Message "Server error while fetching skills")).
Proof.
  destruct (@public_list_is_the_visible_part Sample.resolve
              Sample.unauthenticatedMessage Sample.sortRefuses Sample.fieldLe
              Sample.skillStore (mkQuery None (Some "proficiency"))
              Scenario.listAll "Bearer admin-token" Sample.adminUser
              eq_refl eq_refl eq_refl eq_refl eq_refl) as (Hall & Hpub & _).
  destruct (@public_list_is_the_visible_part Sample.resolve
              Sample.unauthenticatedMessage Sample.sortRefuses Sample.fieldLe
              Sample.skillStore (mkQuery None (Some ""))
              Scenario.listAll "Bearer admin-token" Sample.adminUser
              eq_refl eq_refl eq_refl eq_refl eq_refl) as (_ & _ & Hrefused).
  split; [exact Hall|]. split; [apply Hpub; reflexivity|].
  apply Hrefused. reflexivity.
Defined.

Lemma public_list_by_category_witness :
  exists l,
    Skills.getSkills Sample.sortRefuses Sample.fieldLe Sample.skillStore
      (mkQuery (Some "FRONTEND") None)
    = Ok (mkResponse 200 (Docs l))
    /\ Permutation l [Sample.skill 1 "React" "frontend" true].
Proof.
  destruct (@public_list_by_category Sample.sortRefuses Sample.fieldLe
              Sample.skillStore (mkQuery (Some "FRONTEND") None) "FRONTEND"
              eq_refl eq_refl eq_refl eq_refl eq_refl eq_refl) as (l & E & P).
  exists l. split; [exact E | exact P].
Defined.

Lemma stacked_plus_is_server_error_witness :
  Skills.postSkill Sample.resolve Sample.unauthenticatedMessage Sample.defaults
    Sample.noIndex Sample.skillStore (Scenario.create "C++" "backend")
  = Ok (mkResponse 500 (Message "Server error while creating skill"),
        Sample.skillStore)
  /\ Skills.getSkills Sample.sortRefuses Sample.fieldLe Sample.skillStore
       (mkQuery (Some "C++") None)
     = Ok (mkResponse 500 (Message "Server error while fetching skills")).
Proof.
  destruct (@stacked_plus_is_server_error Sample.resolve
              Sample.unauthenticatedMessage Sample.sortRefuses Sample.fieldLe
              Sample.defaults
              Sample.noIndex Sample.skillStore
              (Scenario.create "C++" "backend") "Bearer admin-token"
              Sample.adminUser "C" "")
    as [Hpost Hget]; try reflexivity; [discriminate|].
  split; [exact Hpost | apply Hget; reflexivity].
Defined.

Lemma create_refuses_exactly_the_duplicates_witness :
  Skills.postSkill Sample.resolve Sample.unauthenticatedMessage Sample.defaults
    Sample.noIndex Sample.skillStore (Scenario.create "react" "frontend")
  = Ok (mkResponse 400
          (Message "Skill with this name already exists in this category"),
        Sample.skillStore).
Proof.
  exact (@create_refuses_exactly_the_duplicates Sample.resolve
           Sample.unauthenticatedMessage Sample.defaults Sample.noIndex
           Sample.skillStore (Scenario.create "react" "frontend")
           "Bearer admin-token" Sample.adminUser "react" "frontend"
           eq_refl eq_refl eq_refl eq_refl eq_refl eq_refl eq_refl eq_refl).
Defined.

Lemma created_skill_can_be_read_witness :
  exists s,
    mkResponse 201 (Doc Scenario.vue) = mkResponse 201 (Doc s)
    /\ _id s = 4%N
    /\ Some "Vue" = Some (name s)
    /\ docs Scenario.withVue = (docs Sample.skillStore ++ [s])%list
    /\ forall id, castObjectId Sample.castOther id = Ok (_id s) ->
         Skills.getSkill Sample.castOther Scenario.withVue id
         = Ok (mkResponse 200 (Doc s)).
Proof.
  apply (@created_skill_can_be_read Sample.resolve Sample.unauthenticatedMessage
           Sample.castOther Sample.defaults Sample.noIndex Sample.skillStore
           Scenario.withVue (Scenario.create "Vue" "frontend")
           (mkResponse 201 (Doc Scenario.vue)));
    [sample_store_ok | reflexivity | reflexivity].
Defined.

Lemma skill_routes_keep_ids_unique_witness : wellFormed Scenario.withVue.
Proof.
  apply (@skill_routes_keep_ids_unique Sample.resolve
           Sample.unauthenticatedMessage Sample.castOther Sample.defaults
           Sample.noIndex Sample.skillStore Scenario.withVue
           (Scenario.create "Vue" "frontend")
           (mkResponse 201 (Doc Scenario.vue)));
    [sample_store_ok | left; reflexivity].
Defined.

Lemma deleted_skill_is_gone_witness :
  exists st',
    Skills.deleteSkill Sample.resolve Sample.unauthenticatedMessage
      Sample.castOther Sample.skillStore Scenario.onLegacy
    = Ok (mkResponse 200 (Message "Skill deleted successfully"), st')
    /\ (forall d, In d (docs st') <->
                  In d (docs Sample.skillStore) /\ _id d <> 2%N)
    /\ Skills.getSkill Sample.castOther st' "000000000000000000000002"
       = Ok (mkResponse 404 (Message "Skill not found"))
    /\ Skills.deleteSkill Sample.resolve Sample.unauthenticatedMessage
         Sample.castOther st' Scenario.onLegacy
       = Ok (mkResponse 404 (Message "Skill not found"), st').
Proof.
  apply (@deleted_skill_is_gone Sample.resolve Sample.unauthenticatedMessage
           Sample.castOther Sample.skillStore Scenario.onLegacy
           "Bearer admin-token" Sample.adminUser 2%N
           eq_refl eq_refl eq_refl eq_refl).
  exists (Sample.skill 2 "Legacy PHP" "backend" false).
  split; [simpl; auto | reflexivity].
Defined.

Lemma update_without_name_or_category_witness :
  Skills.putSkill Sample.resolve Sample.unauthenticatedMessage Sample.castOther
    Sample.noIndex Sample.skillStore Scenario.raiseReact
  = Ok (mkResponse 200
          (Doc (mkSkill 1 "React" "frontend" "intermediate" 80 "" "#3B82F6"
                  "" 0 true 0)),
        mkStore
          [ mkSkill 1 "React" "frontend" "intermediate" 80 "" "#3B82F6" "" 0
              true 0;
            Sample.skill 2 "Legacy PHP" "backend" false;
            Sample.skill 3 "Docker" "devops" true ]
          4).
Proof.
  refine (proj1 (@update_without_name_or_category Sample.resolve
                   Sample.unauthenticatedMessage Sample.castOther
                   Sample.noIndex Sample.skillStore Scenario.raiseReact
                   "Bearer admin-token" Sample.adminUser
                   (Sample.skill 1 "React" "frontend" true)
                   _ eq_refl eq_refl eq_refl eq_refl eq_refl eq_refl
                   _ eq_refl eq_refl));
    [sample_store_ok | simpl; auto].
Defined.

Lemma other_roles_change_nothing_witness :
  exists r,
    Skills.postSkill Sample.resolve Sample.unauthenticatedMessage
      Sample.defaults Sample.noIndex Sample.skillStore
      (Sample.skillRequest Sample.userToken ""
         (Sample.skillBody (Some "Vue") (Some "frontend")))
    = Ok (r, Sample.skillStore)
    /\ (status r = 401 \/ status r = 403 \/ status r = 400)
    /\ (forall s, body r <> Doc s)
    /\ (forall l, body r <> Docs l).
Proof.
  apply (@other_roles_change_nothing Sample.resolve
           Sample.unauthenticatedMessage Sample.castOther Sample.sortRefuses
           Sample.fieldLe Sample.defaults Sample.noIndex Sample.skillStore
           (Sample.skillRequest Sample.userToken ""
              (Sample.skillBody (Some "Vue") (Some "frontend")))).
  - intros header user H1 H2. injection H1 as <-. vm_compute in H2.
    injection H2 as <-. reflexivity.
  - simpl. auto.
Defined.


Lemma bulk_keeps_what_the_store_accepted_witness :
  Skills.postBulk Sample.resolve Sample.unauthenticatedMessage Sample.defaults
    Sample.exactPairIndex Sample.skillStore
    (Sample.bulkRequest Sample.adminToken
       [ Sample.skillBody (Some "Vue") (Some "frontend");
         Sample.skillBody (Some "Vue ") (Some "frontend") ])
  = Ok (mkResponse 400 (Details "One or more skills already exist"),
        Scenario.withVue).
Proof.
  apply (@bulk_keeps_what_the_store_accepted Sample.resolve
           Sample.unauthenticatedMessage Sample.defaults Sample.exactPairIndex
           Sample.skillStore
           (Sample.bulkRequest Sample.adminToken
              [ Sample.skillBody (Some "Vue") (Some "frontend");
                Sample.skillBody (Some "Vue ") (Some "frontend") ])
           "Bearer admin-token" Sample.adminUser
           (Sample.skillBody (Some "Vue") (Some "frontend"))
           (Sample.skillBody (Some "Vue ") (Some "frontend"))
           "Vue" "frontend" "Vue" "frontend");
    try reflexivity; sample_store_ok.
Defined.

Lemma bulk_rejects_any_invalid_element_witness :
  exists r,
    Skills.postBulk Sample.resolve Sample.unauthenticatedMessage
      Sample.defaults Sample.noIndex Sample.skillStore
      (Sample.bulkRequest Sample.adminToken
         [ Sample.skillBody (Some "Vue") (Some "frontend");
           Scenario.proficiencyOnly 50 ])
    = Ok (r, Sample.skillStore)
    /\ status r = 400.
Proof.
  apply (@bulk_rejects_any_invalid_element Sample.resolve
           Sample.unauthenticatedMessage Sample.defaults Sample.noIndex
           Sample.skillStore
           (Sample.bulkRequest Sample.adminToken
              [ Sample.skillBody (Some "Vue") (Some "frontend");
                Scenario.proficiencyOnly 50 ])
           "Bearer admin-token" Sample.adminUser eq_refl eq_refl eq_refl).
  right. reflexivity.
Defined.


Lemma blank_name_passes_bulk_only_witness :
  (exists es,
     Skills.postSkill Sample.resolve Sample.unauthenticatedMessage
       Sample.defaults Sample.noIndex Sample.skillStore
       (Sample.skillRequest Sample.adminToken "" Scenario.blankName)
     = Ok (mkResponse 400 (Errors es), Sample.skillStore)
     /\ In (mkFieldError "name" "Name is required") es)
  /\ exists s,
       Skills.postBulk Sample.resolve Sample.unauthenticatedMessage
         Sample.defaults Sample.noIndex Sample.skillStore
         (Sample.bulkRequest Sample.adminToken [Scenario.blankName])
       = Ok (mkResponse 201 (Docs [s]),
             mkStore (docs Sample.skillStore ++ [s]) 5)
       /\ name s = "".
Proof.
  apply (@blank_name_passes_bulk_only Sample.resolve
           Sample.unauthenticatedMessage Sample.defaults Sample.noIndex
           Sample.skillStore
           (Sample.skillRequest Sample.adminToken "" Scenario.blankName)
           (Sample.bulkRequest Sample.adminToken [Scenario.blankName])
           "Bearer admin-token" Sample.adminUser Scenario.blankName "   ");
    try reflexivity; sample_store_ok.
Defined.

Lemma categories_include_hidden_ones_witness :
  exists l,
    getCategories Sample.skillStore = Ok (mkResponse 200 (Categories l))
    /\ In "backend" l
    /\ Skills.getSkills Sample.sortRefuses Sample.fieldLe Sample.skillStore
         (mkQuery (Some "backend") None)
       = Ok (mkResponse 200 (Docs [])).
Proof.
  destruct (@categories_include_hidden_ones Sample.sortRefuses Sample.fieldLe
              Sample.skillStore
              (mkQuery (Some "backend") None)
              (Sample.skill 2 "Legacy PHP" "backend" false))
    as (l & E & _ & _ & Hin & Hget); try reflexivity.
  - simpl. auto.
  - simpl. intros d Hd.
    repeat (destruct Hd as [<-|Hd]; [vm_compute; congruence|]). destruct Hd.
  - exists l. split; [exact E|]. split; [exact Hin | exact Hget].
Defined.

End SkillsMore.

(** ** The grouping of the public skill list in the browser *)

Module ClientSpec.

Import Js Mongo Http Client.

Lemma lookup_push (k key : string) (s : Skills.Skill) (acc : Groups) :
  lookup k (push key s acc)
  = if String.eqb key k
    then Some (match lookup key acc with
               | Some l => (l ++ [s])%list
               | None => [s]
               end)
    else lookup k acc.
Proof.
  induction acc as [|[k0 l0] acc IH]; simpl.
  - destruct (String.eqb key k); reflexivity.
  - destruct (String.eqb_spec k0 key) as [->|Hne]; simpl.
    + destruct (String.eqb key k); reflexivity.
    + rewrite IH. destruct (String.eqb_spec key k) as [->|_]; [|reflexivity].
      destruct (String.eqb_spec k0 k) as [->|_]; [contradiction | reflexivity].
Qed.

Lemma lookup_None (key : string) (acc : Groups) :
  lookup key acc = None -> ~ In key (map fst acc).
Proof.
  induction acc as [|[k l] acc IH]; simpl; [tauto|].
  destruct (String.eqb_spec k key) as [->|Hne]; [discriminate|].
  intros H [E|Hin]; [contradiction | apply (IH H Hin)].
Qed.

Lemma keys_push (key : string) (s : Skills.Skill) (acc : Groups) :
  map fst (push key s acc)
  = match lookup key acc with
    | Some _ => map fst acc
    | None => (map fst acc ++ [key])%list
    end.
Proof.
  induction acc as [|[k l] acc IH]; simpl; [reflexivity|].
  destruct (String.eqb_spec k key) as [->|Hne]; simpl; [reflexivity|].
  rewrite IH. destruct (lookup key acc); reflexivity.
Qed.

Lemma lookup_In (acc : Groups) (k : string) (l : list Skills.Skill) :
  NoDup (map fst acc) -> (In (k, l) acc <-> lookup k acc = Some l).
Proof.
  induction acc as [|[k0 l0] acc IH]; simpl; intro Hnd.
  - split; [intros [] | discriminate].
  - inversion Hnd as [|? ? Hnot Hnd']; subst.
    destruct (String.eqb_spec k0 k) as [->|Hne].
    + split.
      * intros [[= ->]|Hin]; [reflexivity|].
        exfalso. apply Hnot. apply (in_map fst) in Hin. exact Hin.
      * intros [= ->]. left; reflexivity.
    + rewrite <- (IH Hnd'). split; [|auto].
      intros [[= E _]|Hin]; [contradiction | exact Hin].
Qed.

Lemma groupsOf_push (acc : Groups) (seen : list Skills.Skill)
    (s : Skills.Skill) :
  groupsOf acc seen ->
  groupsOf (push (categoryName s) s acc) (seen ++ [s]).
Proof.
  intros [Hnd Hlook]. split.
  - rewrite keys_push. destruct (lookup (categoryName s) acc) eqn:E; [exact Hnd|].
    apply NoDup_app; [exact Hnd | repeat constructor; intros [] |].
    intros x Hx [<-|[]]. apply (lookup_None _ _ E Hx).
  - intro k. rewrite lookup_push, filter_app. simpl. unfold inGroup at 2.
    destruct (String.eqb_spec (categoryName s) k) as [<-|Hne].
    + rewrite Hlook. destruct (filter (inGroup (categoryName s)) seen);
        reflexivity.
    + rewrite Hlook, app_nil_r. reflexivity.
Qed.

Lemma fold_None (skills : list Skills.Skill) :
  fold_left groupStep skills None = None.
Proof. induction skills as [|s skills IH]; [reflexivity | exact IH]. Qed.

Lemma fold_groups (rest : list Skills.Skill) :
  forall acc seen,
    groupsOf acc seen ->
    (forall s, In s rest -> isInherited (categoryName s) = false) ->
    exists groups,
      fold_left groupStep rest (Some acc) = Some groups
      /\ groupsOf groups (seen ++ rest).
Proof.
  induction rest as [|s rest IH]; intros acc seen Hinv Hok.
  - exists acc. rewrite app_nil_r. auto.
  - simpl. rewrite (Hok s (or_introl eq_refl)).
    destruct (IH _ _ (groupsOf_push s Hinv) (fun x Hx => Hok x (or_intror Hx)))
      as (groups & E & Hg).
    exists groups. rewrite <- app_assoc in Hg. auto.
Qed.

Lemma fold_inherited (rest : list Skills.Skill) :
  forall acc,
    (exists s, In s rest /\ isInherited (categoryName s) = true) ->
    fold_left groupStep rest (Some acc) = None.
Proof.
  induction rest as [|s rest IH]; intros acc (x & Hin & Hx); [destruct Hin|].
  simpl. destruct (isInherited (categoryName s)) eqn:E; [apply fold_None|].
  apply IH. destruct Hin as [->|Hin]; [congruence | eauto].
Qed.

(** X29: the grouping of the public skill list on the home page raises
    an error exactly when the heading of some skill (its category, "other"
    when empty, with the first letter in upper case) names a property that
    every object inherits; otherwise there is one group per heading in
    use, and the group of a heading holds exactly the skills of that
    heading, in the order of the list. *)
Theorem skills_are_grouped_by_heading :
  forall skills : list Skills.Skill,
    match groupedSkills skills with
    | None => exists s, In s skills /\ isInherited (categoryName s) = true
    | Some groups =>
        (forall s, In s skills -> isInherited (categoryName s) = false)
        /\ NoDup (map fst groups)
        /\ forall k l,
             In (k, l) groups <->
             l <> [] /\ l = filter (inGroup k) skills
    end.
Proof.
  intro skills.
  change (groupedSkills skills)
    with (fold_left groupStep skills (Some ([] : Groups))).
  destruct (existsb (fun s => isInherited (categoryName s)) skills) eqn:E.
  - apply existsb_exists in E.
    rewrite (fold_inherited skills ([] : Groups) E). exact E.
  - assert (forall s, In s skills -> isInherited (categoryName s) = false) as Hok.
    { intros s Hs. destruct (isInherited (categoryName s)) eqn:Hi; [|reflexivity].
      assert (existsb (fun s => isInherited (categoryName s)) skills = true)
        by (apply existsb_exists; eauto). congruence. }
    assert (groupsOf ([] : Groups) []) as Hinit
      by (split; [constructor | reflexivity]).
    destruct (fold_groups skills Hinit Hok) as (groups & Hfold & [Hnd Hlook]).
    simpl in Hlook. rewrite Hfold. split; [exact Hok|]. split; [exact Hnd|].
    intros k l. rewrite (lookup_In groups k l Hnd), Hlook.
    destruct (filter (inGroup k) skills) as [|x xs].
    + split; [discriminate | intros [H ->]; contradiction].
    + split; [intros [= <-]; split; [discriminate | reflexivity]
             | intros [_ ->]; reflexivity].
Qed.

End ClientSpec.
